(** * ZenBeasts bot hub: lifecycle supervision

    A shallow embedding of [bot-hub/bot_base.py], the supervision part of
    [bot-hub/orchestrator.py], the error log and the connection pool of
    [bot-hub/utils/db.py] and parts of the workers under [bot-hub/bots], with
    the properties of the supervisor stated over it.

    Python objects live in a store and are referred to by location, so that
    two references to one dictionary see each other's writes.  Methods are
    computations in a state-and-exception monad: the state survives a raised
    exception, and [try_except] is Python's [try ... except Exception]. *)

From Stdlib Require Import ZArith String List Lia Permutation Sorted.
From stdpp Require Import gmap strings list fin_maps.

(** ** Values, exceptions and the monad *)

Definition loc := positive.

(** The values the supervisor handles.  A float is only ever a reading of
    [time.time()] or a difference of two; it is kept as a whole number of
    microseconds, and so is a [datetime].  [VRef] is a reference to a
    dictionary or a list in the store. *)
Inductive pyval : Type :=
| VNone
| VBool (b : bool)
| VInt (n : Z)
| VFloat (us : Z)
| VStr (s : string)
| VRef (l : loc)
| VDatetime (us : Z).

Global Instance pyval_eq_dec : EqDecision pyval.
Proof. solve_decision. Defined.

Abbreviation pydict := (gmap string pyval).

(** Exceptions derived from [Exception], the ones an [except Exception]
    clause handles; [str] is Python's [str(e)]. *)
Record exn := PyExn { exn_class : string; exn_msg : string }.

Definition str (e : exn) : string := exn_msg e.

Definition KeyError (k : string) : exn := PyExn "KeyError" ("'" +:+ k +:+ "'").
Definition TypeError (msg : string) : exn := PyExn "TypeError" msg.

Inductive outcome (A : Type) : Type :=
| Ret (a : A)
| Raise (e : exn).
Arguments Ret {A} a.
Arguments Raise {A} e.

Definition SE (S A : Type) : Type := S → outcome A * S.

Global Instance SE_ret {S} : MRet (SE S) := λ A a s, (Ret a, s).

Global Instance SE_bind {S} : MBind (SE S) := λ A B f m s,
  match m s with
  | (Ret a, s') => f a s'
  | (Raise e, s') => (Raise e, s')
  end.

Definition raise {S A} (e : exn) : SE S A := λ s, (Raise e, s).

Definition try_except {S A} (body : SE S A) (handler : exn → SE S A) : SE S A :=
  λ s, match body s with
       | (Ret a, s') => (Ret a, s')
       | (Raise e, s') => handler e s'
       end.

Definition gets {S A} (f : S → A) : SE S A := λ s, (Ret (f s), s).
Definition modify {S} (f : S → S) : SE S unit := λ s, (Ret tt, f s).

(** ** The worker side: [bot_base.py] *)

(** A [BotBase] instance.  [name] is the class name ([self.__class__.__name__]);
    [stats] refers to the statistics dictionary.  The configuration blob and the
    logger handle are not read by the supervisor and are left out. *)
Record Bot := MkBot {
  name : string;
  running : bool;
  healthy : bool;
  last_activity : option string;
  stats : loc
}.

Global Instance Bot_inhabited : Inhabited Bot :=
  populate (MkBot "" false false None 1%positive).

Definition set_running (v : bool) (b : Bot) : Bot :=
  MkBot (name b) v (healthy b) (last_activity b) (stats b).
Definition set_healthy (v : bool) (b : Bot) : Bot :=
  MkBot (name b) (running b) v (last_activity b) (stats b).
Definition set_last_activity (v : option string) (b : Bot) : Bot :=
  MkBot (name b) (running b) (healthy b) v (stats b).

(** One line written through a [logging.Logger]. *)
Record LogRecord := MkLog { log_logger : string; log_level : string; log_msg : string }.

(** The world a worker runs in: the dictionaries, the worker objects, the
    system clock, the log and the lists.  The clock is an oracle: its [n]-th
    reading gives [time.time()] (microseconds) and
    [datetime.now().isoformat()]; nothing is assumed about it, in particular
    not that it is monotone.  [sleep_max] is the longest wait, in seconds,
    that the operating system accepts from [time.sleep]: the deadline, the
    monotonic clock plus the wait, has to stay below 2^63 nanoseconds. *)
Record Env := MkEnv {
  dicts : gmap loc pydict;
  objs : gmap loc Bot;
  clock : nat → Z * string;
  ticks : nat;
  logs : list LogRecord;
  lists : gmap loc (list pyval);
  sleep_max : Z
}.

Definition set_dicts (f : gmap loc pydict → gmap loc pydict) (σ : Env) : Env :=
  MkEnv (f (dicts σ)) (objs σ) (clock σ) (ticks σ) (logs σ) (lists σ) (sleep_max σ).
Definition set_objs (f : gmap loc Bot → gmap loc Bot) (σ : Env) : Env :=
  MkEnv (dicts σ) (f (objs σ)) (clock σ) (ticks σ) (logs σ) (lists σ) (sleep_max σ).
Definition tick (σ : Env) : Env :=
  MkEnv (dicts σ) (objs σ) (clock σ) (S (ticks σ)) (logs σ) (lists σ) (sleep_max σ).
Definition add_log (r : LogRecord) (σ : Env) : Env :=
  MkEnv (dicts σ) (objs σ) (clock σ) (ticks σ) (logs σ ++ [r]) (lists σ) (sleep_max σ).
Definition set_lists (f : gmap loc (list pyval) → gmap loc (list pyval)) (σ : Env) : Env :=
  MkEnv (dicts σ) (objs σ) (clock σ) (ticks σ) (logs σ) (f (lists σ)) (sleep_max σ).

Abbreviation BotM := (SE Env).

(** [time.time()] and [datetime.now().isoformat()]. *)
Definition time_time : BotM Z := λ σ, (Ret (fst (clock σ (ticks σ))), tick σ).
Definition now_isoformat : BotM string := λ σ, (Ret (snd (clock σ (ticks σ))), tick σ).

(** Attribute reads and writes on [self]. *)
Definition getattr {A} (self : loc) (field : Bot → A) : BotM A :=
  gets (λ σ, field (objs σ !!! self)).
Definition setattr (self : loc) (f : Bot → Bot) : BotM unit :=
  modify (λ σ, set_objs (λ m, <[self := f (m !!! self)]> m) σ).

(** Dictionary operations: [d[k]], [d[k] = v], [d.copy()] and a dictionary
    display [{...}]. *)
Definition deref (d : loc) : BotM pydict := gets (λ σ, dicts σ !!! d).
Definition dict_getitem (d : loc) (k : string) : BotM pyval := λ σ,
  match (dicts σ !!! d) !! k with
  | Some v => (Ret v, σ)
  | None => (Raise (KeyError k), σ)
  end.
Definition dict_setitem (d : loc) (k : string) (v : pyval) : BotM unit :=
  modify (set_dicts (λ h, <[d := <[k := v]> (h !!! d)]> h)).
(** [d1[k1][k2]]. *)
Definition dict_getitem2 (d : loc) (k1 k2 : string) : BotM pyval :=
  v ← dict_getitem d k1;
  match v with
  | VRef d' => dict_getitem d' k2
  | _ => raise (TypeError "object is not subscriptable")
  end.
(** Any in-place change of the dictionary [d] ([d[k] = v], [del d[k]],
    [d.update(...)], [d.clear()], ...). *)
Definition dict_mutate (d : loc) (f : pydict → pydict) : BotM unit :=
  modify (set_dicts (λ h, <[d := f (h !!! d)]> h)).
Definition dict_new (content : pydict) : BotM loc := λ σ,
  let l := fresh (dom (dicts σ)) in
  (Ret l, set_dicts (λ h, <[l := content]> h) σ).
Definition dict_copy (d : loc) : BotM loc :=
  content ← deref d;
  dict_new content.

Definition logger (self : loc) (level msg : string) : BotM unit :=
  n ← getattr self name;
  modify (add_log (MkLog n level msg)).

(** Python's truth value of an object, [v + 1] and [time.time() - v]. *)
Definition truth (v : pyval) : BotM bool :=
  match v with
  | VNone => mret false
  | VBool b => mret b
  | VInt n => mret (negb (n =? 0)%Z)
  | VFloat t => mret (negb (t =? 0)%Z)
  | VStr s => mret (negb (String.eqb s ""))
  | VRef l =>
      items ← gets (λ σ, lists σ !! l);
      match items with
      | Some xs => mret (negb (bool_decide (xs = [])))
      | None => d ← deref l; mret (negb (bool_decide (d = ∅)))
      end
  | VDatetime _ => mret true
  end.

Definition py_add_one (v : pyval) : BotM pyval :=
  match v with
  | VInt n => mret (VInt (n + 1))
  | VBool b => mret (VInt (Z.b2z b + 1))
  | VFloat t => mret (VFloat (t + 1000000))
  | _ => raise (TypeError "unsupported operand type(s) for +=")
  end.

Definition float_sub (now : Z) (v : pyval) : BotM Z :=
  match v with
  | VFloat t => mret (now - t)%Z
  | VInt n => mret (now - n * 1000000)%Z
  | VBool b => mret (now - Z.b2z b * 1000000)%Z
  | _ => raise (TypeError "unsupported operand type(s) for -")
  end.

Definition opt_str (o : option string) : pyval :=
  match o with Some s => VStr s | None => VNone end.

Module BotBase.

(** [__init__]: the flags and a fresh statistics dictionary with all
    counters at zero.  [cls] is the name of the concrete class. *)
Definition __init__ (cls : string) : BotM loc :=
  st ← dict_new (<["start_time" := VNone]> (<["total_runs" := VInt 0]>
          (<["successful_runs" := VInt 0]> (<["failed_runs" := VInt 0]>
          (<["last_error" := VNone]> ∅)))));
  self ← (λ σ, let l := fresh (dom (objs σ)) in
               (Ret l, set_objs (λ m, <[l := MkBot cls false true None st]> m) σ));
  logger self "info" (cls +:+ " initialized");;
  mret self.

Definition is_running (self : loc) : BotM bool := getattr self running.
Definition is_healthy (self : loc) : BotM bool := getattr self healthy.
Definition get_last_activity (self : loc) : BotM (option string) :=
  getattr self last_activity.

(** [return self.stats.copy()]: a new dictionary with the same items. *)
Definition get_stats (self : loc) : BotM loc :=
  st ← getattr self stats;
  dict_copy st.

Definition _get_uptime (self : loc) : BotM pyval :=
  st ← getattr self stats;
  t0 ← dict_getitem st "start_time";
  started ← truth t0;
  if started : bool then
    now ← time_time;
    st' ← getattr self stats;
    t0' ← dict_getitem st' "start_time";
    d ← float_sub now t0';
    mret (VInt (d ÷ 1000000))
  else mret VNone.

(** [health_check]: the returned dictionary holds [self.stats] itself under
    the key ['stats'], not a copy of it. *)
Definition health_check (self : loc) : BotM loc :=
  h ← getattr self healthy;
  r ← getattr self running;
  la ← getattr self last_activity;
  up ← _get_uptime self;
  st ← getattr self stats;
  dict_new (<["healthy" := VBool h]> (<["running" := VBool r]>
           (<["last_activity" := opt_str la]> (<["uptime" := up]>
           (<["stats" := VRef st]> ∅))))).

(** [d[k] += 1] on the statistics dictionary. *)
Definition incr (self : loc) (k : string) : BotM unit :=
  st ← getattr self stats;
  v ← dict_getitem st k;
  v' ← py_add_one v;
  dict_setitem st k v'.

Definition _record_run (self : loc) (success : bool) (error : pyval) : BotM unit :=
  incr self "total_runs";;
  (if success then incr self "successful_runs"
   else
     incr self "failed_runs";;
     st ← getattr self stats;
     dict_setitem st "last_error" error);;
  ts ← now_isoformat;
  setattr self (set_last_activity (Some ts)).

(** [safe_run]; [run] is the subclass's [run] method. *)
Definition safe_run (run : loc → BotM unit) (self : loc) : BotM unit :=
  try_except
    (n ← getattr self name;
     logger self "info" ("Starting " +:+ n +:+ " run...");;
     run self;;
     _record_run self true VNone;;
     n' ← getattr self name;
     logger self "info" (n' +:+ " run completed successfully"))
    (λ e,
     n ← getattr self name;
     logger self "error" ("Error in " +:+ n +:+ " run: " +:+ str e);;
     _record_run self false (VStr (str e));;
     setattr self (set_healthy false)).

End BotBase.

(** ** Concrete workers *)

(** The three abstract methods of [BotBase], as a subclass supplies them. *)
Record BotClass := MkClass {
  start : loc → BotM unit;
  stop : loc → BotM unit;
  run : loc → BotM unit
}.

(** [time.sleep] inside a worker thread: time passing shows only through
    the clock. *)
Definition sleep (secs : Z) : BotM unit := mret tt.

(** [while self.running: body], observed for at most [fuel] iterations. *)
Fixpoint while_running (fuel : nat) (self : loc) (body : BotM unit) : BotM unit :=
  match fuel with
  | O => mret tt
  | S n =>
      r ← getattr self running;
      if r : bool then body;; while_running n self body else mret tt
  end.

(** The fixture of [tests/conftest.py]. *)
Module MockBot.

Definition start (self : loc) : BotM unit := setattr self (set_running true).
Definition stop (self : loc) : BotM unit := setattr self (set_running false).
Definition run (self : loc) : BotM unit := mret tt.

Definition cls : BotClass := MkClass start stop run.

End MockBot.

(** [bots/monitoring_bot.py].  [work] stands for the body of one monitoring
    cycle (collecting metrics, probing services, alerting, storing), which
    talks to the outside world and may raise; [fuel] bounds the iterations of
    the loop that are observed.  [start] calls [self.run()], which a subclass
    may override, so it takes the [run] it dispatches to. *)
Module MonitoringBot.

Definition start (run : loc → BotM unit) (self : loc) : BotM unit :=
  setattr self (set_running true);;
  t ← time_time;
  st ← getattr self stats;
  dict_setitem st "start_time" (VFloat t);;
  logger self "info" "MonitoringBot started";;
  run self.

Definition stop (self : loc) : BotM unit :=
  setattr self (set_running false);;
  logger self "info" "MonitoringBot stopped".

Definition run (work : loc → BotM unit) (fuel : nat) (self : loc) : BotM unit :=
  while_running fuel self
    (try_except
       (work self;;
        sleep 60 (* self.check_interval, 60 unless configured *))
       (λ e,
        logger self "error" ("Error in MonitoringBot loop: " +:+ str e);;
        setattr self (set_healthy false);;
        sleep 60)).

Definition cls (work : loc → BotM unit) (fuel : nat) : BotClass :=
  MkClass (start (run work fuel)) stop (run work fuel).

(** A subclass that overrides [run] only. *)
Definition subclass (run' : loc → BotM unit) : BotClass :=
  MkClass (start run') stop run'.

End MonitoringBot.

(** [bots/twitter_bot.py], the one worker whose loop goes through
    [safe_run].  [run] is the posting logic of one cycle and [growth] the
    statement [if self.growth_mode: self.growth_automation()]; both talk to
    the outside world and may raise. *)
Module TwitterBot.

Definition bot_loop (run growth : loc → BotM unit) (fuel : nat) (self : loc) : BotM unit :=
  while_running fuel self
    (try_except
       (BotBase.safe_run run self;;
        growth self;;
        sleep 300)
       (λ e,
        logger self "error" ("Error in bot loop: " +:+ str e);;
        sleep 60)).

Definition start (run growth : loc → BotM unit) (fuel : nat) (self : loc) : BotM unit :=
  setattr self (set_running true);;
  t ← time_time;
  st ← getattr self stats;
  dict_setitem st "start_time" (VFloat t);;
  logger self "info" "Twitter Bot started";;
  bot_loop run growth fuel self.

Definition stop (self : loc) : BotM unit :=
  setattr self (set_running false);;
  logger self "info" "Twitter Bot stopped".

Definition cls (run growth : loc → BotM unit) (fuel : nat) : BotClass :=
  MkClass (start run growth fuel) stop run.

End TwitterBot.

(** [bots/discord_bot.py].  [_load_user_data] reads the saved user data and
    catches what goes wrong; [bot_run] is [self.bot.run(token)], which
    returns when the client is closed, and [bot_close] is
    [asyncio.run(self.bot.close())].  The last two belong to the client
    library, talk to the network and may raise.  [run] is [pass]. *)
Module DiscordBot.

Definition start (_load_user_data bot_run : loc → BotM unit) (self : loc) : BotM unit :=
  setattr self (set_running true);;
  t ← time_time;
  st ← getattr self stats;
  dict_setitem st "start_time" (VFloat t);;
  _load_user_data self;;
  logger self "info" "Starting Discord Bot...";;
  bot_run self.

Definition stop (bot_close : loc → BotM unit) (self : loc) : BotM unit :=
  setattr self (set_running false);;
  bot_close self;;
  logger self "info" "Discord Bot stopped".

Definition run (self : loc) : BotM unit := mret tt.

Definition cls (_load_user_data bot_run bot_close : loc → BotM unit) : BotClass :=
  MkClass (start _load_user_data bot_run) (stop bot_close) run.

End DiscordBot.

(** ** The event store: [utils/db.py] *)

Module ConnectionPool.

(** The pooling state of a [Database].  A connection is known by the number
    of the [_init_connection] call that made it; [connect_error] is an
    oracle for what that call raises, if anything.  [closed] and [yielded]
    record the connections closed and the connections given to a [with]
    block, in order. *)
Record Pool := MkPool {
  _connection_pool : list nat;
  pool_size : Z;
  connect_error : nat → option exn;
  connects : nat;
  closed : list nat;
  yielded : list nat
}.

Definition set_pool (p : list nat) (s : Pool) : Pool :=
  MkPool p (pool_size s) (connect_error s) (connects s) (closed s) (yielded s).

Abbreviation PoolM := (SE Pool).

(** [sqlite3.connect] and the three [PRAGMA]s: a connection or an exception. *)
Definition _init_connection : PoolM nat := λ s,
  let n := connects s in
  let s' := MkPool (_connection_pool s) (pool_size s) (connect_error s) (S n)
              (closed s) (yielded s) in
  match connect_error s n with
  | Some e => (Raise e, s')
  | None => (Ret n, s')
  end.

Definition conn_close (conn : nat) : PoolM unit :=
  modify (λ s, MkPool (_connection_pool s) (pool_size s) (connect_error s) (connects s)
                 (closed s ++ [conn]) (yielded s)).

Definition yield (conn : nat) : PoolM unit :=
  modify (λ s, MkPool (_connection_pool s) (pool_size s) (connect_error s) (connects s)
                 (closed s) (yielded s ++ [conn])).

(** [get_connection] up to its [yield]: the last connection of the pool
    ([list.pop()]), or a new one when the pool is empty. *)
Definition get_connection_enter : PoolM nat :=
  p ← gets _connection_pool;
  conn ← match last p with
         | Some conn => modify (set_pool (removelast p));; mret conn
         | None => _init_connection
         end;
  yield conn;;
  mret conn.

(** The [finally] part of [get_connection], for the connection it gave out. *)
Definition get_connection_exit (conn : nat) : PoolM unit :=
  p ← gets _connection_pool;
  size ← gets pool_size;
  if (Z.of_nat (length p) <? size)%Z then modify (set_pool (p ++ [conn]))
  else conn_close conn.

(** [with self.get_connection() as conn: body].  When no connection could be
    made, [conn] is still [None] in the [finally] part and nothing is given
    back; otherwise the connection is given back however [body] ends. *)
Definition with_connection {A} (body : nat → PoolM A) : PoolM A := λ s,
  match get_connection_enter s with
  | (Raise e, s1) => (Raise e, s1)
  | (Ret conn, s1) =>
      match body conn s1 with
      | (r, s2) =>
          match get_connection_exit conn s2 with
          | (Ret _, s3) => (r, s3)
          | (Raise e, s3) => (Raise e, s3)
          end
      end
  end.

End ConnectionPool.

(** A row of the table [bot_errors], as far as both [CREATE TABLE]
    statements of the repository agree on it: the one in
    [Database._migration_001_initial_schema] and the one in
    [BotOrchestrator.init_database] declare [id INTEGER PRIMARY KEY
    AUTOINCREMENT] and the [TEXT NOT NULL] columns [bot_name], [error] and
    [timestamp].  What a row holds in further columns is not kept. *)
Record ErrorRow := MkErr {
  err_id : Z;
  err_bot_name : string;
  err_error : string;
  err_timestamp : string
}.

Global Instance ErrorRow_eq_dec : EqDecision ErrorRow.
Proof. solve_decision. Defined.

(** The table: the names of the columns it has beyond those four (each
    nullable or with a default, as [severity] and [resolved] are in the
    schema of [utils/db.py]), its rows in the order of their keys, and the
    largest key ever given out, which [AUTOINCREMENT] keeps in
    [sqlite_sequence]. *)
Record Table := MkTable {
  more_columns : list string;
  table_rows : list ErrorRow;
  table_seq : Z
}.

(** The two statements the repository runs on [bot_errors] through
    [Database.execute], with their parameters: the [INSERT] of
    [Database.insert], which names the column [severity] when
    [log_bot_error] calls it and does not in [_record_bot_error], and the
    [SELECT] of [get_bot_errors]. *)
Inductive statement : Type :=
| InsertBotErrors (bot_name error : string) (severity : option string) (timestamp : string)
| SelectBotErrors (bot_name : string) (limit : Z).

(** A [Database].  The SQL engine is not part of the repository: the file is
    known by its table [bot_errors], if it has one; [engine_error] is an
    oracle for what else the engine raises on the [n]-th statement it is
    handed or on committing it (a locked or damaged file, a full disk, a text
    beyond its length limit).  [db_log] records the failures the handler of
    [execute] wrote to the module's log, three lines each: the error, the
    query and its parameters. *)
Record Database := MkDb {
  pool : ConnectionPool.Pool;
  bot_errors : option Table;
  executed : nat;
  engine_error : nat → option exn;
  db_log : list (exn * statement)
}.

Definition set_db_pool (p : ConnectionPool.Pool) (d : Database) : Database :=
  MkDb p (bot_errors d) (executed d) (engine_error d) (db_log d).

(** ** The orchestrator side: [orchestrator.py] *)

(** What the orchestrator does to its collaborators, in order: lines written
    to its log, methods called on workers (with the answer, for
    [is_healthy]), [time.sleep] and submissions to the thread pool. *)
Inductive event : Type :=
| Log (level msg : string)
| CallStart (bot : loc)
| CallStop (bot : loc)
| CallIsHealthy (bot : loc) (answer : bool)
| Sleep (secs : pyval)
| Submit (bot_name : string) (bot : loc).

Global Instance event_eq_dec : EqDecision event.
Proof. solve_decision. Defined.

(** The state of a [BotOrchestrator] together with the world of its workers.
    [bots] is the registry, a dictionary kept as the list of its items in
    insertion order. *)
Record World := MkWorld {
  env : Env;
  bots : list (string * loc);
  orch_running : bool;
  config : gmap string pydict;
  db : Database;
  trace : list event
}.

Definition set_env (σ : Env) (w : World) : World :=
  MkWorld σ (bots w) (orch_running w) (config w) (db w) (trace w).
Definition set_bots (r : list (string * loc)) (w : World) : World :=
  MkWorld (env w) r (orch_running w) (config w) (db w) (trace w).
Definition set_db (d : Database) (w : World) : World :=
  MkWorld (env w) (bots w) (orch_running w) (config w) d (trace w).
Definition add_event (e : event) (w : World) : World :=
  MkWorld (env w) (bots w) (orch_running w) (config w) (db w) (trace w ++ [e]).

Abbreviation OrchM := (SE World).

(** A worker-side computation run from the orchestrator's thread, and a
    call of a method of [self.db]. *)
Definition lift {A} (m : BotM A) : OrchM A := λ w,
  match m (env w) with (r, σ') => (r, set_env σ' w) end.

Definition lift_db {A} (m : SE Database A) : OrchM A := λ w,
  match m (db w) with (r, d') => (r, set_db d' w) end.

Definition emit (e : event) : OrchM unit := modify (add_event e).

Fixpoint for_each {S A} (l : list A) (body : A → SE S unit) : SE S unit :=
  match l with
  | [] => mret tt
  | x :: l' => body x;; for_each l' body
  end.

(** Dictionary operations on the registry. *)
Fixpoint reg_lookup (k : string) (r : list (string * loc)) : option loc :=
  match r with
  | [] => None
  | (k', v) :: r' => if decide (k' = k) then Some v else reg_lookup k r'
  end.

Definition reg_delete (k : string) (r : list (string * loc)) : list (string * loc) :=
  filter (λ p, p.1 ≠ k) r.

Fixpoint reg_set (k : string) (v : loc) (r : list (string * loc)) : list (string * loc) :=
  match r with
  | [] => [(k, v)]
  | (k', v') :: r' => if decide (k' = k) then (k, v) :: r' else (k', v') :: reg_set k v r'
  end.

(** What [time.sleep] raises, if anything, for a length given in
    microseconds.  The length is turned into nanoseconds in 64 bits; a
    negative one is refused; the system call fails for a wait beyond
    [sleep_max].  A wait of up to an hour is taken to fit: it does on a
    machine that has been up for less than 292 years. *)
Definition sleep_error (σ : Env) (us : Z) : option exn :=
  if ((us * 1000 <? -9223372036854775808) || (9223372036854775807 <? us * 1000))%Z
  then Some (PyExn "OverflowError" "timestamp too large to convert to C _PyTime_t")
  else if (us <? 0)%Z then Some (PyExn "ValueError" "sleep length must be non-negative")
  else if (us <=? 3600000000)%Z then None
  else if (sleep_max σ * 1000000 <? us)%Z then Some (PyExn "OSError" "[Errno 22] Invalid argument")
  else None.

(** The name of the type of a value, as error messages show it. *)
Definition type_name (σ : Env) (v : pyval) : string :=
  match v with
  | VNone => "NoneType"
  | VBool _ => "bool"
  | VInt _ => "int"
  | VFloat _ => "float"
  | VStr _ => "str"
  | VRef l => if bool_decide (is_Some (lists σ !! l)) then "list" else "dict"
  | VDatetime _ => "datetime.datetime"
  end.

Module Database.

Abbreviation DbM := (SE Database).

Definition OperationalError (msg : string) : exn := PyExn "OperationalError" msg.

(** [sqlite3.Error] and its subclasses. *)
Definition is_sqlite_error (e : exn) : bool :=
  bool_decide (exn_class e ∈
    ["Error"; "InterfaceError"; "DatabaseError"; "DataError"; "OperationalError";
     "IntegrityError"; "InternalError"; "ProgrammingError"; "NotSupportedError"]).

(** [try: body except sqlite3.Error as e: handler]. *)
Definition except_sqlite {A} (body : DbM A) (handler : exn → DbM A) : DbM A := λ d,
  match body d with
  | (Ret a, d') => (Ret a, d')
  | (Raise e, d') => if is_sqlite_error e then handler e d' else (Raise e, d')
  end.

Definition lift_pool {A} (m : ConnectionPool.PoolM A) : DbM A := λ d,
  match m (pool d) with (r, p') => (r, set_db_pool p' d) end.

(** [with self.get_connection() as conn: body], for a body that works on
    the database. *)
Definition with_connection {A} (body : nat → DbM A) : DbM A := λ d,
  match lift_pool ConnectionPool.get_connection_enter d with
  | (Raise e, d1) => (Raise e, d1)
  | (Ret conn, d1) =>
      match body conn d1 with
      | (r, d2) =>
          match lift_pool (ConnectionPool.get_connection_exit conn) d2 with
          | (Ret _, d3) => (r, d3)
          | (Raise e, d3) => (Raise e, d3)
          end
      end
  end.

(** A cursor after [cursor.execute]: the connection it belongs to, the key
    of the row an [INSERT] added ([lastrowid], not read after a [SELECT])
    and the rows a [SELECT] found. *)
Record Cursor := MkCursor {
  connection : nat;
  lastrowid : Z;
  result : list ErrorRow
}.

(** The largest key there can be, and the key [AUTOINCREMENT] gives the
    next row: one more than the largest key the table has or ever had. *)
Definition max_rowid : Z := 9223372036854775807.

Definition largest_rowid (t : Table) : Z :=
  Z.max (table_seq t) (foldr Z.max 0%Z (err_id <$> table_rows t)).

Definition next_rowid (t : Table) : Z := (largest_rowid t + 1)%Z.

(** [ORDER BY timestamp DESC]: text compared byte by byte; rows with equal
    timestamps stay in the order of their keys. *)
Fixpoint insert_desc (r : ErrorRow) (l : list ErrorRow) : list ErrorRow :=
  match l with
  | [] => [r]
  | x :: l' =>
      if String.leb (err_timestamp x) (err_timestamp r) then r :: x :: l'
      else x :: insert_desc r l'
  end.

Definition order_by_timestamp_desc (l : list ErrorRow) : list ErrorRow :=
  foldr insert_desc [] l.

(** [LIMIT n]: a negative [n] means no limit. *)
Definition sql_limit {A} (n : Z) (l : list A) : list A :=
  if (n <? 0)%Z then l else take (Z.to_nat n) l.

(** [SELECT * FROM bot_errors WHERE bot_name = ? ORDER BY timestamp DESC
    LIMIT ?]. *)
Definition select_bot_errors (bot_name : string) (limit : Z) (t : Table) : list ErrorRow :=
  sql_limit limit
    (order_by_timestamp_desc
       (filter (λ r, err_bot_name r = bot_name) (table_rows t))).

Definition count_statement (d : Database) : Database :=
  MkDb (pool d) (bot_errors d) (S (executed d)) (engine_error d) (db_log d).

Definition set_table (t : Table) (d : Database) : Database :=
  MkDb (pool d) (Some t) (executed d) (engine_error d) (db_log d).

(** [cursor.execute(query, params)] on the connection [conn], followed by
    [conn.commit()] for an [INSERT].  The statement is compiled, which fails
    when the table or a column it names is missing; then its parameters are
    bound, which fails for an integer outside 64 bits; then it is run. *)
Definition run_statement (conn : nat) (q : statement) : DbM Cursor := λ d,
  let d' := count_statement d in
  match bot_errors d with
  | None => (Raise (OperationalError "no such table: bot_errors"), d')
  | Some t =>
      match q with
      | InsertBotErrors bot_name error severity timestamp =>
          if bool_decide (is_Some severity ∧ "severity" ∉ more_columns t) then
            (Raise (OperationalError "table bot_errors has no column named severity"), d')
          else
            match engine_error d (executed d) with
            | Some e => (Raise e, d')
            | None =>
                if (max_rowid <=? largest_rowid t)%Z then
                  (Raise (OperationalError "database or disk is full"), d')
                else
                  let i := next_rowid t in
                  (Ret (MkCursor conn i []),
                   set_table (MkTable (more_columns t)
                                (table_rows t ++ [MkErr i bot_name error timestamp]) i) d')
            end
      | SelectBotErrors bot_name limit =>
          if ((limit <? -9223372036854775808) || (9223372036854775807 <? limit))%Z then
            (Raise (PyExn "OverflowError" "Python int too large to convert to SQLite INTEGER"),
             d')
          else
            match engine_error d (executed d) with
            | Some e => (Raise e, d')
            | None => (Ret (MkCursor conn 0 (select_bot_errors bot_name limit t)), d')
            end
      end
  end.

(** The handler of [execute]: three lines in the log, [conn.rollback()],
    which finds nothing to undo, and the exception again. *)
Definition log_failure (e : exn) (q : statement) : DbM unit :=
  modify (λ d, MkDb (pool d) (bot_errors d) (executed d) (engine_error d)
                 (db_log d ++ [(e, q)])).

(** [execute(query, params, commit)], with [commit] as the callers here
    pass it: [True] for an [INSERT], [False] for a [SELECT].  The cursor
    is returned from inside the [with] block, so the connection has gone
    back to the pool, or has been closed, when the caller gets it. *)
Definition execute (q : statement) : DbM Cursor :=
  with_connection (λ conn,
    except_sqlite (run_statement conn q)
      (λ e, log_failure e q;; raise e)).

(** [fetchall(query, params)]: [cursor.fetchall()] needs the connection of
    the cursor to be open still. *)
Definition fetchall (q : statement) : DbM (list ErrorRow) :=
  cursor ← execute q;
  gone ← gets (λ d, ConnectionPool.closed (pool d));
  if bool_decide (connection cursor ∈ gone) then
    raise (PyExn "ProgrammingError" "Cannot operate on a closed database.")
  else mret (result cursor).

(** [insert("bot_errors", data)] for the dictionary [log_bot_error] builds:
    it returns [cursor.lastrowid]. *)
Definition insert (bot_name error severity timestamp : string) : DbM Z :=
  cursor ← execute (InsertBotErrors bot_name error (Some severity) timestamp);
  mret (lastrowid cursor).

(** [log_bot_error] and [get_bot_errors], as methods of the orchestrator's
    [self.db]; the dictionary display reads the clock before [insert] is
    called. *)
Definition log_bot_error (bot_name error severity : string) : OrchM Z :=
  ts ← lift now_isoformat;
  lift_db (insert bot_name error severity ts).

Definition get_bot_errors (bot_name : string) (limit : Z) : OrchM (list ErrorRow) :=
  lift_db (fetchall (SelectBotErrors bot_name limit)).

(** The default of the parameter [limit]. *)
Definition default_limit : Z := 100.

End Database.

Module BotOrchestrator.

Section Orchestrator.

(** The worker classes, found by the class name a worker carries. *)
Variable classes : string → BotClass.

Definition logger (level msg : string) : OrchM unit := emit (Log level msg).

Definition call_start (bot : loc) : OrchM unit :=
  emit (CallStart bot);;
  n ← lift (getattr bot name);
  lift (start (classes n) bot).

Definition call_stop (bot : loc) : OrchM unit :=
  emit (CallStop bot);;
  n ← lift (getattr bot name);
  lift (stop (classes n) bot).

Definition call_is_healthy (bot : loc) : OrchM bool :=
  h ← lift (BotBase.is_healthy bot);
  emit (CallIsHealthy bot h);;
  mret h.

(** The length of a wait in microseconds, when it is a number. *)
Definition microseconds (secs : pyval) : option Z :=
  match secs with
  | VInt n => Some (n * 1000000)%Z
  | VFloat t => Some t
  | VBool b => Some (Z.b2z b * 1000000)%Z
  | _ => None
  end.

(** [time.sleep(secs)] and [self.executor.submit(self._run_bot, bot_name, bot)]. *)
Definition time_sleep (secs : pyval) : OrchM unit :=
  match microseconds secs with
  | Some us =>
      err ← gets (λ w, sleep_error (env w) us);
      match err with
      | Some e => raise e
      | None => emit (Sleep secs)
      end
  | None =>
      n ← gets (λ w, type_name (env w) secs);
      raise (TypeError ("'" +:+ n +:+ "' object cannot be interpreted as an integer"))
  end.

Definition executor_submit (bot_name : string) (bot : loc) : OrchM unit :=
  emit (Submit bot_name bot).

Definition register_bot (bot_name : string) (bot_instance : loc) : OrchM unit :=
  modify (λ w, set_bots (reg_set bot_name bot_instance (bots w)) w);;
  logger "info" ("Registered bot: " +:+ bot_name).

(** [self.db.execute("INSERT INTO bot_errors (bot_name, error, timestamp)
    VALUES (?, ?, ?)", (bot_name, error, datetime.now().isoformat()))]: the
    parameters are evaluated, the clock read, before the call. *)
Definition _record_bot_error (bot_name error : string) : OrchM unit :=
  ts ← lift now_isoformat;
  lift_db (Database.execute (InsertBotErrors bot_name error None ts));;
  mret tt.

Definition _run_bot (bot_name : string) (bot : loc) : OrchM unit :=
  try_except
    (logger "info" ("Starting bot: " +:+ bot_name);;
     call_start bot)
    (λ e,
     logger "error" ("Error running bot " +:+ bot_name +:+ ": " +:+ str e);;
     _record_bot_error bot_name (str e)).

Definition _attempt_bot_restart (bot_name : string) (bot : loc) : OrchM unit :=
  logger "info" ("Attempting to restart " +:+ bot_name +:+ "...");;
  try_except
    (call_stop bot;;
     time_sleep (VInt 2);;
     executor_submit bot_name bot;;
     logger "info" ("Successfully restarted " +:+ bot_name))
    (λ e, logger "error" ("Failed to restart " +:+ bot_name +:+ ": " +:+ str e)).

(** The body of the [for] loop of [_health_check_loop], for one item of the
    registry. *)
Definition health_check_step (item : string * loc) : OrchM unit :=
  let '(bot_name, bot) := item in
  try_except
    (h ← call_is_healthy bot;
     if negb h then
       logger "warning" ("Bot " +:+ bot_name +:+ " is unhealthy!");;
       _attempt_bot_restart bot_name bot
     else mret tt)
    (λ e, logger "error" ("Health check failed for " +:+ bot_name +:+ ": " +:+ str e)).

(** One poll: the [for] loop over [self.bots.items()]. *)
Definition health_check_poll : OrchM unit :=
  items ← gets bots;
  for_each items health_check_step.

(** [self.config.get('orchestrator', {}).get('health_check_interval', 60)]. *)
Definition health_check_interval (w : World) : pyval :=
  default (VInt 60) (default ∅ (config w !! "orchestrator") !! "health_check_interval").

(** [_health_check_loop], observed for at most [fuel] polls. *)
Fixpoint health_check_polls (fuel : nat) (interval : pyval) : OrchM unit :=
  match fuel with
  | O => mret tt
  | S n =>
      r ← gets orch_running;
      if r : bool then
        health_check_poll;;
        time_sleep interval;;
        health_check_polls n interval
      else mret tt
  end.

Definition _health_check_loop (fuel : nat) : OrchM unit :=
  interval ← gets health_check_interval;
  health_check_polls fuel interval.

Definition stop_bot (bot_name : string) : OrchM unit :=
  r ← gets bots;
  match reg_lookup bot_name r with
  | Some bot =>
      logger "info" ("Stopping bot: " +:+ bot_name);;
      call_stop bot;;
      modify (λ w, set_bots (reg_delete bot_name (bots w)) w)
  | None => logger "warning" ("Bot not found: " +:+ bot_name)
  end.

Definition restart_bot (bot_name : string) : OrchM unit :=
  r ← gets bots;
  match reg_lookup bot_name r with
  | Some bot =>
      logger "info" ("Restarting bot: " +:+ bot_name);;
      call_stop bot;;
      time_sleep (VInt 2);;
      r' ← gets bots;
      match reg_lookup bot_name r' with
      | Some bot' => executor_submit bot_name bot'
      | None => raise (KeyError bot_name)
      end
  | None => logger "warning" ("Bot not found: " +:+ bot_name)
  end.

End Orchestrator.

End BotOrchestrator.

From stdpp Require Import pretty.

(** ** More of [orchestrator.py] *)

Definition set_orch_running (v : bool) (w : World) : World :=
  MkWorld (env w) (bots w) v (config w) (db w) (trace w).

Module ControlSurface.

Section Control.

Variable classes : string → BotClass.

(** The body of the loop of [shutdown], for one item of the registry. *)
Definition shutdown_step (item : string * loc) : OrchM unit :=
  let '(bot_name, bot) := item in
  try_except
    (BotOrchestrator.logger "info" ("Stopping bot: " +:+ bot_name);;
     BotOrchestrator.call_stop classes bot)
    (λ e, BotOrchestrator.logger "error"
            ("Error stopping " +:+ bot_name +:+ ": " +:+ str e)).

(** [shutdown] up to the end of its loop over [list(self.bots.items())].
    What follows in the source, waiting for the thread pool to drain and
    leaving the process, is outside this model. *)
Definition shutdown_bots : OrchM unit :=
  BotOrchestrator.logger "info" "Shutting down Bot Orchestrator...";;
  modify (set_orch_running false);;
  items ← gets bots;
  for_each items shutdown_step.

(** [status['bots'][bot_name] = {...}] for one item of the registry; the
    display on the right is evaluated first. *)
Definition status_entry (status : loc) (item : string * loc) : OrchM unit :=
  let '(bot_name, bot) := item in
  r ← lift (BotBase.is_running bot);
  h ← BotOrchestrator.call_is_healthy bot;
  la ← lift (BotBase.get_last_activity bot);
  st ← lift (BotBase.get_stats bot);
  entry ← lift (dict_new (<["name" := VStr bot_name]> (<["running" := VBool r]>
             (<["healthy" := VBool h]> (<["last_activity" := opt_str la]>
             (<["stats" := VRef st]> ∅))))));
  b ← lift (dict_getitem status "bots");
  match b with
  | VRef bots_dict => lift (dict_setitem bots_dict bot_name (VRef entry))
  | _ => raise (TypeError "object does not support item assignment")
  end.

(** [get_status]: the status is built as dictionaries in the store and the
    outermost one is returned. *)
Definition get_status : OrchM loc :=
  r ← gets orch_running;
  n ← gets (λ w, length (bots w));
  t ← lift time_time;
  orch ← lift (dict_new (<["running" := VBool r]> (<["bots_count" := VInt (Z.of_nat n)]>
            (<["uptime" := VFloat t]> ∅))));
  bots_dict ← lift (dict_new ∅);
  status ← lift (dict_new (<["orchestrator" := VRef orch]> (<["bots" := VRef bots_dict]> ∅)));
  items ← gets bots;
  for_each items (status_entry status);;
  mret status.

End Control.

End ControlSurface.

(** ** More of [bot_base.py] *)

Module BotHelpers.

(** [range(n)]. *)
Definition range (n : Z) : list Z := Z.of_nat <$> seq 0 (Z.to_nat n).

(** [time.sleep(secs)] with an integer. *)
Definition time_sleep (secs : Z) : BotM unit :=
  err ← gets (λ σ, sleep_error σ (secs * 1000000));
  match err with
  | Some e => raise e
  | None => sleep secs
  end.

(** One round of the loop of [retry_on_failure]: [Some v] stands for
    [return v], [None] for going on with the next round. *)
Definition retry_attempt (self : loc) (func : BotM pyval) (max_retries delay attempt : Z) :
    BotM (option pyval) :=
  try_except
    (v ← func; mret (Some v))
    (λ e,
     logger self "warning"
       ("Attempt " +:+ pretty (attempt + 1)%Z +:+ " failed: " +:+ str e);;
     if (attempt <? max_retries - 1)%Z then time_sleep delay;; mret None
     else raise e).

Fixpoint retry_rounds (self : loc) (func : BotM pyval) (max_retries delay : Z)
    (attempts : list Z) : BotM pyval :=
  match attempts with
  | [] => mret VNone
  | attempt :: rest =>
      r ← retry_attempt self func max_retries delay attempt;
      match r with
      | Some v => mret v
      | None => retry_rounds self func max_retries delay rest
      end
  end.

Definition retry_on_failure (self : loc) (func : BotM pyval) (max_retries delay : Z) :
    BotM pyval :=
  retry_rounds self func max_retries delay (range max_retries).

End BotHelpers.

(** ** The service checks of [bots/monitoring_bot.py] *)

Module MonitoringChecks.

(** [v[k]], [v[k] = x] and [v[k] += 1] on a value that should be a
    dictionary. *)
Definition subscript (v : pyval) (k : string) : BotM pyval :=
  match v with
  | VRef d => dict_getitem d k
  | _ => raise (TypeError "object is not subscriptable")
  end.
Definition subscript_set (v : pyval) (k : string) (x : pyval) : BotM unit :=
  match v with
  | VRef d => dict_setitem d k x
  | _ => raise (TypeError "object does not support item assignment")
  end.
Definition subscript_incr (v : pyval) (k : string) : BotM unit :=
  old ← subscript v k;
  new ← py_add_one old;
  subscript_set v k new.

(** [v >= n] for an integer [n]. *)
Definition py_ge (v : pyval) (n : Z) : BotM bool :=
  match v with
  | VInt a => mret (n <=? a)%Z
  | VBool b => mret (n <=? Z.b2z b)%Z
  | VFloat t => mret (n * 1000000 <=? t)%Z
  | _ => raise (TypeError "'>=' not supported between instances")
  end.

(** [requests.exceptions.Timeout] and its subclasses. *)
Definition is_timeout (e : exn) : bool :=
  bool_decide (exn_class e ∈ ["Timeout"; "ConnectTimeout"; "ReadTimeout"]).

Section Checks.

(** [self.services] and [self.alert_threshold]. *)
Variable services : loc.
Variable alert_threshold : Z.

(** [requests.get] and [requests.post], by method, URL and timeout: the
    status code of the response, or an exception. *)
Variable requests : string → pyval → pyval → BotM Z.

(** [self._send_alert(severity, title, message)]. *)
Variable _send_alert : loc → string → string → string → BotM unit.

(** [str(v)], as an f-string formats a value. *)
Variable format : pyval → string.

(** The [UnboundLocalError] for a [response] that was never assigned. *)
Variable unbound_response : exn.

(** The body of the [try] of [_check_service].  The logger drops the
    [debug] line of the healthy case: its level is [INFO]. *)
Definition check_service_try (self : loc) (service_name : string) (service : pyval) :
    BotM bool :=
  start_time ← time_time;
  method ← subscript service "method";
  response ←
    (if bool_decide (method = VStr "GET") then
       url ← subscript service "url";
       timeout ← subscript service "timeout";
       status_code ← requests "GET" url timeout;
       mret (Some status_code)
     else if bool_decide (method = VStr "POST") then
       url ← subscript service "url";
       timeout ← subscript service "timeout";
       status_code ← requests "POST" url timeout;
       mret (Some status_code)
     else mret None);
  now ← time_time;
  let response_time := ((now - start_time) * 1000)%Z in
  match response with
  | None => raise unbound_response
  | Some status_code =>
      let is_healthy := (status_code =? 200)%Z in
      (if is_healthy then
         subscript_set service "failures" (VInt 0);;
         subscript_set service "status" (VStr "healthy")
       else
         subscript_incr service "failures";;
         subscript_set service "status" (VStr "unhealthy");;
         logger self "warning"
           (service_name +:+ " returned status " +:+ pretty status_code));;
      ts ← now_isoformat;
      subscript_set service "last_check" (VStr ts);;
      subscript_set service "response_time" (VFloat response_time);;
      failures ← subscript service "failures";
      due ← py_ge failures alert_threshold;
      (if due : bool then
         failures' ← subscript service "failures";
         _send_alert self "critical" (service_name +:+ " is DOWN")
           (service_name +:+ " has failed " +:+ format failures' +:+
            " consecutive health checks")
       else mret tt);;
      mret is_healthy
  end.

(** The two [except] clauses: [requests.exceptions.Timeout] first, then
    [Exception]. *)
Definition check_service_except (self : loc) (service_name : string) (service : pyval)
    (e : exn) : BotM bool :=
  if is_timeout e then
    subscript_incr service "failures";;
    subscript_set service "status" (VStr "timeout");;
    ts ← now_isoformat;
    subscript_set service "last_check" (VStr ts);;
    logger self "error" (service_name +:+ " health check timed out");;
    failures ← subscript service "failures";
    due ← py_ge failures alert_threshold;
    (if due : bool then
       failures' ← subscript service "failures";
       _send_alert self "critical" (service_name +:+ " is UNRESPONSIVE")
         (service_name +:+ " has timed out " +:+ format failures' +:+ " times")
     else mret tt);;
    mret false
  else
    subscript_incr service "failures";;
    subscript_set service "status" (VStr "error");;
    ts ← now_isoformat;
    subscript_set service "last_check" (VStr ts);;
    logger self "error" ("Error checking " +:+ service_name +:+ ": " +:+ str e);;
    mret false.

Definition _check_service (self : loc) (service_name : string) : BotM bool :=
  service ← dict_getitem services service_name;
  try_except (check_service_try self service_name service)
    (check_service_except self service_name service).

End Checks.

End MonitoringChecks.

(** ** Lists, and [bots/content_bot.py] *)

(** [l[:]], [len(l)], [l.append(v)] and [l.clear()]. *)
Definition list_items (l : loc) : BotM (list pyval) := gets (λ σ, lists σ !!! l).
Definition list_len (l : loc) : BotM Z := gets (λ σ, Z.of_nat (length (lists σ !!! l))).
Definition list_append (l : loc) (v : pyval) : BotM unit :=
  modify (set_lists (λ h, <[l := (h !!! l) ++ [v]]> h)).
Definition list_clear (l : loc) : BotM unit :=
  modify (set_lists (λ h, <[l := []]> h)).

(** Python's [a == b].  Numbers are compared by value whatever their type;
    an object is equal to itself, and two lists or two dictionaries are
    compared item by item, down to [depth] levels: [None] stands for the
    [RecursionError] of a comparison that goes deeper. *)
Definition numeric (v : pyval) : option Z :=
  match v with
  | VBool b => Some (Z.b2z b * 1000000)%Z
  | VInt n => Some (n * 1000000)%Z
  | VFloat t => Some t
  | _ => None
  end.

Fixpoint all_equal (eq : pyval → pyval → option bool) (ps : list (pyval * pyval)) :
    option bool :=
  match ps with
  | [] => Some true
  | (a, b) :: ps' =>
      match eq a b with
      | Some true => all_equal eq ps'
      | r => r
      end
  end.

Fixpoint py_eq (depth : nat) (σ : Env) (a b : pyval) : option bool :=
  match a, b with
  | VRef l, VRef l' =>
      if decide (l = l') then Some true
      else
        match depth with
        | O => None
        | S depth' =>
            match lists σ !! l, lists σ !! l' with
            | Some xs, Some ys =>
                if decide (length xs = length ys)
                then all_equal (py_eq depth' σ) (zip xs ys)
                else Some false
            | Some _, None | None, Some _ => Some false
            | None, None =>
                let da : pydict := dicts σ !!! l in
                let db : pydict := dicts σ !!! l' in
                if decide (dom da = dom db)
                then all_equal (py_eq depth' σ)
                       ((λ kv, (kv.2, default VNone (db !! kv.1))) <$> map_to_list da)
                else Some false
            end
        end
  | VNone, VNone => Some true
  | VStr s, VStr s' => Some (bool_decide (s = s'))
  | VDatetime t, VDatetime t' => Some (bool_decide (t = t'))
  | _, _ =>
      match numeric a, numeric b with
      | Some x, Some y => Some (bool_decide (x = y))
      | _, _ => Some false
      end
  end.

Definition recursion_limit : nat := 1000.

(** [l.remove(v)]: the first item equal to [v] goes. *)
Fixpoint remove_first (eq : pyval → option bool) (xs : list pyval) : outcome (list pyval) :=
  match xs with
  | [] => Raise (PyExn "ValueError" "list.remove(x): x not in list")
  | x :: xs' =>
      match eq x with
      | None => Raise (PyExn "RecursionError" "maximum recursion depth exceeded in comparison")
      | Some true => Ret xs'
      | Some false =>
          match remove_first eq xs' with
          | Ret r => Ret (x :: r)
          | Raise e => Raise e
          end
      end
  end.

Definition list_remove (l : loc) (v : pyval) : BotM unit := λ σ,
  match remove_first (λ x, py_eq recursion_limit σ x v) (lists σ !!! l) with
  | Ret xs => (Ret tt, set_lists (λ h, <[l := xs]> h) σ)
  | Raise e => (Raise e, σ)
  end.

(** [v <= now] for a [datetime] [now]. *)
Definition datetime_le (v : pyval) (now : Z) : BotM bool :=
  match v with
  | VDatetime t => mret (t <=? now)%Z
  | _ =>
      n ← gets (λ σ, type_name σ v);
      raise (TypeError ("'<=' not supported between instances of '" +:+ n +:+
                        "' and 'datetime.datetime'"))
  end.

Module ContentBot.

(** The latest [datetime] there is, the last microsecond of the year 9999. *)
Definition datetime_max : Z := 253402300799999999.

Section ContentBot.

(** [self.content_queue] and [self.content_cache], two lists of references
    to dictionaries, and [self.daily_threads]. *)
Variable content_queue content_cache : loc.
Variable daily_threads : Z.

(** What [_generate_daily_content] draws for the piece number [i]: the
    content type [random.choice] picks and what the generator for that type
    returns, a new dictionary or [None].  The generators catch what goes
    wrong in them. *)
Variable draw : Z → BotM (string * option loc).

(** [str(v)], as an f-string formats a value. *)
Variable format : pyval → string.

(** The body of the loop of [_generate_daily_content]. *)
Definition generate_piece (self : loc) (i : Z) : BotM unit :=
  piece ← draw i;
  match piece.2 with
  | Some content =>
      filled ← truth (VRef content);
      if filled : bool then
        now ← time_time;
        let scheduled_time := (now + i * 4 * 3600 * 1000000)%Z in
        (if (datetime_max <? scheduled_time)%Z
         then raise (PyExn "OverflowError" "date value out of range")
         else mret tt);;
        item ← dict_new (<["type" := VStr piece.1]> (<["content" := VRef content]>
                  (<["scheduled_time" := VDatetime scheduled_time]>
                  (<["posted" := VBool false]> ∅))));
        list_append content_queue (VRef item);;
        logger self "info"
          ("Generated " +:+ piece.1 +:+ " content (#" +:+ pretty (i + 1)%Z +:+ ")")
      else mret tt
  | None => mret tt
  end.

Definition _generate_daily_content (self : loc) : BotM unit :=
  logger self "info" ("Generating " +:+ pretty daily_threads +:+ " pieces of content...");;
  try_except
    (for_each (BotHelpers.range daily_threads) (generate_piece self);;
     n ← list_len content_queue;
     logger self "info" ("Content queue: " +:+ pretty n +:+ " items"))
    (λ e, logger self "error" ("Error generating content: " +:+ str e)).

(** The body of the loop of [_process_scheduled_content]. *)
Definition process_item (self : loc) (now : Z) (item : pyval) : BotM unit :=
  posted ← MonitoringChecks.subscript item "posted";
  done ← truth posted;
  if done : bool then mret tt
  else
    scheduled_time ← MonitoringChecks.subscript item "scheduled_time";
    due ← datetime_le scheduled_time now;
    if due : bool then
      type ← MonitoringChecks.subscript item "type";
      logger self "info" ("Posting scheduled content: " +:+ format type);;
      MonitoringChecks.subscript_set item "posted" (VBool true);;
      list_append content_cache item;;
      list_remove content_queue item;;
      type' ← MonitoringChecks.subscript item "type";
      logger self "info" ("Content posted successfully: " +:+ format type')
    else mret tt.

(** The loop runs over a copy of the queue, [self.content_queue[:]]. *)
Definition _process_scheduled_content (self : loc) : BotM unit :=
  now ← time_time;
  items ← list_items content_queue;
  for_each items (process_item self now).

(** One round of the loop of [run]. *)
Definition cycle (self : loc) : BotM unit :=
  try_except
    (logger self "info" "ContentBot checking for scheduled content...";;
     n ← list_len content_queue;
     (if (n <? daily_threads)%Z then _generate_daily_content self else mret tt);;
     _process_scheduled_content self;;
     sleep 3600)
    (λ e,
     logger self "error" ("Error in ContentBot loop: " +:+ str e);;
     setattr self (set_healthy false);;
     sleep 300).

Definition run (fuel : nat) (self : loc) : BotM unit :=
  while_running fuel self (cycle self).

Definition start (fuel : nat) (self : loc) : BotM unit :=
  setattr self (set_running true);;
  t ← time_time;
  st ← getattr self stats;
  dict_setitem st "start_time" (VFloat t);;
  logger self "info" "ContentBot started";;
  _generate_daily_content self;;
  run fuel self.

Definition stop (self : loc) : BotM unit :=
  setattr self (set_running false);;
  logger self "info" "ContentBot stopped".

Definition cls (fuel : nat) : BotClass := MkClass (start fuel) stop (run fuel).

(** [schedule_content(content, post_time)] and [clear_queue()]. *)
Definition schedule_content (self : loc) (content post_time : pyval) : BotM unit :=
  item ← dict_new (<["content" := content]> (<["scheduled_time" := post_time]>
            (<["posted" := VBool false]> (<["manual" := VBool true]> ∅))));
  list_append content_queue (VRef item);;
  logger self "info" ("Content scheduled for " +:+ format post_time).

Definition clear_queue (self : loc) : BotM unit :=
  list_clear content_queue;;
  logger self "info" "Content queue cleared".

End ContentBot.

End ContentBot.

(** ** Notions used in the statements *)

(** [self.stats[k]], when the key is there. *)
Definition stat (σ : Env) (self : loc) (k : string) : option pyval :=
  (dicts σ !!! stats (objs σ !!! self)) !! k.

(** The state after [self.stats[k] = v]. *)
Definition stat_upd (self : loc) (k : string) (v : pyval) (σ : Env) : Env :=
  set_dicts (λ h, <[stats (objs σ !!! self) := <[k := v]> (h !!! stats (objs σ !!! self))]> h) σ.

(** The state after [self.last_activity = datetime.now().isoformat()]. *)
Definition touch (self : loc) (σ : Env) : Env :=
  set_objs (λ m, <[self := set_last_activity (Some (snd (clock σ (ticks σ)))) (m !!! self)]> m)
    (tick σ).

(** The invariant of the run statistics. *)
Definition stats_invariant (σ : Env) (self : loc) : Prop :=
  ∃ t s f : Z,
    stat σ self "total_runs" = Some (VInt t) ∧
    stat σ self "successful_runs" = Some (VInt s) ∧
    stat σ self "failed_runs" = Some (VInt f) ∧
    t = (s + f)%Z.

(** An empty world whose clock shows second [n] at its [n]-th reading. *)
Definition iso_second (n : nat) : string :=
  "2025-01-01T00:00:0" +:+ String (Ascii.ascii_of_nat (48 + n mod 10)) "".

Definition env0 : Env :=
  MkEnv ∅ ∅ (λ n, ((Z.of_nat n * 1000000)%Z, iso_second n)) 0 [] ∅ 9223372000.

(** A freshly constructed worker of the test fixture's class. *)
Definition bot1 : loc := 1%positive.
Definition env1 : Env := snd (BotBase.__init__ "MockBot" env0).

(** The same worker after [start()], and a [run()] that raises. *)
Definition env1_started : Env := snd (MockBot.start bot1 env1).
Definition boom : exn := PyExn "RuntimeError" "boom".
Definition failing_run (self : loc) : BotM unit := raise boom.

(** The events the orchestrator added between two of its states, and the
    thread-pool submissions among some events. *)
Definition new_events (w w' : World) : list event :=
  drop (length (trace w)) (trace w').

Definition submissions (evs : list event) : list (string * loc) :=
  omap (λ e, match e with Submit n b => Some (n, b) | _ => None end) evs.

(** The class a worker object belongs to. *)
Definition class_of (classes : string → BotClass) (σ : Env) (bot : loc) : BotClass :=
  classes (name (objs σ !!! bot)).

(** A running orchestrator with the fixture worker registered. *)
Definition mock_classes : string → BotClass := λ _, MockBot.cls.

(** A new pool of the default size on a database that can be opened, and an
    event store with the table [bot_errors] as [init_database] creates it,
    empty, on an engine that raises nothing of its own. *)
Definition pool0 : ConnectionPool.Pool :=
  ConnectionPool.MkPool [] 5 (λ _, None) 0 [] [].
Definition db0 : Database := MkDb pool0 (Some (MkTable [] [] 0)) 0 (λ _, None) [].
Definition world1 : World := MkWorld env1 [("mock_bot", bot1)] true ∅ db0 [].

(** Among some events, every [stop()] call and every submission of a worker
    comes with an [is_healthy()] call on that worker that answered [False]. *)
Definition restart_justified (evs : list event) : Prop :=
  ∀ bot, (CallStop bot ∈ evs ∨ ∃ n, Submit n bot ∈ evs) → CallIsHealthy bot false ∈ evs.

(** Two workers whose [run()] raises: a subclass of [MonitoringBot] with its
    own [run], whose [start()] calls it directly, and a [TwitterBot], whose
    loop calls it through [safe_run].  Each is alone in a new orchestrator. *)
Definition flaky_classes : string → BotClass := λ _, MonitoringBot.subclass failing_run.
Definition twitter_classes : string → BotClass :=
  λ _, TwitterBot.cls failing_run (λ _, mret tt) 1.

Definition world_flaky : World :=
  MkWorld (snd (BotBase.__init__ "FlakyBot" env0)) [("flaky_bot", bot1)] true ∅ db0 [].
Definition world_twitter : World :=
  MkWorld (snd (BotBase.__init__ "TwitterBot" env0)) [("twitter_bot", bot1)] true ∅ db0 [].

(** The rows of a worker that [ORDER BY timestamp DESC] may put before a row
    stamped [ts]: those whose timestamp is not smaller. *)
Definition newer_rows (bot_name ts : string) (t : Table) : list ErrorRow :=
  filter (λ r, String.leb ts (err_timestamp r) = true)
    (filter (λ r, err_bot_name r = bot_name) (table_rows t)).

(** [a] may stand before [b] in descending order of timestamp. *)
Definition desc (a b : ErrorRow) : Prop :=
  String.leb (err_timestamp b) (err_timestamp a) = true.

(** A worker derived from [MonitoringBot] whose monitoring cycle fails while
    the service it probes is down, that is before the clock shows two
    seconds, and succeeds afterwards: one of the steps of the cycle is
    overridden by one that lets the exception of the probe out.  Two
    iterations of its loop are observed per run. *)
Definition outage_until (t : Z) (self : loc) : BotM unit :=
  now ← time_time;
  if (now <? t)%Z then raise (PyExn "ConnectionError" "RPC unreachable") else mret tt.

Definition monitoring_classes : string → BotClass :=
  λ _, MonitoringBot.cls (outage_until 2000000) 2.

Definition world0 : World := MkWorld env0 [] true ∅ db0 [].

(** A computation that never turns an unhealthy worker healthy, on the
    worker side and on the orchestrator side. *)
Definition never_heals {A} (m : BotM A) : Prop :=
  ∀ σ r σ', m σ = (r, σ') →
    ∀ l, healthy (objs σ !!! l) = false → healthy (objs σ' !!! l) = false.

Definition never_heals_orch {A} (m : OrchM A) : Prop :=
  ∀ w r w', m w = (r, w') →
    ∀ l, healthy (objs (env w) !!! l) = false → healthy (objs (env w') !!! l) = false.

(** A lone [MonitoringBot] in a new orchestrator. *)
Definition world_monitoring : World :=
  MkWorld (snd (BotBase.__init__ "MonitoringBot" env0)) [("monitoring_bot", bot1)] true ∅ db0 [].

(** An orchestrator whose event store has no table [bot_errors]: the file
    was opened with [auto_migrate=False] and [init_database] has not run. *)
Definition db_no_table : Database := MkDb pool0 None 0 (λ _, None) [].
Definition world_no_table : World :=
  MkWorld (snd (BotBase.__init__ "FlakyBot" env0)) [("flaky_bot", bot1)] true ∅ db_no_table [].

(** A lone [DiscordBot] whose client cannot be closed from the calling
    thread: [asyncio.run(self.bot.close())] raises. *)
Definition close_fails (self : loc) : BotM unit :=
  raise (PyExn "RuntimeError" "Event loop is closed").
Definition discord_classes : string → BotClass :=
  λ _, DiscordBot.cls (λ _, mret tt) (λ _, mret tt) close_fails.
Definition world_discord : World :=
  MkWorld (snd (BotBase.__init__ "DiscordBot" env0)) [("discord_bot", bot1)] true ∅ db0 [].

(** A [ContentBot] with the default of three pieces a day, as [__init__]
    leaves it when no OpenAI key is set: queue and cache are empty lists.
    Every draw of the generator is a project update.  Two iterations of its
    loop are observed per run. *)
Definition queue1 : loc := 20%positive.
Definition cache1 : loc := 21%positive.
Definition draw_update (i : Z) : BotM (string * option loc) :=
  content ← dict_new (<["format" := VStr "single"]>
               (<["text" := VStr "Update: Developer documentation updated"]> ∅));
  mret ("update", Some content).
Definition format1 (v : pyval) : string :=
  match v with
  | VStr s => s
  | VInt n => pretty n
  | VDatetime 0 => "2025-01-01 00:00:00"
  | _ => "?"
  end.
Definition content_classes : string → BotClass :=
  λ _, ContentBot.cls queue1 cache1 3 draw_update format1 2.
Definition env_content : Env :=
  add_log (MkLog "ContentBot" "info" "ContentBot initialized - AI enabled: False")
    (set_lists (λ h, <[queue1 := []]> (<[cache1 := []]> h))
       (add_log (MkLog "ContentBot" "warning"
                   "OpenAI API key not found - AI content generation disabled")
          (add_log (MkLog "ContentBot" "error"
                      "Missing required environment variables: ['OPENAI_API_KEY']")
             (snd (BotBase.__init__ "ContentBot" env0))))).
Definition world_content : World := MkWorld env_content [] true ∅ db0 [].

(** The scenario: a post that is due at once is put on the queue with
    [schedule_content]; the worker is registered and run, and each cycle
    fails on the scheduled item; the queue is emptied with [clear_queue];
    one poll of the supervisor restarts the worker, and the pool runs the new
    submission, whose cycles all succeed.  It returns what [is_healthy()]
    answers before the poll and after the restarted run. *)
Definition restart_scenario : OrchM (bool * bool) :=
  content ← lift (dict_new (<["format" := VStr "single"]> (<["text" := VStr "gm"]> ∅)));
  lift (ContentBot.schedule_content queue1 format1 bot1 (VRef content) (VDatetime 0));;
  BotOrchestrator.register_bot "content_bot" bot1;;
  BotOrchestrator.executor_submit "content_bot" bot1;;
  BotOrchestrator._run_bot content_classes "content_bot" bot1;;
  before ← lift (BotBase.is_healthy bot1);
  lift (ContentBot.clear_queue queue1 bot1);;
  BotOrchestrator.health_check_poll content_classes;;
  BotOrchestrator._run_bot content_classes "content_bot" bot1;;
  after ← lift (BotBase.is_healthy bot1);
  mret (before, after).

(** The lines a worker's world logged between two of its states. *)
Definition new_logs (σ σ' : Env) : list LogRecord := drop (length (logs σ)) (logs σ').

(** The connection the next [with] block is given, the last of the pool or a
    new one, and the pool after a block that leaves it alone. *)
Definition next_connection (s : ConnectionPool.Pool) : nat :=
  default (ConnectionPool.connects s) (last (ConnectionPool._connection_pool s)).
Definition pool_after_block (s : ConnectionPool.Pool) : ConnectionPool.Pool :=
  snd (ConnectionPool.with_connection (λ _, mret tt) s).

(** A connection is at hand, from the pool or by opening the file; and the
    event store can take a statement: a connection is at hand and the engine
    raises nothing of its own on the next statement. *)
Definition can_connect (d : Database) : Prop :=
  ConnectionPool._connection_pool (pool d) ≠ [] ∨
  ConnectionPool.connect_error (pool d) (ConnectionPool.connects (pool d)) = None.
Definition can_execute (d : Database) : Prop :=
  can_connect d ∧ engine_error d (executed d) = None.

(** The pool keeps the connection of the next block open: it has room to
    take it back, and it was not closed before. *)
Definition keeps_connection (s : ConnectionPool.Pool) : Prop :=
  (Z.of_nat (length (removelast (ConnectionPool._connection_pool s)))
     < ConnectionPool.pool_size s)%Z ∧
  next_connection s ∉ ConnectionPool.closed s.

(** The table after an [INSERT] of a row for [bot_name]. *)
Definition table_with (t : Table) (bot_name error timestamp : string) : Table :=
  MkTable (more_columns t)
    (table_rows t ++ [MkErr (Database.next_rowid t) bot_name error timestamp])
    (Database.next_rowid t).

(** The body of the [with] block of [execute], on the connection [conn]. *)
Definition execute_body (q : statement) (conn : nat) : Database.DbM Database.Cursor :=
  Database.except_sqlite (Database.run_statement conn q)
    (λ e, Database.log_failure e q;; raise e).

(** ** Further notions used in the statements *)

(** The rows of one worker in the error log. *)
Definition rows_of (bot_name : string) (t : Table) : list ErrorRow :=
  filter (λ r, err_bot_name r = bot_name) (table_rows t).

(** The event store can be read: it can take the statement, and the pool
    keeps the connection of the cursor open. *)
Definition can_read (d : Database) : Prop :=
  can_execute d ∧ keeps_connection (pool d).

(** A limit that fits the 64 bits of an SQL integer. *)
Definition fits_int64 (n : Z) : Prop :=
  (-9223372036854775808 ≤ n ≤ 9223372036854775807)%Z.

(** An orchestrator whose [Database] was made with [pool_size=0], and one
    whose engine finds the file locked at the first statement. *)
Definition world_no_pooling : World :=
  MkWorld env1 [("mock_bot", bot1)] true ∅
    (MkDb (ConnectionPool.MkPool [] 0 (λ _, None) 0 [] []) (Some (MkTable [] [] 0)) 0
       (λ _, None) []) [].
Definition locked : exn := Database.OperationalError "database is locked".
Definition world_locked : World :=
  MkWorld env1 [("mock_bot", bot1)] true ∅
    (MkDb pool0 (Some (MkTable [] [] 0)) 0
       (λ n, if decide (n = 0%nat) then Some locked else None) []) [].

(** The workers [stop()] was called on, among some events. *)
Definition stops (evs : list event) : list loc :=
  omap (λ e, match e with CallStop b => Some b | _ => None end) evs.

(** The names in the registry, in order. *)
Definition reg_keys (r : list (string * loc)) : list string := fst <$> r.

(** The workers [is_healthy()] was called on, among some events. *)
Definition health_calls (evs : list event) : list loc :=
  omap (λ e, match e with CallIsHealthy b _ => Some b | _ => None end) evs.

(** The entry [get_status] builds for a worker: name, flags, last activity
    and a reference to a copy of the statistics. *)
Definition status_entry_dict (σ : Env) (bot_name : string) (bot : loc) (copy : loc) : pydict :=
  <["name" := VStr bot_name]> (<["running" := VBool (running (objs σ !!! bot))]>
  (<["healthy" := VBool (healthy (objs σ !!! bot))]>
  (<["last_activity" := opt_str (last_activity (objs σ !!! bot))]>
  (<["stats" := VRef copy]> ∅)))).

(** An orchestrator whose [health_check_interval] was configured as text. *)
Definition world_text_interval : World :=
  MkWorld env1 [("mock_bot", bot1)] true
    {[ "orchestrator" := {[ "health_check_interval" := VStr "60" ]} ]} db0 [].

(** The warning [retry_on_failure] logs for the round [attempt]. *)
Definition retry_warning (bot_class : string) (e : exn) (attempt : Z) : LogRecord :=
  MkLog bot_class "warning" ("Attempt " +:+ pretty (attempt + 1)%Z +:+ " failed: " +:+ str e).

(** A call that fails and leaves no trace. *)
Definition always_fails : BotM pyval := raise boom.

(** The pool holds at most [pool_size] connections (none when that is not
    positive). *)
Definition pool_bounded (s : ConnectionPool.Pool) : Prop :=
  (length (ConnectionPool._connection_pool s) ≤ Z.to_nat (ConnectionPool.pool_size s))%nat.

(** The connections made so far, and the bookkeeping that no connection is
    lost or counted twice: each of them is in the pool, closed, or held by
    one of the [with] blocks under way. *)
Definition connections_made (s : ConnectionPool.Pool) : list nat :=
  filter (λ n, ConnectionPool.connect_error s n = None) (seq 0 (ConnectionPool.connects s)).
Definition accounted (held : list nat) (s : ConnectionPool.Pool) : Prop :=
  ConnectionPool._connection_pool s ++ ConnectionPool.closed s ++ held ≡ₚ connections_made s.

(** A [with] block that does not touch the pool, used [n] times in a row. *)
Definition use_connection : ConnectionPool.PoolM unit :=
  ConnectionPool.with_connection (λ _, mret tt).
Definition use_connections (n : nat) : ConnectionPool.PoolM unit :=
  for_each (replicate n tt) (λ _, use_connection).

(** An event that is a line of the orchestrator's log. *)
Definition is_log (e : event) : Prop := ∃ level msg, e = Log level msg.

(** A field of the service dictionary at [service]. *)
Definition service_field (σ : Env) (service : loc) (k : string) : option pyval :=
  (dicts σ !!! service : pydict) !! k.

(** A monitoring worker with the service [rpc], as [__init__] sets it up,
    and a network on which every request is refused. *)
Definition services1 : loc := 10%positive.
Definition rpc1 : loc := 11%positive.
Definition env_services : Env :=
  set_dicts (λ h,
    <[services1 := {[ "rpc" := VRef rpc1 ]}]>
    (<[rpc1 := list_to_map
         [("url", VStr "https://api.devnet.solana.com"); ("method", VStr "POST");
          ("timeout", VInt 10); ("failures", VInt 0); ("last_check", VNone);
          ("status", VStr "unknown")]]> h)) env1.
Definition refused : exn := PyExn "ConnectionError" "connection refused".
Definition requests_refused (method : string) (url timeout : pyval) : BotM Z := raise refused.
Definition requests_status (code : Z) (method : string) (url timeout : pyval) : BotM Z :=
  mret code.
Definition no_alert (self : loc) (severity title message : string) : BotM unit := mret tt.
Definition unbound1 : exn :=
  PyExn "UnboundLocalError" "local variable 'response' referenced before assignment".

(** The world after [service[k] = x]. *)
Definition set_field (service : loc) (k : string) (x : pyval) (σ : Env) : Env :=
  set_dicts (λ h, <[service := <[k := x]> (h !!! service)]> h) σ.

(** The same worker with a service whose method is neither GET nor POST,
    and a network that answers every request with one status code. *)
Definition env_head : Env := set_field rpc1 "method" (VStr "HEAD") env_services.
Definition timed_out : exn := PyExn "ReadTimeout" "read timed out".
Definition requests_timeout (method : string) (url timeout : pyval) : BotM Z := raise timed_out.

(** * Properties *)

Ltac unfold_monad :=
  unfold mbind, SE_bind, mret, SE_ret, gets, modify, raise, try_except.

(** ** Run statistics *)

Lemma stat_stat_upd σ self k v k' :
  stat (stat_upd self k v σ) self k' = if decide (k = k') then Some v else stat σ self k'.
Proof.
  unfold stat, stat_upd, set_dicts; simpl.
  rewrite lookup_total_insert_eq, lookup_insert. reflexivity.
Qed.

Lemma stat_stat_upd_eq σ self k v : stat (stat_upd self k v σ) self k = Some v.
Proof. rewrite stat_stat_upd. by rewrite decide_True. Qed.

Lemma stat_stat_upd_ne σ self k v k' :
  k ≠ k' → stat (stat_upd self k v σ) self k' = stat σ self k'.
Proof. intros. rewrite stat_stat_upd. by rewrite decide_False. Qed.

Lemma stat_touch σ self k : stat (touch self σ) self k = stat σ self k.
Proof.
  unfold stat, touch, set_objs, tick; simpl.
  rewrite lookup_total_insert_eq. reflexivity.
Qed.

Lemma incr_int σ self k n :
  stat σ self k = Some (VInt n) →
  BotBase.incr self k σ = (Ret tt, stat_upd self k (VInt (n + 1)) σ).
Proof.
  unfold stat. intros H.
  unfold BotBase.incr, getattr, dict_getitem, dict_setitem, py_add_one. unfold_monad.
  rewrite H. reflexivity.
Qed.

Lemma record_run_success σ self error t s :
  stat σ self "total_runs" = Some (VInt t) →
  stat σ self "successful_runs" = Some (VInt s) →
  BotBase._record_run self true error σ =
    (Ret tt, touch self (stat_upd self "successful_runs" (VInt (s + 1))
                          (stat_upd self "total_runs" (VInt (t + 1)) σ))).
Proof.
  intros Ht Hs. unfold BotBase._record_run.
  unfold mbind at 1 2 3, SE_bind. rewrite (incr_int _ _ _ _ Ht).
  rewrite (incr_int _ _ _ s) by (by rewrite stat_stat_upd_ne).
  reflexivity.
Qed.

Lemma record_run_failure σ self error t f :
  stat σ self "total_runs" = Some (VInt t) →
  stat σ self "failed_runs" = Some (VInt f) →
  BotBase._record_run self false error σ =
    (Ret tt, touch self (stat_upd self "last_error" error
                          (stat_upd self "failed_runs" (VInt (f + 1))
                            (stat_upd self "total_runs" (VInt (t + 1)) σ)))).
Proof.
  intros Ht Hf. unfold BotBase._record_run.
  unfold mbind at 1 2 3, SE_bind. rewrite (incr_int _ _ _ _ Ht).
  unfold mbind at 1, SE_bind.
  rewrite (incr_int _ _ _ f) by (by rewrite stat_stat_upd_ne).
  reflexivity.
Qed.

Lemma init_result cls σ :
  let st := fresh (dom (dicts σ)) in
  let self := fresh (dom (objs σ)) in
  ∃ σ', BotBase.__init__ cls σ = (Ret self, σ') ∧
        objs σ' = <[self := MkBot cls false true None st]> (objs σ) ∧
        dicts σ' = <[st := <["start_time" := VNone]> (<["total_runs" := VInt 0]>
                     (<["successful_runs" := VInt 0]> (<["failed_runs" := VInt 0]>
                     (<["last_error" := VNone]> ∅))))]> (dicts σ).
Proof.
  intros st self. eexists. split; [reflexivity|]. split; reflexivity.
Qed.

Lemma init_stat cls σ σ' self k :
  BotBase.__init__ cls σ = (Ret self, σ') →
  stat σ' self k =
    (<["start_time" := VNone]> (<["total_runs" := VInt 0]>
       (<["successful_runs" := VInt 0]> (<["failed_runs" := VInt 0]>
       (<["last_error" := VNone]> (∅ : pydict))))) : pydict) !! k.
Proof.
  destruct (init_result cls σ) as (σ1 & E & Ho & Hd).
  rewrite E. intros [= <- <-]. unfold stat. rewrite Ho, Hd.
  rewrite lookup_total_insert_eq. simpl. rewrite lookup_total_insert_eq. reflexivity.
Qed.

(** C9: the counters start at zero, and every recorded run adds one to
    [total_runs] and one to exactly one of [successful_runs] and
    [failed_runs], so that [total_runs = successful_runs + failed_runs] is
    kept. *)
Theorem run_statistics_invariant (cls : string) (σ0 σ : Env) (self : loc)
    (success : bool) (error : pyval) :
  (∃ new σ1, BotBase.__init__ cls σ0 = (Ret new, σ1) ∧
     stat σ1 new "total_runs" = Some (VInt 0) ∧
     stat σ1 new "successful_runs" = Some (VInt 0) ∧
     stat σ1 new "failed_runs" = Some (VInt 0) ∧
     stats_invariant σ1 new) ∧
  (∀ t s f : Z,
     stat σ self "total_runs" = Some (VInt t) →
     stat σ self "successful_runs" = Some (VInt s) →
     stat σ self "failed_runs" = Some (VInt f) →
     ∃ σ', BotBase._record_run self success error σ = (Ret tt, σ') ∧
       stat σ' self "total_runs" = Some (VInt (t + 1)) ∧
       stat σ' self "successful_runs" = Some (VInt (if success then s + 1 else s)) ∧
       stat σ' self "failed_runs" = Some (VInt (if success then f else f + 1)) ∧
       (t = (s + f)%Z → stats_invariant σ' self)).
Proof.
  split.
  - destruct (init_result cls σ0) as (σ1 & E & _).
    assert (Hk : ∀ k, stat σ1 (fresh (dom (objs σ0))) k = _) by (intros k; exact (init_stat _ _ _ _ k E)).
    exists (fresh (dom (objs σ0))), σ1. split; [exact E|].
    repeat split; try (rewrite Hk; reflexivity).
    exists 0%Z, 0%Z, 0%Z. repeat split; rewrite Hk; reflexivity.
  - intros t s f Ht Hs Hf. destruct success.
    + rewrite (record_run_success _ _ _ _ _ Ht Hs). eexists. split; [reflexivity|].
      rewrite !stat_touch.
      assert (A1 : stat (stat_upd self "successful_runs" (VInt (s + 1))
                  (stat_upd self "total_runs" (VInt (t + 1)) σ)) self "total_runs"
                   = Some (VInt (t + 1))).
      { rewrite stat_stat_upd_ne by done. apply stat_stat_upd_eq. }
      assert (A2 : stat (stat_upd self "successful_runs" (VInt (s + 1))
                  (stat_upd self "total_runs" (VInt (t + 1)) σ)) self "failed_runs"
                   = Some (VInt f)).
      { rewrite !stat_stat_upd_ne by done. exact Hf. }
      repeat split; [exact A1|apply stat_stat_upd_eq|exact A2|].
      intros ->. exists (s + f + 1)%Z, (s + 1)%Z, f.
      rewrite !stat_touch. repeat split; [exact A1|apply stat_stat_upd_eq|exact A2|lia].
    + rewrite (record_run_failure _ _ _ _ _ Ht Hf). eexists. split; [reflexivity|].
      rewrite !stat_touch.
      set (σ' := stat_upd self "last_error" error _).
      assert (A1 : stat σ' self "total_runs" = Some (VInt (t + 1))).
      { unfold σ'. rewrite !stat_stat_upd_ne by done. apply stat_stat_upd_eq. }
      assert (A2 : stat σ' self "successful_runs" = Some (VInt s)).
      { unfold σ'. rewrite !stat_stat_upd_ne by done. exact Hs. }
      assert (A3 : stat σ' self "failed_runs" = Some (VInt (f + 1))).
      { unfold σ'. rewrite stat_stat_upd_ne by done. apply stat_stat_upd_eq. }
      repeat split; [exact A1|exact A2|exact A3|].
      intros ->. exists (s + f + 1)%Z, s, (f + 1)%Z.
      rewrite !stat_touch. repeat split; [exact A1|exact A2|exact A3|lia].
Qed.

Lemma run_statistics_invariant_witness :
  stat env1 bot1 "total_runs" = Some (VInt 0) ∧
  stat env1 bot1 "successful_runs" = Some (VInt 0) ∧
  stat env1 bot1 "failed_runs" = Some (VInt 0) ∧
  ∃ σ', BotBase._record_run bot1 false (VStr "boom") env1 = (Ret tt, σ') ∧
        stat σ' bot1 "total_runs" = Some (VInt 1) ∧
        stat σ' bot1 "failed_runs" = Some (VInt 1) ∧
        stats_invariant σ' bot1.
Proof.
  assert (H1 : stat env1 bot1 "total_runs" = Some (VInt 0)) by (vm_compute; reflexivity).
  assert (H2 : stat env1 bot1 "successful_runs" = Some (VInt 0)) by (vm_compute; reflexivity).
  assert (H3 : stat env1 bot1 "failed_runs" = Some (VInt 0)) by (vm_compute; reflexivity).
  split; [exact H1|]. split; [exact H2|]. split; [exact H3|].
  destruct (proj2 (run_statistics_invariant "MockBot" env0 env1 bot1 false (VStr "boom"))
              0%Z 0%Z 0%Z H1 H2 H3) as (σ' & E & A & _ & C & D).
  exists σ'. split; [exact E|]. split; [exact A|]. split; [exact C|]. exact (D eq_refl).
Defined.

(** C2, as the code has it: when a run cycle goes through [safe_run] and
    [run()] raises, the failure is recorded before [safe_run] returns:
    [failed_runs] (and [total_runs]) go up by one, [last_error] is the
    message, [last_activity] is the current time, the worker is unhealthy,
    and [safe_run] itself returns normally.  The counters [t] and [f] are
    those at the moment [run()] raised. *)
Theorem safe_run_records_failure (run : loc → BotM unit) (σ σ1 : Env) (self : loc)
    (e : exn) (t f : Z) :
  run self (add_log (MkLog (name (objs σ !!! self)) "info"
                       ("Starting " +:+ name (objs σ !!! self) +:+ " run...")) σ)
    = (Raise e, σ1) →
  stat σ1 self "total_runs" = Some (VInt t) →
  stat σ1 self "failed_runs" = Some (VInt f) →
  ∃ σ2, BotBase.safe_run run self σ = (Ret tt, σ2) ∧
    BotBase.is_healthy self σ2 = (Ret false, σ2) ∧
    stat σ2 self "failed_runs" = Some (VInt (f + 1)) ∧
    stat σ2 self "total_runs" = Some (VInt (t + 1)) ∧
    stat σ2 self "successful_runs" = stat σ1 self "successful_runs" ∧
    stat σ2 self "last_error" = Some (VStr (str e)) ∧
    BotBase.get_last_activity self σ2 = (Ret (Some (snd (clock σ1 (ticks σ1)))), σ2) ∧
    (∃ copy σ3, BotBase.get_stats self σ2 = (Ret copy, σ3) ∧
                (dicts σ3 !!! copy) !! "failed_runs" = Some (VInt (f + 1))).
Proof.
  intros Hrun Ht Hf.
  unfold BotBase.safe_run, try_except.
  unfold mbind at 1 2, SE_bind. unfold getattr at 1, gets. unfold logger at 1.
  unfold mbind at 1 2, SE_bind. unfold getattr at 1, gets, modify.
  rewrite Hrun.
  unfold mbind at 1 2 3, SE_bind. unfold getattr at 1, gets. unfold logger at 1.
  unfold mbind at 1, SE_bind. unfold getattr at 1, gets, modify.
  set (σ1' := add_log _ σ1).
  assert (Ht' : stat σ1' self "total_runs" = Some (VInt t)) by exact Ht.
  assert (Hf' : stat σ1' self "failed_runs" = Some (VInt f)) by exact Hf.
  rewrite (record_run_failure _ _ (VStr (str e)) _ _ Ht' Hf').
  set (σr := touch self _).
  eexists. split; [reflexivity|].
  unfold setattr, modify. cbn [snd].
  set (σ2 := set_objs _ σr).
  assert (Hobj : objs σ2 !!! self = set_healthy false (objs σr !!! self)).
  { unfold σ2, set_objs; simpl. apply lookup_total_insert_eq. }
  assert (Hstat : ∀ k, stat σ2 self k = stat σr self k).
  { intros k. unfold stat. rewrite Hobj. reflexivity. }
  assert (Hr : ∀ k, stat σr self k = stat (stat_upd self "last_error" (VStr (str e))
                          (stat_upd self "failed_runs" (VInt (f + 1))
                            (stat_upd self "total_runs" (VInt (t + 1)) σ1'))) self k).
  { intros k. apply stat_touch. }
  split. { unfold BotBase.is_healthy, getattr, gets. rewrite Hobj. reflexivity. }
  split. { rewrite Hstat, Hr, stat_stat_upd_ne by done. apply stat_stat_upd_eq. }
  split. { rewrite Hstat, Hr, !stat_stat_upd_ne by done. apply stat_stat_upd_eq. }
  split. { rewrite Hstat, Hr, !stat_stat_upd_ne by done. reflexivity. }
  split. { rewrite Hstat, Hr. apply stat_stat_upd_eq. }
  split.
  { unfold BotBase.get_last_activity, getattr, gets. rewrite Hobj.
    unfold σr, touch, set_objs; simpl. rewrite lookup_total_insert_eq. reflexivity. }
  eexists _, _. split; [reflexivity|].
  cbn [dicts set_dicts]. rewrite lookup_total_insert_eq.
  change (stat σ2 self "failed_runs" = Some (VInt (f + 1))).
  rewrite Hstat, Hr, stat_stat_upd_ne by done. apply stat_stat_upd_eq.
Qed.

Lemma safe_run_records_failure_witness :
  ∃ σ2, BotBase.safe_run failing_run bot1 env1_started = (Ret tt, σ2) ∧
        BotBase.is_healthy bot1 σ2 = (Ret false, σ2) ∧
        stat σ2 bot1 "failed_runs" = Some (VInt 1) ∧
        stat σ2 bot1 "last_error" = Some (VStr "boom").
Proof.
  destruct (safe_run_records_failure failing_run env1_started
              (add_log (MkLog (name (objs env1_started !!! bot1)) "info"
                          ("Starting " +:+ name (objs env1_started !!! bot1) +:+ " run..."))
                 env1_started)
              bot1 boom 0 0 eq_refl)
    as (σ2 & E & Hh & Hf & _ & _ & He & _).
  - vm_compute; reflexivity.
  - vm_compute; reflexivity.
  - exists σ2. split; [exact E|]. split; [exact Hh|]. split; [exact Hf|exact He].
Defined.

(** C2 as stated fails for a worker whose cycle does not go through
    [safe_run].  A subclass of [MonitoringBot] whose [run()] raises: after
    [start()], which lets the exception out, the worker still reports healthy
    and no failed run is counted.  [MonitoringBot] itself, with a cycle that
    fails: its loop turns the worker unhealthy, but counts no failed run and
    records neither the error nor the time. *)
Lemma failure_outside_safe_run_not_recorded :
  (∃ σ', start (flaky_classes "FlakyBot") bot1 (env world_flaky) = (Raise boom, σ') ∧
         BotBase.is_healthy bot1 σ' = (Ret true, σ') ∧
         stat σ' bot1 "failed_runs" = Some (VInt 0) ∧
         stat σ' bot1 "last_error" = Some VNone) ∧
  (∃ σ', start (monitoring_classes "MonitoringBot") bot1 (env world_monitoring)
           = (Ret tt, σ') ∧
         logs σ' =
           [MkLog "MonitoringBot" "info" "MonitoringBot initialized";
            MkLog "MonitoringBot" "info" "MonitoringBot started";
            MkLog "MonitoringBot" "error" "Error in MonitoringBot loop: RPC unreachable"] ∧
         BotBase.is_healthy bot1 σ' = (Ret false, σ') ∧
         stat σ' bot1 "failed_runs" = Some (VInt 0) ∧
         stat σ' bot1 "total_runs" = Some (VInt 0) ∧
         stat σ' bot1 "last_error" = Some VNone ∧
         BotBase.get_last_activity bot1 σ' = (Ret None, σ')).
Proof.
  split; eexists; (split; [vm_compute; reflexivity|]).
  - split; [|split]; vm_compute; reflexivity.
  - split; [|split; [|split; [|split; [|split]]]]; vm_compute; reflexivity.
Qed.

(** ** Copies and aliases of the statistics *)

(** C10: [get_stats()] hands out a copy.  Whatever is then done to the
    returned dictionary, the worker's own statistics keep their items, and a
    later [get_stats()] still returns them. *)
Theorem get_stats_returns_copy (σ : Env) (self : loc) (mutation : pydict → pydict) :
  is_Some (dicts σ !! stats (objs σ !!! self)) →
  ∃ copy σ1, BotBase.get_stats self σ = (Ret copy, σ1) ∧
    copy ≠ stats (objs σ !!! self) ∧
    dicts σ1 !!! copy = dicts σ !!! stats (objs σ !!! self) ∧
    ∃ σ2, dict_mutate copy mutation σ1 = (Ret tt, σ2) ∧
      dicts σ2 !!! copy = mutation (dicts σ !!! stats (objs σ !!! self)) ∧
      objs σ2 = objs σ ∧
      dicts σ2 !!! stats (objs σ2 !!! self) = dicts σ !!! stats (objs σ !!! self) ∧
      ∃ copy' σ3, BotBase.get_stats self σ2 = (Ret copy', σ3) ∧
        dicts σ3 !!! copy' = dicts σ !!! stats (objs σ !!! self).
Proof.
  intros Halloc.
  set (st := stats (objs σ !!! self)).
  set (copy := fresh (dom (dicts σ))).
  assert (Hne : copy ≠ st).
  { intros E. apply (is_fresh (dom (dicts σ))). fold copy. rewrite E.
    apply elem_of_dom. exact Halloc. }
  exists copy. eexists. split; [reflexivity|].
  split; [exact Hne|].
  split. { cbn [dicts set_dicts]. apply lookup_total_insert_eq. }
  eexists. split; [reflexivity|].
  cbn [dicts set_dicts objs].
  split. { rewrite !lookup_total_insert_eq. reflexivity. }
  split; [reflexivity|].
  fold st.
  assert (Hkeep : (<[copy := mutation (<[copy := dicts σ !!! st]> (dicts σ) !!! copy)]>
                    (<[copy := dicts σ !!! st]> (dicts σ)) : gmap loc pydict) !!! st
                  = dicts σ !!! st).
  { rewrite !lookup_total_insert_ne by exact Hne. reflexivity. }
  split; [exact Hkeep|].
  eexists _, _. split; [reflexivity|].
  cbn [dicts set_dicts objs]. rewrite lookup_total_insert_eq. fold st. exact Hkeep.
Qed.

Lemma get_stats_returns_copy_witness :
  is_Some (dicts env1 !! stats (objs env1 !!! bot1)) ∧
  ∃ copy σ1, BotBase.get_stats bot1 env1 = (Ret copy, σ1) ∧
    ∃ σ2, dict_mutate copy (λ _, ∅) σ1 = (Ret tt, σ2) ∧
      dicts σ2 !!! copy = ∅ ∧
      stat σ2 bot1 "total_runs" = Some (VInt 0).
Proof.
  assert (H : is_Some (dicts env1 !! stats (objs env1 !!! bot1))).
  { apply (bool_decide_unpack _). vm_compute. reflexivity. }
  split; [exact H|].
  destruct (get_stats_returns_copy env1 bot1 (λ _, ∅) H)
    as (copy & σ1 & E1 & _ & _ & σ2 & E2 & Hc & _ & Hs & _).
  exists copy, σ1. split; [exact E1|]. exists σ2. split; [exact E2|].
  split; [exact Hc|]. unfold stat. rewrite Hs. vm_compute. reflexivity.
Defined.

(** C7: the dictionary returned by [health_check()] holds the worker's
    statistics dictionary itself.  Taken on a new worker, the snapshot shows
    [total_runs] 0; after one recorded run the same snapshot shows 1. *)
Theorem health_check_snapshot_aliases_stats :
  fst ((self ← BotBase.__init__ "MockBot";
        snap ← BotBase.health_check self;
        before ← dict_getitem2 snap "stats" "total_runs";
        BotBase._record_run self true VNone;;
        after ← dict_getitem2 snap "stats" "total_runs";
        mret (before, after)) env0)
  = Ret (VInt 0, VInt 1).
Proof. vm_compute. reflexivity. Qed.

(** The snapshot's ['stats'] entry is the reference [self.stats]. *)
Lemma health_check_stats_entry σ self snap σ' :
  BotBase.health_check self σ = (Ret snap, σ') →
  (dicts σ' !!! snap) !! "stats" = Some (VRef (stats (objs σ !!! self))) ∧
  objs σ' = objs σ.
Proof.
  unfold BotBase.health_check.
  unfold mbind at 1 2 3, SE_bind. unfold getattr at 1 2 3, gets.
  unfold mbind at 1, SE_bind.
  destruct (BotBase._get_uptime self σ) as [[up|e] σu] eqn:Eu; [|discriminate].
  assert (Ho : objs σu = objs σ).
  { revert Eu. unfold BotBase._get_uptime.
    unfold mbind at 1 2, SE_bind. unfold getattr at 1, gets, dict_getitem.
    destruct (_ !! "start_time") as [t0|]; [|intros [= ]].
    unfold mbind at 1, SE_bind.
    destruct (truth t0 σ) as [[b|?] σt] eqn:Et; [|intros [= ]].
    assert (σt = σ) as ->.
    { destruct t0 as [| | | | |l|]; simpl in Et; try (by injection Et).
      unfold mbind, SE_bind, gets in Et.
      destruct (lists σ !! l); simpl in Et; by injection Et. }
    destruct b.
    - unfold mbind at 1 2 3, SE_bind. unfold time_time, getattr, gets. cbn [dicts objs tick].
      destruct (_ !! "start_time") as [t1|]; [|by intros [= _ <-]].
      unfold mbind, SE_bind.
      destruct t1; simpl; by intros [= _ <-].
    - by intros [= _ <-]. }
  unfold mbind, SE_bind, getattr, gets, dict_new.
  intros [= <- <-]. cbn [dicts set_dicts objs].
  rewrite lookup_total_insert_eq, Ho. split; reflexivity.
Qed.

(** ** The control surface *)

Ltac simpl_world :=
  cbn [trace env bots db orch_running config add_event set_env set_bots set_db].

Lemma new_events_app w w' evs : trace w' = trace w ++ evs → new_events w w' = evs.
Proof. intros H. unfold new_events. rewrite H. by rewrite drop_app_length. Qed.

Lemma call_stop_eq classes bot w :
  BotOrchestrator.call_stop classes bot w =
    match stop (class_of classes (env w) bot) bot (env w) with
    | (r, σ') => (r, set_env σ' (add_event (CallStop bot) w))
    end.
Proof.
  unfold BotOrchestrator.call_stop, emit, lift, getattr, class_of. unfold_monad.
  cbn [env add_event]. reflexivity.
Qed.

Lemma call_start_eq classes bot w :
  BotOrchestrator.call_start classes bot w =
    match start (class_of classes (env w) bot) bot (env w) with
    | (r, σ') => (r, set_env σ' (add_event (CallStart bot) w))
    end.
Proof.
  unfold BotOrchestrator.call_start, emit, lift, getattr, class_of. unfold_monad.
  cbn [env add_event]. reflexivity.
Qed.

Lemma time_sleep_grace w :
  BotOrchestrator.time_sleep (VInt 2) w = (Ret tt, add_event (Sleep (VInt 2)) w).
Proof. reflexivity. Qed.

Lemma reg_lookup_delete_eq k r : reg_lookup k (reg_delete k r) = None.
Proof.
  unfold reg_delete. induction r as [|[k' v] r IH]; [done|].
  rewrite filter_cons. cbn [fst]. destruct (decide (k' ≠ k)) as [Hne|Heq]; [|exact IH].
  cbn [reg_lookup]. rewrite decide_False by exact Hne. exact IH.
Qed.

Lemma reg_lookup_delete_ne k k' r :
  k' ≠ k → reg_lookup k' (reg_delete k r) = reg_lookup k' r.
Proof.
  intros Hne. unfold reg_delete. induction r as [|[k0 v] r IH]; [done|].
  rewrite filter_cons. cbn [fst reg_lookup]. destruct (decide (k0 ≠ k)) as [H0|H0].
  - cbn [reg_lookup]. destruct (decide (k0 = k')); [done|exact IH].
  - apply dec_stable in H0. subst k0. rewrite decide_False by done. exact IH.
Qed.

(** C6, as the code has it: [stop_bot] on a name that is not registered
    only logs a warning: it returns normally and the registry, the workers
    and the event store are as before.  On a registered name it logs, calls
    [stop()] on the worker with the registry as it was, and only when
    [stop()] has returned removes the name, and nothing else, from the
    registry; when [stop()] raises, the exception leaves [stop_bot] and the
    name stays registered. *)
Theorem stop_bot_spec (classes : string → BotClass) (w : World) (bot_name : string) :
  (reg_lookup bot_name (bots w) = None →
     BotOrchestrator.stop_bot classes bot_name w =
       (Ret tt, add_event (Log "warning" ("Bot not found: " +:+ bot_name)) w)) ∧
  (∀ bot,
     reg_lookup bot_name (bots w) = Some bot →
     let called :=
       add_event (CallStop bot)
         (add_event (Log "info" ("Stopping bot: " +:+ bot_name)) w) in
     BotOrchestrator.stop_bot classes bot_name w =
       match stop (class_of classes (env w) bot) bot (env w) with
       | (Ret _, σ') =>
           (Ret tt, set_bots (reg_delete bot_name (bots w)) (set_env σ' called))
       | (Raise e, σ') => (Raise e, set_env σ' called)
       end) ∧
  reg_lookup bot_name (reg_delete bot_name (bots w)) = None ∧
  (∀ other, other ≠ bot_name →
     reg_lookup other (reg_delete bot_name (bots w)) = reg_lookup other (bots w)).
Proof.
  split; [|split; [|split]].
  - intros Habs. unfold BotOrchestrator.stop_bot. unfold mbind at 1, SE_bind, gets.
    rewrite Habs. reflexivity.
  - intros bot Hreg called. unfold BotOrchestrator.stop_bot.
    unfold mbind at 1, SE_bind, gets. rewrite Hreg.
    unfold mbind at 1 2, SE_bind. unfold BotOrchestrator.logger, emit, modify.
    rewrite call_stop_eq. cbn [env add_event].
    destruct (stop _ bot (env w)) as [[[]|e] σ']; reflexivity.
  - apply reg_lookup_delete_eq.
  - intros other Hne. by apply reg_lookup_delete_ne.
Qed.

Lemma stop_bot_spec_witness :
  reg_lookup "nonexistent" (bots world1) = None ∧
  reg_lookup "mock_bot" (bots world1) = Some bot1 ∧
  (∃ w', BotOrchestrator.stop_bot mock_classes "nonexistent" world1 = (Ret tt, w') ∧
         bots w' = bots world1 ∧ env w' = env world1) ∧
  (∃ w', BotOrchestrator.stop_bot mock_classes "mock_bot" world1 = (Ret tt, w') ∧
         bots w' = [] ∧
         new_events world1 w' = [Log "info" "Stopping bot: mock_bot"; CallStop bot1]).
Proof.
  assert (H1 : reg_lookup "nonexistent" (bots world1) = None) by reflexivity.
  assert (H2 : reg_lookup "mock_bot" (bots world1) = Some bot1) by reflexivity.
  split; [exact H1|]. split; [exact H2|]. split.
  - eexists. split; [exact (proj1 (stop_bot_spec mock_classes world1 "nonexistent") H1)|].
    split; reflexivity.
  - eexists. split; [exact (proj1 (proj2 (stop_bot_spec mock_classes world1 "mock_bot")) bot1 H2)|].
    split; reflexivity.
Defined.

(** C6 as stated fails for a worker whose [stop()] raises, as that of a
    [DiscordBot] does when its client cannot be closed: [stop()] was called,
    the exception leaves [stop_bot], and the name is still registered. *)
Lemma stop_bot_keeps_worker_whose_stop_raises :
  reg_lookup "discord_bot" (bots world_discord) = Some bot1 ∧
  ∃ w', BotOrchestrator.stop_bot discord_classes "discord_bot" world_discord =
          (Raise (PyExn "RuntimeError" "Event loop is closed"), w') ∧
        new_events world_discord w' = [Log "info" "Stopping bot: discord_bot"; CallStop bot1] ∧
        BotBase.is_running bot1 (env w') = (Ret false, env w') ∧
        bots w' = bots world_discord ∧
        reg_lookup "discord_bot" (bots w') = Some bot1.
Proof.
  split; [reflexivity|]. eexists. split; [vm_compute; reflexivity|].
  split; [vm_compute; reflexivity|]. split; [vm_compute; reflexivity|].
  split; reflexivity.
Qed.

(** C3, as the code has it: restarting a registered worker whose [stop()]
    returns, from the control surface ([restart_bot]) or from the supervisor
    ([_attempt_bot_restart]), calls [stop()], then sleeps the two seconds of
    grace, then submits the worker to the pool, once and under the same
    name. *)
Theorem restart_submits_once (classes : string → BotClass) (w : World)
    (bot_name : string) (bot : loc) (σ' : Env) :
  reg_lookup bot_name (bots w) = Some bot →
  stop (class_of classes (env w) bot) bot (env w) = (Ret tt, σ') →
  (∃ w1, BotOrchestrator.restart_bot classes bot_name w = (Ret tt, w1) ∧
     new_events w w1 =
       [Log "info" ("Restarting bot: " +:+ bot_name);
        CallStop bot; Sleep (VInt 2); Submit bot_name bot] ∧
     submissions (new_events w w1) = [(bot_name, bot)] ∧
     env w1 = σ' ∧ bots w1 = bots w) ∧
  (∃ w2, BotOrchestrator._attempt_bot_restart classes bot_name bot w = (Ret tt, w2) ∧
     new_events w w2 =
       [Log "info" ("Attempting to restart " +:+ bot_name +:+ "...");
        CallStop bot; Sleep (VInt 2); Submit bot_name bot;
        Log "info" ("Successfully restarted " +:+ bot_name)] ∧
     submissions (new_events w w2) = [(bot_name, bot)] ∧
     env w2 = σ' ∧ bots w2 = bots w).
Proof.
  intros Hreg Hstop. split.
  - unfold BotOrchestrator.restart_bot.
    unfold mbind at 1, SE_bind, gets. rewrite Hreg.
    unfold mbind at 1 2, SE_bind. unfold BotOrchestrator.logger, emit, modify.
    rewrite call_stop_eq. simpl_world. rewrite Hstop.
    unfold mbind at 1 2, SE_bind. unfold BotOrchestrator.time_sleep, emit, modify. simpl.
    rewrite Hreg. unfold BotOrchestrator.executor_submit, emit, modify.
    assert (Hev : ∀ w1, trace w1 = trace w ++ [Log "info" ("Restarting bot: " +:+ bot_name);
        CallStop bot; Sleep (VInt 2); Submit bot_name bot] →
        new_events w w1 = [Log "info" ("Restarting bot: " +:+ bot_name);
        CallStop bot; Sleep (VInt 2); Submit bot_name bot]) by (intros; by apply new_events_app).
    eexists. split; [reflexivity|].
    rewrite Hev by (simpl_world; by rewrite <- !app_assoc).
    split; [reflexivity|]. split; [reflexivity|]. split; reflexivity.
  - unfold BotOrchestrator._attempt_bot_restart.
    unfold mbind at 1, SE_bind. unfold BotOrchestrator.logger at 1, emit, modify.
    unfold try_except. unfold mbind at 1 2 3, SE_bind.
    rewrite call_stop_eq. simpl_world. rewrite Hstop.
    unfold BotOrchestrator.time_sleep, BotOrchestrator.executor_submit,
      BotOrchestrator.logger, emit, modify. simpl.
    assert (Hev : ∀ w1 evs, trace w1 = trace w ++ evs → new_events w w1 = evs)
      by (intros; by apply new_events_app).
    eexists. split; [reflexivity|].
    rewrite (Hev _ [Log "info" ("Attempting to restart " +:+ bot_name +:+ "...");
        CallStop bot; Sleep (VInt 2); Submit bot_name bot;
        Log "info" ("Successfully restarted " +:+ bot_name)])
      by (simpl_world; by rewrite <- !app_assoc).
    split; [reflexivity|]. split; [reflexivity|]. split; reflexivity.
Qed.

Lemma restart_submits_once_witness :
  reg_lookup "mock_bot" (bots world1) = Some bot1 ∧
  ∃ w1, BotOrchestrator.restart_bot mock_classes "mock_bot" world1 = (Ret tt, w1) ∧
        submissions (new_events world1 w1) = [("mock_bot", bot1)].
Proof.
  assert (H : reg_lookup "mock_bot" (bots world1) = Some bot1) by reflexivity.
  split; [exact H|].
  destruct (proj1 (restart_submits_once mock_classes world1 "mock_bot" bot1 _ H eq_refl))
    as (w1 & E & _ & Hs & _).
  exists w1. split; [exact E|exact Hs].
Defined.

(** When [stop()] raises, no submission is made: [restart_bot] lets the
    exception through, [_attempt_bot_restart] logs it. *)
Lemma restart_stop_raises classes w bot_name bot e σ' :
  reg_lookup bot_name (bots w) = Some bot →
  stop (class_of classes (env w) bot) bot (env w) = (Raise e, σ') →
  (∃ w1, BotOrchestrator.restart_bot classes bot_name w = (Raise e, w1) ∧
         submissions (new_events w w1) = []) ∧
  (∃ w2, BotOrchestrator._attempt_bot_restart classes bot_name bot w = (Ret tt, w2) ∧
         new_events w w2 =
           [Log "info" ("Attempting to restart " +:+ bot_name +:+ "...");
            CallStop bot;
            Log "error" ("Failed to restart " +:+ bot_name +:+ ": " +:+ str e)]).
Proof.
  intros Hreg Hstop. split.
  - unfold BotOrchestrator.restart_bot.
    unfold mbind at 1, SE_bind, gets. rewrite Hreg.
    unfold mbind at 1 2, SE_bind. unfold BotOrchestrator.logger, emit, modify.
    rewrite call_stop_eq. simpl_world. rewrite Hstop.
    eexists. split; [reflexivity|].
    rewrite (new_events_app _ _ [Log "info" ("Restarting bot: " +:+ bot_name); CallStop bot])
      by (simpl_world; by rewrite <- !app_assoc).
    reflexivity.
  - unfold BotOrchestrator._attempt_bot_restart.
    unfold mbind at 1, SE_bind. unfold BotOrchestrator.logger at 1, emit, modify.
    unfold try_except. unfold mbind at 1 2 3, SE_bind.
    rewrite call_stop_eq. simpl_world. rewrite Hstop.
    unfold BotOrchestrator.logger, emit, modify.
    eexists. split; [reflexivity|].
    apply new_events_app. simpl_world. by rewrite <- !app_assoc.
Qed.

(** C3 as stated fails for a registered worker whose [stop()] raises, as
    that of a [DiscordBot] does when its client cannot be closed:
    [restart_bot] lets the exception through after the call of [stop()], and
    [_attempt_bot_restart] logs it; neither waits nor submits anything. *)
Lemma restart_without_submission :
  reg_lookup "discord_bot" (bots world_discord) = Some bot1 ∧
  (∃ w1, BotOrchestrator.restart_bot discord_classes "discord_bot" world_discord =
           (Raise (PyExn "RuntimeError" "Event loop is closed"), w1) ∧
         new_events world_discord w1 =
           [Log "info" "Restarting bot: discord_bot"; CallStop bot1] ∧
         submissions (new_events world_discord w1) = []) ∧
  (∃ w2, BotOrchestrator._attempt_bot_restart discord_classes "discord_bot" bot1 world_discord =
           (Ret tt, w2) ∧
         new_events world_discord w2 =
           [Log "info" "Attempting to restart discord_bot...";
            CallStop bot1;
            Log "error" "Failed to restart discord_bot: Event loop is closed"] ∧
         submissions (new_events world_discord w2) = []).
Proof.
  split; [reflexivity|].
  split; eexists; (split; [vm_compute; reflexivity|]); split; vm_compute; reflexivity.
Qed.

(** ** The health supervisor *)

Ltac elem_inv H :=
  repeat (apply elem_of_cons in H as [H|H];
          [try discriminate H; try (injection H as ?; subst)|]);
  try (apply elem_of_nil in H; destruct H).

Ltac elem_intro :=
  first [apply list_elem_of_here | apply list_elem_of_further; elem_intro].

Lemma restart_justified_app evs1 evs2 :
  restart_justified evs1 → restart_justified evs2 → restart_justified (evs1 ++ evs2).
Proof.
  intros H1 H2 bot [Hs|[n Hs]]; apply elem_of_app in Hs as [Hs|Hs]; apply elem_of_app.
  - left. apply H1. by left.
  - right. apply H2. by left.
  - left. apply H1. right. by exists n.
  - right. apply H2. right. by exists n.
Qed.

Lemma attempt_restart_events classes bot_name bot w :
  ∃ w' evs,
    BotOrchestrator._attempt_bot_restart classes bot_name bot w = (Ret tt, w') ∧
    trace w' = trace w ++ evs ∧
    (∀ b, (CallStop b ∈ evs ∨ ∃ n, Submit n b ∈ evs) → b = bot).
Proof.
  unfold BotOrchestrator._attempt_bot_restart.
  unfold mbind at 1, SE_bind. unfold BotOrchestrator.logger at 1, emit, modify.
  unfold try_except. unfold mbind at 1 2 3, SE_bind.
  rewrite call_stop_eq. simpl_world.
  destruct (stop _ bot (env w)) as [[[]|e] σ'].
  - unfold BotOrchestrator.time_sleep, BotOrchestrator.executor_submit,
      BotOrchestrator.logger, emit, modify. simpl.
    eexists _, [Log "info" ("Attempting to restart " +:+ bot_name +:+ "...");
        CallStop bot; Sleep (VInt 2); Submit bot_name bot;
        Log "info" ("Successfully restarted " +:+ bot_name)].
    split; [reflexivity|]. split; [simpl_world; by rewrite <- !app_assoc|].
    intros b [Hb|[n Hb]]; elem_inv Hb; reflexivity.
  - unfold BotOrchestrator.logger, emit, modify.
    eexists _, [Log "info" ("Attempting to restart " +:+ bot_name +:+ "...");
        CallStop bot; Log "error" ("Failed to restart " +:+ bot_name +:+ ": " +:+ str e)].
    split; [reflexivity|]. split; [simpl_world; by rewrite <- !app_assoc|].
    intros b [Hb|[n Hb]]; elem_inv Hb; reflexivity.
Qed.

Lemma health_check_step_events classes bot_name bot w :
  ∃ w' evs,
    BotOrchestrator.health_check_step classes (bot_name, bot) w = (Ret tt, w') ∧
    trace w' = trace w ++ evs ∧
    restart_justified evs ∧
    (∃ a, CallIsHealthy bot a ∈ evs).
Proof.
  unfold BotOrchestrator.health_check_step, try_except.
  unfold mbind at 1, SE_bind.
  unfold BotOrchestrator.call_is_healthy.
  unfold mbind at 1 2, SE_bind. unfold lift, BotBase.is_healthy, getattr, gets, emit, modify.
  unfold mret at 1, SE_ret.
  destruct (healthy (objs (env w) !!! bot)) eqn:Hh; cbn [negb].
  - eexists _, [CallIsHealthy bot true]. split; [reflexivity|].
    split; [reflexivity|]. split.
    + intros b [Hb|[n Hb]]; elem_inv Hb.
    + exists true. elem_intro.
  - unfold mbind at 1, SE_bind. unfold BotOrchestrator.logger at 1, emit, modify.
    match goal with
    | |- context [BotOrchestrator._attempt_bot_restart classes bot_name bot ?w0] =>
        destruct (attempt_restart_events classes bot_name bot w0) as (w' & evs & E & Htr & Hab)
    end.
    rewrite E. exists w', ([CallIsHealthy bot false;
                            Log "warning" ("Bot " +:+ bot_name +:+ " is unhealthy!")] ++ evs).
    split; [reflexivity|]. split.
    { rewrite Htr. simpl_world. by rewrite <- !app_assoc. }
    split.
    + intros b Hb. assert (b = bot) as ->.
      { apply Hab. destruct Hb as [Hb|[n Hb]]; [left|right; exists n];
          (apply elem_of_app in Hb as [Hb|Hb]; [elem_inv Hb|exact Hb]). }
      apply elem_of_app. left. elem_intro.
    + exists false. apply elem_of_app. left. elem_intro.
Qed.

Lemma health_check_steps_events classes items w :
  ∃ w' evs,
    for_each items (BotOrchestrator.health_check_step classes) w = (Ret tt, w') ∧
    trace w' = trace w ++ evs ∧
    restart_justified evs ∧
    (∀ n b, (n, b) ∈ items → ∃ a, CallIsHealthy b a ∈ evs).
Proof.
  revert w. induction items as [|[n b] items IH]; intros w.
  - exists w, []. split; [reflexivity|]. split; [by rewrite app_nil_r|].
    split; [intros bot [H|[? H]]; elem_inv H|]. intros ? ? H. elem_inv H.
  - cbn [for_each]. unfold mbind, SE_bind.
    destruct (health_check_step_events classes n b w) as (w1 & evs1 & E1 & T1 & J1 & [a Ha]).
    rewrite E1. destruct (IH w1) as (w2 & evs2 & E2 & T2 & J2 & V2).
    exists w2, (evs1 ++ evs2). split; [exact E2|].
    split; [rewrite T2, T1; by rewrite app_assoc|].
    split; [by apply restart_justified_app|].
    intros n' b' Hin. apply elem_of_cons in Hin as [[= -> ->]|Hin].
    + exists a. apply elem_of_app. by left.
    + destruct (V2 _ _ Hin) as [a' Ha']. exists a'. apply elem_of_app. by right.
Qed.

(** C4: a worker whose [is_healthy()] answers [True] is left alone.  The
    loop body does nothing for it but read the flag; and over a whole poll,
    which asks every registered worker, a worker is stopped or resubmitted
    only if one of its answers was [False]. *)
Theorem healthy_worker_not_restarted (classes : string → BotClass) (w : World)
    (bot_name : string) (bot : loc) :
  BotBase.is_healthy bot (env w) = (Ret true, env w) →
  BotOrchestrator.health_check_step classes (bot_name, bot) w =
    (Ret tt, add_event (CallIsHealthy bot true) w) ∧
  ∃ w', BotOrchestrator.health_check_poll classes w = (Ret tt, w') ∧
    restart_justified (new_events w w') ∧
    (∀ n b, (n, b) ∈ bots w → ∃ a, CallIsHealthy b a ∈ new_events w w') ∧
    ((∀ a, CallIsHealthy bot a ∈ new_events w w' → a = true) →
     (CallStop bot ∉ new_events w w') ∧ (∀ n, Submit n bot ∉ new_events w w')).
Proof.
  intros Hh. split.
  - unfold BotBase.is_healthy, getattr, gets in Hh. injection Hh as Hh.
    unfold BotOrchestrator.health_check_step, try_except.
    unfold mbind at 1, SE_bind.
    unfold BotOrchestrator.call_is_healthy.
    unfold mbind at 1 2, SE_bind. unfold lift, BotBase.is_healthy, getattr, gets, emit, modify.
    rewrite Hh. reflexivity.
  - unfold BotOrchestrator.health_check_poll. unfold mbind, SE_bind, gets.
    destruct (health_check_steps_events classes (bots w) w) as (w' & evs & E & T & J & V).
    exists w'. split; [exact E|]. rewrite (new_events_app _ _ _ T).
    split; [exact J|]. split; [exact V|].
    intros Hall. split.
    + intros Hs. assert (Hf := J bot (or_introl Hs)). by apply Hall in Hf.
    + intros n Hs. assert (Hf := J bot (or_intror (ex_intro _ n Hs))). by apply Hall in Hf.
Qed.

Lemma healthy_worker_not_restarted_witness :
  BotBase.is_healthy bot1 (env world1) = (Ret true, env world1) ∧
  ∃ w', BotOrchestrator.health_check_poll mock_classes world1 = (Ret tt, w') ∧
        new_events world1 w' = [CallIsHealthy bot1 true] ∧
        CallStop bot1 ∉ new_events world1 w'.
Proof.
  assert (H : BotBase.is_healthy bot1 (env world1) = (Ret true, env world1)) by reflexivity.
  split; [exact H|].
  destruct (healthy_worker_not_restarted mock_classes world1 "mock_bot" bot1 H)
    as (_ & w' & E & _ & _ & Hno).
  exists w'. split; [exact E|].
  assert (Hev : new_events world1 w' = [CallIsHealthy bot1 true]).
  { vm_compute in E. injection E as <-. reflexivity. }
  split; [exact Hev|].
  apply Hno. rewrite Hev. intros a Ha. elem_inv Ha. reflexivity.
Defined.

(** ** The execution-pool boundary *)

Lemma last_snoc_removelast {A} (l : list A) x : last (l ++ [x]) = Some x ∧ removelast (l ++ [x]) = l.
Proof. split; [apply last_snoc|apply removelast_last]. Qed.

Lemma last_Some_snoc {A} (l : list A) x : last l = Some x → l = removelast l ++ [x].
Proof.
  intros H. destruct l as [|y l] using rev_ind; [done|].
  rewrite last_snoc in H. injection H as ->. by rewrite removelast_last.
Qed.

Lemma get_connection_enter_eq s :
  ConnectionPool.get_connection_enter s =
    match last (ConnectionPool._connection_pool s) with
    | Some conn =>
        (Ret conn,
         ConnectionPool.MkPool (removelast (ConnectionPool._connection_pool s))
           (ConnectionPool.pool_size s) (ConnectionPool.connect_error s)
           (ConnectionPool.connects s) (ConnectionPool.closed s)
           (ConnectionPool.yielded s ++ [conn]))
    | None =>
        match ConnectionPool.connect_error s (ConnectionPool.connects s) with
        | Some e =>
            (Raise e,
             ConnectionPool.MkPool (ConnectionPool._connection_pool s)
               (ConnectionPool.pool_size s) (ConnectionPool.connect_error s)
               (S (ConnectionPool.connects s)) (ConnectionPool.closed s)
               (ConnectionPool.yielded s))
        | None =>
            (Ret (ConnectionPool.connects s),
             ConnectionPool.MkPool (ConnectionPool._connection_pool s)
               (ConnectionPool.pool_size s) (ConnectionPool.connect_error s)
               (S (ConnectionPool.connects s)) (ConnectionPool.closed s)
               (ConnectionPool.yielded s ++ [ConnectionPool.connects s]))
        end
    end.
Proof.
  unfold ConnectionPool.get_connection_enter, ConnectionPool._init_connection,
    ConnectionPool.yield, ConnectionPool.set_pool. unfold_monad.
  destruct (last (ConnectionPool._connection_pool s)); [reflexivity|].
  destruct (ConnectionPool.connect_error s (ConnectionPool.connects s)); reflexivity.
Qed.

Lemma get_connection_exit_eq conn s :
  ConnectionPool.get_connection_exit conn s =
    (Ret tt,
     if (Z.of_nat (length (ConnectionPool._connection_pool s)) <? ConnectionPool.pool_size s)%Z
     then ConnectionPool.set_pool (ConnectionPool._connection_pool s ++ [conn]) s
     else ConnectionPool.MkPool (ConnectionPool._connection_pool s)
            (ConnectionPool.pool_size s) (ConnectionPool.connect_error s)
            (ConnectionPool.connects s) (ConnectionPool.closed s ++ [conn])
            (ConnectionPool.yielded s)).
Proof.
  unfold ConnectionPool.get_connection_exit, ConnectionPool.conn_close. unfold_monad.
  destruct (_ <? _)%Z; reflexivity.
Qed.

Lemma with_connection_eq {A} (body : nat → ConnectionPool.PoolM A) s :
  ConnectionPool.with_connection body s =
    match ConnectionPool.get_connection_enter s with
    | (Raise e, s1) => (Raise e, s1)
    | (Ret conn, s1) =>
        ((body conn s1).1, (ConnectionPool.get_connection_exit conn (body conn s1).2).2)
    end.
Proof.
  unfold ConnectionPool.with_connection.
  destruct (ConnectionPool.get_connection_enter s) as [[conn|e] s1]; [|reflexivity].
  destruct (body conn s1) as [r s2]. cbn [fst snd].
  rewrite get_connection_exit_eq. reflexivity.
Qed.

(** The body of the [with] block of [execute] neither reads nor changes the
    pool. *)
Lemma execute_body_pool q conn p d :
  execute_body q conn (set_db_pool p d) =
    match execute_body q conn d with
    | (r, d') => (r, set_db_pool p d')
    end.
Proof.
  unfold execute_body, Database.except_sqlite, Database.run_statement.
  cbn [bot_errors set_db_pool engine_error executed].
  destruct (bot_errors d) as [t|]; [|reflexivity].
  destruct q as [bn er sev ts|bn lim].
  - destruct (bool_decide _); [reflexivity|].
    destruct (engine_error d (executed d)) as [e|].
    + destruct (Database.is_sqlite_error e); reflexivity.
    + destruct (_ <=? _)%Z; reflexivity.
  - destruct (_ || _).
    + reflexivity.
    + destruct (engine_error d (executed d)) as [e|]; [|reflexivity].
      destruct (Database.is_sqlite_error e); reflexivity.
Qed.

(** What [execute] does once a connection is at hand: the statement runs on
    it, and the pool is as after any other block. *)
Lemma execute_eq q d :
  can_connect d →
  Database.execute q d =
    match execute_body q (next_connection (pool d)) d with
    | (r, d') => (r, set_db_pool (pool_after_block (pool d)) d')
    end.
Proof.
  intros Hc. unfold Database.execute. fold (execute_body q).
  unfold Database.with_connection, Database.lift_pool.
  unfold pool_after_block. rewrite with_connection_eq.
  rewrite get_connection_enter_eq. unfold next_connection.
  destruct (last (ConnectionPool._connection_pool (pool d))) as [c|] eqn:El.
  - cbn [default from_option id]. rewrite execute_body_pool.
    destruct (execute_body q c d) as [r d'] eqn:E.
    rewrite !get_connection_exit_eq. reflexivity.
  - cbn [default from_option id]. destruct Hc as [Hc|Hc].
    { apply last_None in El. contradiction. }
    rewrite Hc. rewrite execute_body_pool.
    destruct (execute_body q _ d) as [r d'] eqn:E.
    rewrite !get_connection_exit_eq. reflexivity.
Qed.

(** When no connection can be made, [execute] raises what [sqlite3.connect]
    raised, before the statement is looked at. *)
Lemma execute_cannot_connect q d e :
  ConnectionPool._connection_pool (pool d) = [] →
  ConnectionPool.connect_error (pool d) (ConnectionPool.connects (pool d)) = Some e →
  ∃ d', Database.execute q d = (Raise e, d') ∧ bot_errors d' = bot_errors d ∧
        db_log d' = db_log d.
Proof.
  intros Hp He. unfold Database.execute, Database.with_connection, Database.lift_pool.
  rewrite get_connection_enter_eq, Hp. cbn [last]. rewrite He.
  eexists. split; [reflexivity|]. split; reflexivity.
Qed.

(** An [INSERT] the event store can take. *)
Lemma execute_insert_ok d t bot_name error severity ts :
  bot_errors d = Some t →
  (severity = None ∨ "severity" ∈ more_columns t) →
  can_execute d →
  (Database.largest_rowid t < Database.max_rowid)%Z →
  Database.execute (InsertBotErrors bot_name error severity ts) d =
    (Ret (Database.MkCursor (next_connection (pool d)) (Database.next_rowid t) []),
     MkDb (pool_after_block (pool d)) (Some (table_with t bot_name error ts))
       (S (executed d)) (engine_error d) (db_log d)).
Proof.
  intros Ht Hsev [Hc He] Hid. rewrite (execute_eq _ _ Hc).
  destruct d as [p bt ex eng lg]. cbn [bot_errors engine_error executed] in Ht, He. subst bt.
  unfold execute_body, Database.except_sqlite, Database.run_statement.
  cbn [bot_errors engine_error executed]. rewrite He.
  rewrite bool_decide_eq_false_2.
  2:{ intros [[s Hs] Hn]. destruct Hsev as [->|Hin]; [discriminate|contradiction]. }
  destruct (Database.max_rowid <=? Database.largest_rowid t)%Z eqn:E;
    [apply Z.leb_le in E; lia|].
  reflexivity.
Qed.

Lemma operational_is_sqlite_error msg :
  Database.is_sqlite_error (Database.OperationalError msg) = true.
Proof. apply bool_decide_eq_true_2. cbn [exn_class Database.OperationalError]. set_solver. Qed.

(** An [INSERT] that names the column [severity] on a table without it, or
    any [INSERT] on a file without the table. *)
Lemma execute_insert_no_column d t bot_name error severity ts :
  bot_errors d = Some t → "severity" ∉ more_columns t → can_connect d →
  Database.execute (InsertBotErrors bot_name error (Some severity) ts) d =
    (Raise (Database.OperationalError "table bot_errors has no column named severity"),
     MkDb (pool_after_block (pool d)) (bot_errors d) (S (executed d)) (engine_error d)
       (db_log d ++
        [(Database.OperationalError "table bot_errors has no column named severity",
          InsertBotErrors bot_name error (Some severity) ts)])).
Proof.
  intros Ht Hn Hc. rewrite (execute_eq _ _ Hc).
  destruct d as [p bt ex eng lg]. cbn [bot_errors] in Ht. subst bt.
  unfold execute_body, Database.except_sqlite, Database.run_statement. cbn [bot_errors].
  rewrite bool_decide_eq_true_2 by (split; [by eexists|exact Hn]).
  rewrite operational_is_sqlite_error. reflexivity.
Qed.

Lemma execute_no_table d q :
  bot_errors d = None → can_connect d →
  Database.execute q d =
    (Raise (Database.OperationalError "no such table: bot_errors"),
     MkDb (pool_after_block (pool d)) None (S (executed d)) (engine_error d)
       (db_log d ++ [(Database.OperationalError "no such table: bot_errors", q)])).
Proof.
  intros Ht Hc. rewrite (execute_eq _ _ Hc).
  destruct d as [p bt ex eng lg]. cbn [bot_errors] in Ht. subst bt.
  unfold execute_body, Database.except_sqlite, Database.run_statement. cbn [bot_errors].
  rewrite operational_is_sqlite_error. reflexivity.
Qed.

Lemma record_bot_error_eq bot_name error w :
  BotOrchestrator._record_bot_error bot_name error w =
    match Database.execute
            (InsertBotErrors bot_name error None (snd (clock (env w) (ticks (env w)))))
            (db w) with
    | (Ret _, d') => (Ret tt, set_db d' (set_env (tick (env w)) w))
    | (Raise e, d') => (Raise e, set_db d' (set_env (tick (env w)) w))
    end.
Proof.
  unfold BotOrchestrator._record_bot_error.
  unfold mbind, SE_bind, lift, lift_db, now_isoformat, mret, SE_ret. simpl_world.
  destruct (Database.execute _ (db w)) as [[c|e] d']; reflexivity.
Qed.

(** C1, as the code has it: an exception that leaves a worker's [start()]
    is caught by [_run_bot], which logs it and then records it, outside any
    handler: [_run_bot] ends as [_record_bot_error] ends.  When the event
    store has the table and can take the statement, one row with the
    worker's name, the message and the current time is appended and
    [_run_bot] returns normally.  [_run_bot] leaves the worker as [start()]
    left it, its [healthy] flag included. *)
Theorem run_bot_contains_failure (classes : string → BotClass) (w : World)
    (bot_name : string) (bot : loc) (e : exn) (σ' : Env) :
  start (class_of classes (env w) bot) bot (env w) = (Raise e, σ') →
  let caught :=
    add_event (Log "error" ("Error running bot " +:+ bot_name +:+ ": " +:+ str e))
      (set_env σ' (add_event (CallStart bot)
                     (add_event (Log "info" ("Starting bot: " +:+ bot_name)) w))) in
  BotOrchestrator._run_bot classes bot_name bot w =
    BotOrchestrator._record_bot_error bot_name (str e) caught ∧
  ∀ t,
    bot_errors (db w) = Some t →
    can_execute (db w) →
    (Database.largest_rowid t < Database.max_rowid)%Z →
    ∃ w', BotOrchestrator._run_bot classes bot_name bot w = (Ret tt, w') ∧
      new_events w w' =
        [Log "info" ("Starting bot: " +:+ bot_name); CallStart bot;
         Log "error" ("Error running bot " +:+ bot_name +:+ ": " +:+ str e)] ∧
      bot_errors (db w') =
        Some (table_with t bot_name (str e) (snd (clock σ' (ticks σ')))) ∧
      db_log (db w') = db_log (db w) ∧
      objs (env w') = objs σ' ∧
      dicts (env w') = dicts σ' ∧
      BotBase.is_healthy bot (env w') = (Ret (healthy (objs σ' !!! bot)), env w').
Proof.
  intros Hstart caught.
  assert (Hrun : BotOrchestrator._run_bot classes bot_name bot w =
                 BotOrchestrator._record_bot_error bot_name (str e) caught).
  { unfold BotOrchestrator._run_bot, try_except.
    unfold mbind at 1, SE_bind. unfold BotOrchestrator.logger at 1, emit, modify.
    rewrite call_start_eq. simpl_world. rewrite Hstart.
    unfold mbind at 1, SE_bind. unfold BotOrchestrator.logger, emit, modify.
    reflexivity. }
  split; [exact Hrun|].
  intros t Ht Hex Hid. rewrite Hrun, record_bot_error_eq.
  unfold caught at 1. simpl_world.
  rewrite (execute_insert_ok _ t) by (try exact Ht; try exact Hex; try exact Hid; by left).
  eexists. split; [reflexivity|].
  split. { apply new_events_app. unfold caught. simpl_world. by rewrite <- !app_assoc. }
  split; [reflexivity|]. split; [reflexivity|].
  split; [reflexivity|]. split; reflexivity.
Qed.

Lemma run_bot_contains_failure_witness :
  ∃ σ' w',
    start (class_of flaky_classes (env world_flaky) bot1) bot1 (env world_flaky)
      = (Raise boom, σ') ∧
    bot_errors (db world_flaky) = Some (MkTable [] [] 0) ∧
    can_execute (db world_flaky) ∧
    BotOrchestrator._run_bot flaky_classes "flaky_bot" bot1 world_flaky = (Ret tt, w') ∧
    bot_errors (db w') =
      Some (MkTable [] [MkErr 1 "flaky_bot" "boom" "2025-01-01T00:00:01"] 1).
Proof.
  eexists.
  assert (H : start (class_of flaky_classes (env world_flaky) bot1) bot1 (env world_flaky)
              = (Raise boom, snd (start (class_of flaky_classes (env world_flaky) bot1) bot1
                                    (env world_flaky)))) by reflexivity.
  assert (Ht : bot_errors (db world_flaky) = Some (MkTable [] [] 0)) by reflexivity.
  assert (Hex : can_execute (db world_flaky)) by (split; [right|]; reflexivity).
  assert (Hid : (Database.largest_rowid (MkTable [] [] 0) < Database.max_rowid)%Z)
    by (vm_compute; reflexivity).
  destruct (proj2 (run_bot_contains_failure flaky_classes world_flaky "flaky_bot" bot1 boom _ H)
              _ Ht Hex Hid) as (w' & E & _ & Hdb & _).
  exists w'. split; [exact H|]. split; [exact Ht|]. split; [exact Hex|].
  split; [exact E|]. rewrite Hdb. vm_compute. reflexivity.
Defined.

(** C1 as stated fails in each of its parts.  When [run()] raises and
    [start()] lets the exception out, [_run_bot] records it but the worker
    still reports healthy; when [run()] raises under [safe_run] (the
    [TwitterBot] loop), the worker turns unhealthy but the exception never
    reaches [_run_bot] and no row is written; and when the event store has no
    table [bot_errors], the exception of the [INSERT] leaves [_run_bot] and
    no row is written either. *)
Lemma run_bot_flag_or_record :
  (∃ w', BotOrchestrator._run_bot flaky_classes "flaky_bot" bot1 world_flaky = (Ret tt, w') ∧
         bot_errors (db w') =
           Some (MkTable [] [MkErr 1 "flaky_bot" "boom" "2025-01-01T00:00:01"] 1) ∧
         BotBase.is_healthy bot1 (env w') = (Ret true, env w')) ∧
  (∃ w', BotOrchestrator._run_bot twitter_classes "twitter_bot" bot1 world_twitter
           = (Ret tt, w') ∧
         BotBase.is_healthy bot1 (env w') = (Ret false, env w') ∧
         stat (env w') bot1 "failed_runs" = Some (VInt 1) ∧
         bot_errors (db w') = Some (MkTable [] [] 0)) ∧
  (∃ w', BotOrchestrator._run_bot flaky_classes "flaky_bot" bot1 world_no_table
           = (Raise (Database.OperationalError "no such table: bot_errors"), w') ∧
         bot_errors (db w') = None ∧
         BotBase.is_healthy bot1 (env w') = (Ret true, env w')).
Proof.
  split; [|split]; eexists; (split; [vm_compute; reflexivity|]).
  - split; vm_compute; reflexivity.
  - split; [|split]; vm_compute; reflexivity.
  - split; vm_compute; reflexivity.
Qed.

(** ** The error log *)

Lemma string_compare_le_trans a b c :
  String.compare a b ≠ Gt → String.compare b c ≠ Gt → String.compare a c ≠ Gt.
Proof.
  revert b c. induction a as [|x a IH]; intros [|y b] [|z c]; simpl; try congruence.
  destruct (Ascii.compare x y) eqn:Exy; [| |congruence];
    destruct (Ascii.compare y z) eqn:Eyz; try congruence.
  - apply Ascii.compare_eq_iff in Exy, Eyz. subst.
    replace (Ascii.compare z z) with Eq; [apply IH|].
    symmetry. unfold Ascii.compare. apply N.compare_refl.
  - apply Ascii.compare_eq_iff in Exy. subst. rewrite Eyz. congruence.
  - apply Ascii.compare_eq_iff in Eyz. subst. rewrite Exy. congruence.
  - unfold Ascii.compare in *. rewrite N.compare_lt_iff in Exy, Eyz.
    replace (_ ?= _)%N with Lt; [congruence|]. symmetry. apply N.compare_lt_iff. lia.
Qed.

Lemma string_leb_trans a b c :
  String.leb a b = true → String.leb b c = true → String.leb a c = true.
Proof.
  unfold String.leb. intros Hab Hbc.
  assert (H := string_compare_le_trans a b c).
  destruct (String.compare a b), (String.compare b c), (String.compare a c);
    try reflexivity; try discriminate; exfalso; apply H; congruence.
Qed.

Lemma string_leb_refl a : String.leb a a = true.
Proof. by destruct (String.leb_total a a). Qed.

Lemma insert_desc_perm r l : Database.insert_desc r l ≡ₚ r :: l.
Proof.
  induction l as [|x l IH]; [done|]. cbn [Database.insert_desc].
  destruct (String.leb _ _); [done|]. rewrite IH. apply Permutation_swap.
Qed.

Lemma order_by_timestamp_desc_perm l : Database.order_by_timestamp_desc l ≡ₚ l.
Proof.
  unfold Database.order_by_timestamp_desc.
  induction l as [|x l IH]; [done|]. cbn [foldr]. rewrite insert_desc_perm. by rewrite IH.
Qed.

Lemma insert_desc_sorted r l :
  StronglySorted desc l → StronglySorted desc (Database.insert_desc r l).
Proof.
  induction l as [|x l IH]; intros Hs; cbn [Database.insert_desc].
  - repeat constructor.
  - apply StronglySorted_inv in Hs as [Hs Hx].
    destruct (String.leb (err_timestamp x) (err_timestamp r)) eqn:E.
    + constructor; [by constructor|]. constructor; [exact E|].
      eapply Forall_impl; [exact Hx|]. intros y Hy. unfold desc in *.
      by eapply string_leb_trans.
    + constructor; [by apply IH|].
      rewrite insert_desc_perm. constructor; [|exact Hx].
      unfold desc. destruct (String.leb_total (err_timestamp x) (err_timestamp r)); congruence.
Qed.

Lemma order_by_timestamp_desc_sorted l :
  StronglySorted desc (Database.order_by_timestamp_desc l).
Proof.
  unfold Database.order_by_timestamp_desc.
  induction l as [|x l IH]; cbn [foldr]; [constructor|by apply insert_desc_sorted].
Qed.

(** In a list in descending order, a row is among the first [n] when at most
    [n] rows (itself included) have a timestamp that is not smaller. *)
Lemma take_sorted_elem r l n :
  StronglySorted desc l → r ∈ l →
  length (filter (λ x, String.leb (err_timestamp r) (err_timestamp x) = true) l) ≤ n →
  r ∈ take n l.
Proof.
  revert n. induction l as [|y l IH]; intros n Hs Hin Hn; [by apply elem_of_nil in Hin|].
  apply StronglySorted_inv in Hs as [Hs Hy].
  apply elem_of_cons in Hin as [->|Hin].
  - rewrite filter_cons_True in Hn by apply string_leb_refl.
    destruct n; [simpl in Hn; lia|]. apply list_elem_of_here.
  - assert (Hyr : String.leb (err_timestamp r) (err_timestamp y) = true).
    { rewrite Forall_forall in Hy. by apply Hy. }
    rewrite filter_cons_True in Hn by exact Hyr.
    destruct n; [simpl in Hn; lia|]. cbn [take]. apply list_elem_of_further.
    apply IH; [exact Hs|exact Hin|]. simpl in Hn. lia.
Qed.

Lemma log_bot_error_eq bot_name error severity w :
  Database.log_bot_error bot_name error severity w =
    match Database.execute
            (InsertBotErrors bot_name error (Some severity)
               (snd (clock (env w) (ticks (env w)))))
            (db w) with
    | (Ret c, d') => (Ret (Database.lastrowid c), set_db d' (set_env (tick (env w)) w))
    | (Raise e, d') => (Raise e, set_db d' (set_env (tick (env w)) w))
    end.
Proof.
  unfold Database.log_bot_error, Database.insert.
  unfold mbind, SE_bind, lift, lift_db, now_isoformat, mret, SE_ret. simpl_world.
  destruct (Database.execute _ (db w)) as [[c|e] d']; reflexivity.
Qed.

(** C8: [log_bot_error] writes nothing on the tables the repository
    creates.  Its [INSERT] names the column [severity]; on a table without
    that column, as [init_database] creates it, and on a file without the
    table, the engine refuses the statement: [log_bot_error] raises
    [OperationalError], the handler of [execute] logs the failure, and the
    table is as it was, so that there is no record for [get_bot_errors] to
    return. *)
Theorem log_bot_error_writes_nothing (w : World) (bot_name error severity : string) :
  can_connect (db w) →
  (∀ t, bot_errors (db w) = Some t → "severity" ∉ more_columns t) →
  ∃ e w', Database.log_bot_error bot_name error severity w = (Raise e, w') ∧
    exn_class e = "OperationalError" ∧
    bot_errors (db w') = bot_errors (db w) ∧
    db_log (db w') =
      db_log (db w) ++
      [(e, InsertBotErrors bot_name error (Some severity)
             (snd (clock (env w) (ticks (env w)))))].
Proof.
  intros Hc Hcol. rewrite log_bot_error_eq.
  destruct (bot_errors (db w)) as [t|] eqn:Ht.
  - rewrite (execute_insert_no_column _ t) by (try exact Ht; try exact Hc; by apply Hcol).
    eexists _, _. split; [reflexivity|]. split; [reflexivity|].
    split; [exact Ht|reflexivity].
  - rewrite execute_no_table by (try exact Ht; exact Hc).
    eexists _, _. split; [reflexivity|]. split; [reflexivity|].
    split; reflexivity.
Qed.

Lemma log_bot_error_writes_nothing_witness :
  can_connect (db world1) ∧
  bot_errors (db world1) = Some (MkTable [] [] 0) ∧
  ∃ w', Database.log_bot_error "mock_bot" "boom" "ERROR" world1 =
          (Raise (Database.OperationalError "table bot_errors has no column named severity"),
           w') ∧
        bot_errors (db w') = Some (MkTable [] [] 0) ∧
        ∃ w'', Database.get_bot_errors "mock_bot" Database.default_limit w' = (Ret [], w'').
Proof.
  assert (Hc : can_connect (db world1)) by (right; reflexivity).
  assert (Hcol : ∀ t, bot_errors (db world1) = Some t → "severity" ∉ more_columns t).
  { intros t [= <-]. apply not_elem_of_nil. }
  split; [exact Hc|]. split; [reflexivity|].
  destruct (log_bot_error_writes_nothing world1 "mock_bot" "boom" "ERROR" Hc Hcol)
    as (e & w' & E & _ & Ht & _).
  exists w'. split.
  { rewrite E. vm_compute in E. injection E as <- _. reflexivity. }
  split; [exact Ht|].
  vm_compute in E. injection E as _ <-. eexists. vm_compute. reflexivity.
Defined.

(** ** Recovery after a restart *)

(** C5: the scenario [restart_scenario].  A post scheduled with
    [schedule_content] has no ['type'], so each cycle of the [ContentBot]
    fails on it and the worker turns unhealthy; the queue is cleared; the
    poll stops the worker, waits and resubmits it ("Successfully
    restarted"); the restarted run logs no error; and [is_healthy()] still
    answers [False] afterwards. *)
Theorem restarted_worker_stays_unhealthy :
  ∃ w' first_run restarted_run,
    restart_scenario world_content = (Ret (false, false), w') ∧
    new_events world_content w' =
      [Log "info" "Registered bot: content_bot";
       Submit "content_bot" bot1;
       Log "info" "Starting bot: content_bot"; CallStart bot1;
       CallIsHealthy bot1 false;
       Log "warning" "Bot content_bot is unhealthy!";
       Log "info" "Attempting to restart content_bot...";
       CallStop bot1; Sleep (VInt 2); Submit "content_bot" bot1;
       Log "info" "Successfully restarted content_bot";
       Log "info" "Starting bot: content_bot"; CallStart bot1] ∧
    new_logs env_content (env w') =
      first_run ++ [MkLog "ContentBot" "info" "ContentBot stopped"] ++ restarted_run ∧
    filter (λ r, log_level r = "error") first_run =
      [MkLog "ContentBot" "error" "Error in ContentBot loop: 'type'";
       MkLog "ContentBot" "error" "Error in ContentBot loop: 'type'"] ∧
    last first_run = Some (MkLog "ContentBot" "info" "Content queue cleared") ∧
    head restarted_run = Some (MkLog "ContentBot" "info" "ContentBot started") ∧
    length (filter (λ r, log_msg r = "ContentBot checking for scheduled content...")
              restarted_run) = 2 ∧
    Forall (λ r, log_level r = "info") restarted_run ∧
    bot_errors (db w') = bot_errors (db world_content) ∧
    BotBase.is_healthy bot1 (env w') = (Ret false, env w').
Proof.
  pose (res := restart_scenario world_content).
  exists (snd res), (take 12 (new_logs env_content (env (snd res)))),
    (drop 13 (new_logs env_content (env (snd res)))).
  split; [vm_compute; reflexivity|].
  split; [vm_compute; reflexivity|].
  split; [vm_compute; reflexivity|].
  split; [vm_compute; reflexivity|].
  split; [vm_compute; reflexivity|].
  split; [vm_compute; reflexivity|].
  split; [vm_compute; reflexivity|].
  split; [apply (bool_decide_unpack _); vm_compute; reflexivity|].
  split; vm_compute; reflexivity.
Qed.

(** Nothing in [BotBase], in [MonitoringBot] or in the supervisor sets the
    flag back to [True]. *)
Lemma nh_ret {A} (a : A) : never_heals (mret a).
Proof. intros σ r σ' [= <- <-] l H. exact H. Qed.

Lemma nh_raise {A} e : never_heals (raise e : BotM A).
Proof. intros σ r σ' [= <- <-] l H. exact H. Qed.

Lemma nh_bind {A C} (m : BotM A) (f : A → BotM C) :
  never_heals m → (∀ a, never_heals (f a)) → never_heals (m ≫= f).
Proof.
  intros Hm Hf σ r σ'. unfold mbind, SE_bind.
  destruct (m σ) as [[a|e] σ1] eqn:E.
  - intros E2 l H. eapply Hf; [exact E2|]. eapply Hm; [exact E|exact H].
  - intros [= <- <-] l H. eapply Hm; [exact E|exact H].
Qed.

Lemma nh_try_except {A} (m : BotM A) (h : exn → BotM A) :
  never_heals m → (∀ e, never_heals (h e)) → never_heals (try_except m h).
Proof.
  intros Hm Hh σ r σ'. unfold try_except.
  destruct (m σ) as [[a|e] σ1] eqn:E.
  - intros [= <- <-] l H. eapply Hm; [exact E|exact H].
  - intros E2 l H. eapply Hh; [exact E2|]. eapply Hm; [exact E|exact H].
Qed.

Lemma nh_same_objs {A} (m : BotM A) :
  (∀ σ r σ', m σ = (r, σ') → objs σ' = objs σ) → never_heals m.
Proof. intros Hm σ r σ' E l H. by rewrite (Hm _ _ _ E). Qed.

Lemma nh_getattr {A} self (field : Bot → A) : never_heals (getattr self field).
Proof. apply nh_same_objs. by intros σ r σ' [= <- <-]. Qed.

Lemma nh_setattr self f :
  (∀ b, healthy b = false → healthy (f b) = false) → never_heals (setattr self f).
Proof.
  intros Hf σ r σ' [= <- <-] l H. cbn [objs set_objs].
  destruct (decide (self = l)) as [->|Hne].
  - rewrite lookup_total_insert_eq. by apply Hf.
  - by rewrite lookup_total_insert_ne.
Qed.

Lemma nh_time_time : never_heals time_time.
Proof. apply nh_same_objs. by intros σ r σ' [= <- <-]. Qed.

Lemma nh_dict_setitem d k v : never_heals (dict_setitem d k v).
Proof. apply nh_same_objs. by intros σ r σ' [= <- <-]. Qed.

Lemma nh_logger self level msg : never_heals (logger self level msg).
Proof. apply nh_same_objs. by intros σ r σ' [= <- <-]. Qed.

Lemma nh_sleep secs : never_heals (sleep secs).
Proof. apply nh_ret. Qed.

Lemma nh_while_running fuel self body :
  never_heals body → never_heals (while_running fuel self body).
Proof.
  intros Hb. induction fuel as [|n IH]; cbn [while_running]; [apply nh_ret|].
  apply nh_bind; [apply nh_getattr|]. intros [|]; [|apply nh_ret].
  apply nh_bind; [exact Hb|]. intros _. exact IH.
Qed.

Lemma nh_MonitoringBot_run work fuel self :
  never_heals (work self) → never_heals (MonitoringBot.run work fuel self).
Proof.
  intros Hw. apply nh_while_running. apply nh_try_except.
  - apply nh_bind; [exact Hw|]. intros _. apply nh_sleep.
  - intros e. apply nh_bind; [apply nh_logger|]. intros _.
    apply nh_bind; [by apply nh_setattr|]. intros _. apply nh_sleep.
Qed.

Lemma nh_MonitoringBot_start run self :
  never_heals (run self) → never_heals (MonitoringBot.start run self).
Proof.
  intros Hr. unfold MonitoringBot.start.
  apply nh_bind; [by apply nh_setattr|]. intros _.
  apply nh_bind; [apply nh_time_time|]. intros t.
  apply nh_bind; [apply nh_getattr|]. intros st.
  apply nh_bind; [apply nh_dict_setitem|]. intros _.
  apply nh_bind; [apply nh_logger|]. intros _. exact Hr.
Qed.

Lemma nh_MonitoringBot_stop self : never_heals (MonitoringBot.stop self).
Proof.
  apply nh_bind; [by apply nh_setattr|]. intros _. apply nh_logger.
Qed.

Lemma nho_bind {A C} (m : OrchM A) (f : A → OrchM C) :
  never_heals_orch m → (∀ a, never_heals_orch (f a)) → never_heals_orch (m ≫= f).
Proof.
  intros Hm Hf w r w'. unfold mbind, SE_bind.
  destruct (m w) as [[a|e] w1] eqn:E.
  - intros E2 l H. eapply Hf; [exact E2|]. eapply Hm; [exact E|exact H].
  - intros [= <- <-] l H. eapply Hm; [exact E|exact H].
Qed.

Lemma nho_try_except {A} (m : OrchM A) (h : exn → OrchM A) :
  never_heals_orch m → (∀ e, never_heals_orch (h e)) → never_heals_orch (try_except m h).
Proof.
  intros Hm Hh w r w'. unfold try_except.
  destruct (m w) as [[a|e] w1] eqn:E.
  - intros [= <- <-] l H. eapply Hm; [exact E|exact H].
  - intros E2 l H. eapply Hh; [exact E2|]. eapply Hm; [exact E|exact H].
Qed.

Lemma nho_same_env {A} (m : OrchM A) :
  (∀ w r w', m w = (r, w') → env w' = env w) → never_heals_orch m.
Proof. intros Hm w r w' E l H. by rewrite (Hm _ _ _ E). Qed.

Lemma nho_lift {A} (m : BotM A) : never_heals m → never_heals_orch (lift m).
Proof.
  intros Hm w r w'. unfold lift. destruct (m (env w)) as [r1 σ1] eqn:E.
  intros [= <- <-] l H. simpl_world. eapply Hm; [exact E|exact H].
Qed.

Lemma nho_emit e : never_heals_orch (emit e).
Proof. apply nho_same_env. by intros w r w' [= <- <-]. Qed.

Lemma nho_time_sleep v : never_heals_orch (BotOrchestrator.time_sleep v).
Proof.
  apply nho_same_env. intros w r w'. unfold BotOrchestrator.time_sleep.
  destruct (BotOrchestrator.microseconds v) as [us|]; unfold mbind, SE_bind, gets.
  - destruct (sleep_error (env w) us); by intros [= <- <-].
  - by intros [= <- <-].
Qed.

Lemma nho_lift_db {A} (m : SE Database A) : never_heals_orch (lift_db m).
Proof.
  apply nho_same_env. intros w r w'. unfold lift_db.
  destruct (m (db w)) as [r1 d1]. by intros [= <- <-].
Qed.

Section NeverHeals.

Variable classes : string → BotClass.
Hypothesis start_never_heals : ∀ n bot, never_heals (start (classes n) bot).
Hypothesis stop_never_heals : ∀ n bot, never_heals (stop (classes n) bot).

Lemma nho_run_bot bot_name bot :
  never_heals_orch (BotOrchestrator._run_bot classes bot_name bot).
Proof.
  apply nho_try_except.
  - apply nho_bind; [apply nho_emit|]. intros _.
    apply nho_bind; [apply nho_emit|]. intros _.
    apply nho_bind; [apply nho_lift, nh_getattr|]. intros n.
    apply nho_lift, start_never_heals.
  - intros e. apply nho_bind; [apply nho_emit|]. intros _.
    apply nho_bind; [apply nho_lift; apply nh_same_objs; by intros σ r σ' [= <- <-]|].
    intros ts. apply nho_bind; [apply nho_lift_db|].
    intros; apply nho_same_env; by intros w r w' [= <- <-].
Qed.

Lemma nho_attempt_bot_restart bot_name bot :
  never_heals_orch (BotOrchestrator._attempt_bot_restart classes bot_name bot).
Proof.
  apply nho_bind; [apply nho_emit|]. intros _. apply nho_try_except.
  - apply nho_bind.
    { apply nho_bind; [apply nho_emit|]. intros _.
      apply nho_bind; [apply nho_lift, nh_getattr|]. intros n.
      apply nho_lift, stop_never_heals. }
    intros _. apply nho_bind; [apply nho_time_sleep|]. intros _.
    apply nho_bind; [apply nho_emit|]. intros _. apply nho_emit.
  - intros e. apply nho_emit.
Qed.

(** Once unhealthy, a worker is still unhealthy after the supervisor has
    restarted it and the pool has run the new submission, whatever the
    restarted run did. *)
Lemma restart_never_heals bot_name bot w r w' :
  (BotOrchestrator._attempt_bot_restart classes bot_name bot;;
   BotOrchestrator._run_bot classes bot_name bot) w = (r, w') →
  BotBase.is_healthy bot (env w) = (Ret false, env w) →
  BotBase.is_healthy bot (env w') = (Ret false, env w').
Proof.
  intros E Hh. unfold BotBase.is_healthy, getattr, gets in *. injection Hh as Hh.
  f_equal. f_equal.
  eapply (nho_bind _ (λ _, BotOrchestrator._run_bot classes bot_name bot));
    [apply nho_attempt_bot_restart|intros; apply nho_run_bot|exact E|exact Hh].
Qed.

End NeverHeals.

(** [MonitoringBot] is such a class, as long as its monitoring cycle does
    not write the flag (in the source it does not mention it). *)
Lemma monitoring_bot_never_heals work fuel bot_name bot w r w' :
  (∀ self, never_heals (work self)) →
  (BotOrchestrator._attempt_bot_restart (λ _, MonitoringBot.cls work fuel) bot_name bot;;
   BotOrchestrator._run_bot (λ _, MonitoringBot.cls work fuel) bot_name bot) w = (r, w') →
  BotBase.is_healthy bot (env w) = (Ret false, env w) →
  BotBase.is_healthy bot (env w') = (Ret false, env w').
Proof.
  intros Hw. apply restart_never_heals.
  - intros _ self. apply nh_MonitoringBot_start, nh_MonitoringBot_run, Hw.
  - intros _ self. apply nh_MonitoringBot_stop.
Qed.

(** * Further properties *)

(** ** The error log, continued *)

Lemma sorted_app_inv {A} (R : A → A → Prop) (l1 l2 : list A) :
  StronglySorted R (l1 ++ l2) → ∀ a b, a ∈ l1 → b ∈ l2 → R a b.
Proof.
  induction l1 as [|x l1 IH]; intros Hs a b Ha Hb; [by apply elem_of_nil in Ha|].
  cbn [app] in Hs. apply StronglySorted_inv in Hs as [Hs Hx].
  apply elem_of_cons in Ha as [->|Ha].
  - rewrite Forall_forall in Hx. apply Hx. apply elem_of_app. by right.
  - by apply IH.
Qed.

Lemma sorted_take {A} (R : A → A → Prop) (l : list A) n :
  StronglySorted R l → StronglySorted R (take n l).
Proof.
  revert n. induction l as [|x l IH]; intros [|n] Hs; cbn [take]; try constructor.
  - apply IH. by apply StronglySorted_inv in Hs as [Hs _].
  - apply StronglySorted_inv in Hs as [_ Hx]. rewrite Forall_forall in *.
    intros y Hy. apply Hx. eapply (subseteq_take n l). exact Hy.
Qed.

Lemma string_ltb_leb a b : String.ltb a b = true → String.leb b a = false.
Proof.
  unfold String.ltb, String.leb. rewrite (String.compare_antisym b a).
  by destruct (String.compare a b).
Qed.

Lemma order_newest_first new l :
  Forall (λ r, String.ltb (err_timestamp r) (err_timestamp new) = true) l →
  foldr Database.insert_desc [new] l = new :: Database.order_by_timestamp_desc l.
Proof.
  unfold Database.order_by_timestamp_desc.
  induction 1 as [|x l Hx _ IH]; [done|]. cbn [foldr]. rewrite IH.
  cbn [Database.insert_desc]. by rewrite (string_ltb_leb _ _ Hx).
Qed.

Lemma select_newest_first (t : Table) (error ts bot_name : string) (limit : Z) :
  Forall (λ r, String.ltb (err_timestamp r) ts = true) (rows_of bot_name t) →
  limit ≠ 0%Z →
  ∃ rest, Database.select_bot_errors bot_name limit (table_with t bot_name error ts) =
            MkErr (Database.next_rowid t) bot_name error ts :: rest.
Proof.
  intros Hold Hlim. unfold Database.select_bot_errors, rows_of, table_with in *.
  cbn [table_rows].
  rewrite filter_app, filter_cons_True by reflexivity. rewrite filter_nil.
  unfold Database.order_by_timestamp_desc. rewrite foldr_app. cbn [foldr].
  cbn [Database.insert_desc].
  rewrite (order_newest_first (MkErr (Database.next_rowid t) bot_name error ts) _ Hold).
  unfold Database.sql_limit. destruct (limit <? 0)%Z eqn:E; [by eexists|].
  apply Z.ltb_ge in E. destruct (Z.to_nat limit) as [|n] eqn:En; [lia|].
  cbn [take]. by eexists.
Qed.

(** The connections closed after a block: the one it used, when the pool has
    no room to take it back. *)
Lemma pool_after_block_closed d :
  can_connect d →
  ConnectionPool.closed (pool_after_block (pool d)) =
    if (Z.of_nat (length (removelast (ConnectionPool._connection_pool (pool d))))
          <? ConnectionPool.pool_size (pool d))%Z
    then ConnectionPool.closed (pool d)
    else ConnectionPool.closed (pool d) ++ [next_connection (pool d)].
Proof.
  intros Hc. unfold pool_after_block, next_connection.
  rewrite with_connection_eq, get_connection_enter_eq.
  destruct (last (ConnectionPool._connection_pool (pool d))) as [c|] eqn:El.
  - cbn [fst snd mret SE_ret default from_option id]. rewrite get_connection_exit_eq.
    cbn [snd ConnectionPool._connection_pool ConnectionPool.pool_size].
    destruct (_ <? _)%Z; reflexivity.
  - destruct Hc as [Hc|Hc]; [apply last_None in El; contradiction|].
    rewrite Hc. cbn [fst snd mret SE_ret default from_option id].
    rewrite get_connection_exit_eq.
    cbn [snd ConnectionPool._connection_pool ConnectionPool.pool_size].
    apply last_None in El. rewrite El. cbn [removelast].
    destruct (_ <? _)%Z; reflexivity.
Qed.

(** A [SELECT] the event store can take. *)
Lemma execute_select_ok d t bot_name limit :
  bot_errors d = Some t →
  can_execute d →
  fits_int64 limit →
  Database.execute (SelectBotErrors bot_name limit) d =
    (Ret (Database.MkCursor (next_connection (pool d)) 0
            (Database.select_bot_errors bot_name limit t)),
     MkDb (pool_after_block (pool d)) (Some t) (S (executed d)) (engine_error d) (db_log d)).
Proof.
  intros Ht [Hc He] [Hlo Hhi]. rewrite (execute_eq _ _ Hc).
  destruct d as [p bt ex eng lg]. cbn [bot_errors engine_error executed] in Ht, He. subst bt.
  unfold execute_body, Database.except_sqlite, Database.run_statement.
  cbn [bot_errors engine_error executed]. rewrite He.
  destruct (limit <? _)%Z eqn:E1; [apply Z.ltb_lt in E1; lia|].
  destruct (_ <? limit)%Z eqn:E2; [apply Z.ltb_lt in E2; lia|].
  reflexivity.
Qed.

Lemma get_bot_errors_eq bot_name limit w :
  Database.get_bot_errors bot_name limit w =
    match Database.fetchall (SelectBotErrors bot_name limit) (db w) with
    | (r, d') => (r, set_db d' w)
    end.
Proof. reflexivity. Qed.

(** X1: [get_bot_errors] on an event store that can be read, with a limit
    that fits 64 bits, leaves the table as it is and returns rows of the
    worker, latest timestamp first; without a limit (a negative one) all of
    them, otherwise the first [limit] of that order, so that no row left out
    carries a later timestamp than a row returned. *)
Theorem get_bot_errors_most_recent (w : World) (bot_name : string) (limit : Z) (t : Table) :
  bot_errors (db w) = Some t →
  can_read (db w) →
  fits_int64 limit →
  ∃ rows w', Database.get_bot_errors bot_name limit w = (Ret rows, w') ∧
    bot_errors (db w') = Some t ∧
    db_log (db w') = db_log (db w) ∧
    env w' = env w ∧
    rows ⊆ rows_of bot_name t ∧
    StronglySorted desc rows ∧
    length rows =
      (if (limit <? 0)%Z then length (rows_of bot_name t)
       else Z.to_nat limit `min` length (rows_of bot_name t)) ∧
    ∃ rest, rows ++ rest ≡ₚ rows_of bot_name t ∧
      ∀ r r', r ∈ rows → r' ∈ rest → desc r r'.
Proof.
  intros Ht [Hex [Hroom Hopen]] Hlim. rewrite get_bot_errors_eq.
  unfold Database.fetchall. unfold mbind at 1, SE_bind.
  rewrite (execute_select_ok _ t) by assumption.
  unfold mbind, SE_bind, gets. cbn [pool Database.connection Database.result].
  rewrite (pool_after_block_closed _ (proj1 Hex)).
  apply Z.ltb_lt in Hroom. rewrite Hroom.
  rewrite bool_decide_eq_false_2 by exact Hopen.
  eexists _, _. split; [reflexivity|]. split; [reflexivity|].
  split; [reflexivity|]. split; [reflexivity|].
  unfold Database.select_bot_errors, Database.sql_limit. fold (rows_of bot_name t).
  set (mine := rows_of bot_name t).
  assert (Hp := order_by_timestamp_desc_perm mine).
  assert (Hs := order_by_timestamp_desc_sorted mine).
  destruct (limit <? 0)%Z.
  - split; [intros r Hr; by rewrite <- Hp|]. split; [exact Hs|].
    split; [by rewrite Hp|]. exists []. rewrite app_nil_r. split; [exact Hp|].
    intros r r' _ Hr'. by apply elem_of_nil in Hr'.
  - split. { intros r Hr. rewrite <- Hp. eapply subseteq_take. exact Hr. }
    split; [by apply sorted_take|].
    split. { rewrite length_take. by rewrite Hp. }
    exists (drop (Z.to_nat limit) (Database.order_by_timestamp_desc mine)).
    rewrite take_drop. split; [exact Hp|].
    apply sorted_app_inv. by rewrite take_drop.
Qed.

Lemma can_read_world1 : can_read (db world1).
Proof.
  split; [split; [right|]; reflexivity|]. split; [reflexivity|apply not_elem_of_nil].
Qed.

Lemma get_bot_errors_most_recent_witness :
  bot_errors (db world1) = Some (MkTable [] [] 0) ∧
  can_read (db world1) ∧
  fits_int64 Database.default_limit ∧
  ∃ w', Database.get_bot_errors "mock_bot" Database.default_limit world1 = (Ret [], w') ∧
        bot_errors (db w') = Some (MkTable [] [] 0).
Proof.
  assert (Hl : fits_int64 Database.default_limit) by (unfold Database.default_limit; split; lia).
  split; [reflexivity|]. split; [exact can_read_world1|]. split; [exact Hl|].
  destruct (get_bot_errors_most_recent world1 "mock_bot" Database.default_limit
              (MkTable [] [] 0) eq_refl can_read_world1 Hl)
    as (rows & w' & E & Ht & _ & _ & Hsub & _).
  exists w'. split; [|exact Ht].
  rewrite E. f_equal. f_equal. destruct rows as [|r rows]; [reflexivity|].
  exfalso. eapply not_elem_of_nil. apply (Hsub r). apply list_elem_of_here.
Defined.

(** X30: A read needs room in the pool.  When the pool cannot take the
    connection back, as with [pool_size] zero or a pool that is full,
    [get_connection] closes the connection on the way out of [execute], and
    [cursor.fetchall()] finds it closed: [get_bot_errors] raises
    [ProgrammingError] although the statement ran, and the handler of
    [execute] has logged nothing. *)
Theorem get_bot_errors_closed_connection (w : World) (bot_name : string) (limit : Z)
    (t : Table) :
  bot_errors (db w) = Some t →
  can_execute (db w) →
  fits_int64 limit →
  (ConnectionPool.pool_size (pool (db w))
     ≤ Z.of_nat (length (removelast (ConnectionPool._connection_pool (pool (db w))))))%Z →
  ∃ w', Database.get_bot_errors bot_name limit w =
          (Raise (PyExn "ProgrammingError" "Cannot operate on a closed database."), w') ∧
    next_connection (pool (db w)) ∈ ConnectionPool.closed (pool (db w')) ∧
    executed (db w') = S (executed (db w)) ∧
    bot_errors (db w') = Some t ∧
    db_log (db w') = db_log (db w).
Proof.
  intros Ht Hex Hlim Hfull. rewrite get_bot_errors_eq.
  unfold Database.fetchall. unfold mbind at 1, SE_bind.
  rewrite (execute_select_ok _ t) by assumption.
  unfold mbind, SE_bind, gets. cbn [pool Database.connection Database.result].
  assert (Hcl : next_connection (pool (db w)) ∈
                ConnectionPool.closed (pool_after_block (pool (db w)))).
  { rewrite (pool_after_block_closed _ (proj1 Hex)).
    destruct (_ <? _)%Z eqn:E; [apply Z.ltb_lt in E; lia|].
    apply elem_of_app. right. apply list_elem_of_here. }
  rewrite bool_decide_eq_true_2 by exact Hcl.
  eexists. split; [reflexivity|]. split; [exact Hcl|].
  split; [reflexivity|]. split; reflexivity.
Qed.

Lemma get_bot_errors_closed_connection_witness :
  ∃ w', Database.get_bot_errors "mock_bot" Database.default_limit world_no_pooling =
          (Raise (PyExn "ProgrammingError" "Cannot operate on a closed database."), w') ∧
        ConnectionPool.closed (pool (db w')) = [0%nat].
Proof.
  destruct (get_bot_errors_closed_connection world_no_pooling "mock_bot"
              Database.default_limit (MkTable [] [] 0)) as (w' & E & _).
  - reflexivity.
  - split; [right|]; reflexivity.
  - unfold Database.default_limit. split; lia.
  - cbn. lia.
  - exists w'. split; [exact E|].
    vm_compute in E. injection E as <-. reflexivity.
Defined.

(** X31: A limit beyond 64 bits is refused when the parameters are bound:
    [get_bot_errors] raises [OverflowError], which is no [sqlite3.Error], so
    that the handler of [execute] logs nothing. *)
Theorem get_bot_errors_limit_overflow (w : World) (bot_name : string) (limit : Z) (t : Table) :
  bot_errors (db w) = Some t →
  can_connect (db w) →
  ¬ fits_int64 limit →
  ∃ w', Database.get_bot_errors bot_name limit w =
          (Raise (PyExn "OverflowError" "Python int too large to convert to SQLite INTEGER"),
           w') ∧
    bot_errors (db w') = Some t ∧
    db_log (db w') = db_log (db w).
Proof.
  intros Ht Hc Hlim. rewrite get_bot_errors_eq.
  unfold Database.fetchall. unfold mbind at 1, SE_bind.
  rewrite (execute_eq _ _ Hc).
  destruct (db w) as [p bt ex eng lg] eqn:Ed. cbn [bot_errors] in Ht. subst bt.
  unfold execute_body, Database.except_sqlite, Database.run_statement. cbn [bot_errors].
  assert (Hb : ((limit <? -9223372036854775808) || (9223372036854775807 <? limit))%Z = true).
  { apply orb_true_iff. unfold fits_int64 in Hlim.
    destruct (Z.ltb_spec limit (-9223372036854775808)); [by left|].
    destruct (Z.ltb_spec 9223372036854775807 limit); [by right|]. exfalso. lia. }
  rewrite Hb. cbn -[pool_after_block].
  eexists. split; [reflexivity|]. split; reflexivity.
Qed.

Lemma get_bot_errors_limit_overflow_witness :
  ∃ w', Database.get_bot_errors "mock_bot" (2 ^ 63) world1 =
          (Raise (PyExn "OverflowError" "Python int too large to convert to SQLite INTEGER"),
           w') ∧
        db_log (db w') = [].
Proof.
  destruct (get_bot_errors_limit_overflow world1 "mock_bot" (2 ^ 63) (MkTable [] [] 0))
    as (w' & E & _ & Hl).
  - reflexivity.
  - right. reflexivity.
  - unfold fits_int64. lia.
  - exists w'. split; [exact E|exact Hl].
Defined.

(** X32: What the engine raises on a statement, [execute] logs and raises
    again, and [_record_bot_error], which calls it outside any handler, lets
    it through: the row is not written. *)
Theorem record_bot_error_engine_failure (w : World) (bot_name error : string) (t : Table)
    (e : exn) :
  bot_errors (db w) = Some t →
  can_connect (db w) →
  engine_error (db w) (executed (db w)) = Some e →
  Database.is_sqlite_error e = true →
  ∃ w', BotOrchestrator._record_bot_error bot_name error w = (Raise e, w') ∧
    bot_errors (db w') = Some t ∧
    db_log (db w') =
      db_log (db w) ++
      [(e, InsertBotErrors bot_name error None (snd (clock (env w) (ticks (env w)))))].
Proof.
  intros Ht Hc He Hsql. rewrite record_bot_error_eq, (execute_eq _ _ Hc).
  destruct (db w) as [p bt ex eng lg] eqn:Ed.
  cbn [bot_errors engine_error executed] in Ht, He. subst bt.
  unfold execute_body, Database.except_sqlite, Database.run_statement.
  cbn [bot_errors engine_error executed]. rewrite He.
  rewrite bool_decide_eq_false_2 by (intros [[s Hs] _]; discriminate).
  rewrite Hsql. cbn -[pool_after_block].
  eexists. split; [reflexivity|]. split; reflexivity.
Qed.

Lemma record_bot_error_engine_failure_witness :
  ∃ w', BotOrchestrator._record_bot_error "mock_bot" "boom" world_locked = (Raise locked, w') ∧
        bot_errors (db w') = Some (MkTable [] [] 0) ∧
        db_log (db w') = [(locked, InsertBotErrors "mock_bot" "boom" None "2025-01-01T00:00:00")].
Proof.
  destruct (record_bot_error_engine_failure world_locked "mock_bot" "boom" (MkTable [] [] 0)
              locked) as (w' & E & Ht & Hl).
  - reflexivity.
  - right. reflexivity.
  - reflexivity.
  - apply operational_is_sqlite_error.
  - exists w'. split; [exact E|]. split; [exact Ht|]. rewrite Hl. reflexivity.
Defined.

(** When [execute] returns, a connection was at hand. *)
Lemma execute_ret_connect q d c d' :
  Database.execute q d = (Ret c, d') → can_connect d.
Proof.
  intros E. unfold can_connect.
  destruct (ConnectionPool._connection_pool (pool d)) as [|x p] eqn:Ep; [|by left].
  destruct (ConnectionPool.connect_error (pool d) (ConnectionPool.connects (pool d)))
    as [e|] eqn:Ee; [|by right].
  destruct (execute_cannot_connect q d e Ep Ee) as (d1 & E1 & _). congruence.
Qed.

(** X5: A crash recorded at the pool boundary can be read back.  When
    [start()] raised, [_run_bot] returned, the clock has moved on since the
    worker's earlier errors and the event store can be read, the row
    [_run_bot] wrote is the first one [get_bot_errors] returns for that
    worker, under any limit but 0 that fits 64 bits: it has the worker's name,
    the exception's message and the time of the crash. *)
Theorem crash_is_newest_error (classes : string → BotClass) (w w1 : World)
    (bot_name : string) (bot : loc) (e : exn) (σ' : Env) (t : Table) (limit : Z) :
  start (class_of classes (env w) bot) bot (env w) = (Raise e, σ') →
  BotOrchestrator._run_bot classes bot_name bot w = (Ret tt, w1) →
  bot_errors (db w) = Some t →
  Forall (λ r, String.ltb (err_timestamp r) (snd (clock σ' (ticks σ'))) = true)
    (rows_of bot_name t) →
  can_read (db w1) →
  limit ≠ 0%Z → fits_int64 limit →
  ∃ rest w2,
    Database.get_bot_errors bot_name limit w1 =
      (Ret (MkErr (Database.next_rowid t) bot_name (str e)
              (snd (clock σ' (ticks σ'))) :: rest), w2).
Proof.
  intros Hstart Hrun Ht Hold Hread Hlim Hfit.
  assert (Ht1 : bot_errors (db w1) =
                Some (table_with t bot_name (str e) (snd (clock σ' (ticks σ'))))).
  { revert Hrun. unfold BotOrchestrator._run_bot, try_except.
    unfold mbind at 1, SE_bind. unfold BotOrchestrator.logger at 1, emit, modify.
    rewrite call_start_eq. simpl_world. rewrite Hstart.
    unfold mbind at 1, SE_bind. unfold BotOrchestrator.logger, emit, modify.
    rewrite record_bot_error_eq. simpl_world.
    destruct (Database.execute _ (db w)) as [[c|e1] d'] eqn:E; [|discriminate].
    intros [= <-]. simpl_world.
    assert (Hc := execute_ret_connect _ _ _ _ E).
    rewrite (execute_eq _ _ Hc) in E.
    destruct (db w) as [p bt ex eng lg] eqn:Ed. cbn [bot_errors] in Ht. subst bt.
    revert E. unfold execute_body, Database.except_sqlite, Database.run_statement.
    cbn [bot_errors engine_error executed].
    rewrite bool_decide_eq_false_2 by (intros [[s Hs] _]; discriminate).
    destruct (eng ex) as [e2|].
    { destruct (Database.is_sqlite_error e2); discriminate. }
    destruct (_ <=? _)%Z.
    { rewrite operational_is_sqlite_error. discriminate. }
    intros [= _ <-]. reflexivity. }
  destruct (select_newest_first t (str e) (snd (clock σ' (ticks σ'))) bot_name limit Hold Hlim)
    as [rest Hrest].
  destruct Hread as [Hex [Hroom Hopen]].
  rewrite get_bot_errors_eq.
  unfold Database.fetchall. unfold mbind at 1, SE_bind.
  rewrite (execute_select_ok _ _ _ _ Ht1 Hex Hfit).
  unfold mbind, SE_bind, gets. cbn [pool Database.connection Database.result].
  rewrite (pool_after_block_closed _ (proj1 Hex)).
  apply Z.ltb_lt in Hroom. rewrite Hroom.
  rewrite bool_decide_eq_false_2 by exact Hopen.
  rewrite Hrest. eexists _, _. reflexivity.
Qed.

Lemma crash_is_newest_error_witness :
  ∃ w1 rest w2,
    BotOrchestrator._run_bot flaky_classes "flaky_bot" bot1 world_flaky = (Ret tt, w1) ∧
    can_read (db w1) ∧
    Database.get_bot_errors "flaky_bot" Database.default_limit w1 =
      (Ret (MkErr 1 "flaky_bot" "boom" "2025-01-01T00:00:01" :: rest), w2).
Proof.
  pose (w1 := snd (BotOrchestrator._run_bot flaky_classes "flaky_bot" bot1 world_flaky)).
  assert (Hrun : BotOrchestrator._run_bot flaky_classes "flaky_bot" bot1 world_flaky
                 = (Ret tt, w1)) by (vm_compute; reflexivity).
  assert (Hread : can_read (db w1)).
  { split; [split; [left; vm_compute; discriminate|vm_compute; reflexivity]|].
    split; [vm_compute; reflexivity|]. vm_compute. apply not_elem_of_nil. }
  destruct (crash_is_newest_error flaky_classes world_flaky w1 "flaky_bot" bot1 boom
              (snd (start (class_of flaky_classes (env world_flaky) bot1) bot1
                      (env world_flaky)))
              (MkTable [] [] 0) Database.default_limit) as (rest & w2 & E).
  - reflexivity.
  - exact Hrun.
  - reflexivity.
  - constructor.
  - exact Hread.
  - discriminate.
  - unfold Database.default_limit. split; lia.
  - exists w1, rest, w2. split; [exact Hrun|]. split; [exact Hread|exact E].
Defined.

(** ** The registry and the control surface, continued *)

Lemma reg_lookup_set_eq k v r : reg_lookup k (reg_set k v r) = Some v.
Proof.
  induction r as [|[k' v'] r IH]; cbn [reg_set reg_lookup].
  - by rewrite decide_True.
  - destruct (decide (k' = k)) as [->|Hne]; cbn [reg_lookup].
    + by rewrite decide_True.
    + by rewrite decide_False.
Qed.

Lemma reg_lookup_set_ne k k' v r : k' ≠ k → reg_lookup k' (reg_set k v r) = reg_lookup k' r.
Proof.
  intros Hne. induction r as [|[k0 v0] r IH]; cbn [reg_set reg_lookup].
  - by rewrite decide_False.
  - destruct (decide (k0 = k)) as [->|H0]; cbn [reg_lookup].
    + by rewrite !decide_False.
    + destruct (decide (k0 = k')); [done|exact IH].
Qed.

Lemma reg_lookup_None k r : reg_lookup k r = None ↔ k ∉ reg_keys r.
Proof.
  unfold reg_keys. induction r as [|[k' v] r IH]; cbn [reg_lookup fmap list_fmap fst].
  - split; [intros _; apply not_elem_of_nil|done].
  - rewrite not_elem_of_cons. destruct (decide (k' = k)) as [->|Hne].
    + split; [done|]. by intros [? _].
    + rewrite IH. split; [intros H; split; [congruence|exact H]|by intros [_ H]].
Qed.

Lemma reg_keys_set k v r :
  reg_keys (reg_set k v r) =
    match reg_lookup k r with Some _ => reg_keys r | None => reg_keys r ++ [k] end.
Proof.
  unfold reg_keys. induction r as [|[k' v'] r IH]; cbn [reg_set reg_lookup]; [done|].
  destruct (decide (k' = k)) as [->|Hne]; [done|].
  cbn [fmap list_fmap fst]. fold (fmap (M := list) (@fst string loc)). rewrite IH.
  by destruct (reg_lookup k r).
Qed.

(** X6: [register_bot] is last-write-wins and keeps the registry a dictionary:
    the name then maps to the new instance, every other name to what it
    mapped to; a name already there keeps its place, a new one goes to the
    end; names stay pairwise different.  Workers and event store are not
    touched. *)
Theorem register_bot_last_write_wins (w : World) (bot_name : string) (bot_instance : loc) :
  ∃ w', BotOrchestrator.register_bot bot_name bot_instance w = (Ret tt, w') ∧
    reg_lookup bot_name (bots w') = Some bot_instance ∧
    (∀ other, other ≠ bot_name → reg_lookup other (bots w') = reg_lookup other (bots w)) ∧
    reg_keys (bots w') =
      match reg_lookup bot_name (bots w) with
      | Some _ => reg_keys (bots w)
      | None => reg_keys (bots w) ++ [bot_name]
      end ∧
    (NoDup (reg_keys (bots w)) → NoDup (reg_keys (bots w'))) ∧
    env w' = env w ∧ db w' = db w ∧
    new_events w w' = [Log "info" ("Registered bot: " +:+ bot_name)].
Proof.
  eexists. split; [reflexivity|]. simpl_world.
  split; [apply reg_lookup_set_eq|].
  split; [intros other Hne; by apply reg_lookup_set_ne|].
  split; [apply reg_keys_set|].
  split.
  - rewrite reg_keys_set. destruct (reg_lookup bot_name (bots w)) eqn:E; [done|].
    intros Hnd. apply NoDup_app. split; [exact Hnd|]. split; [|apply NoDup_singleton].
    intros x Hx Hx'. apply list_elem_of_singleton in Hx'. subst x.
    by apply reg_lookup_None in E.
  - split; [reflexivity|]. split; [reflexivity|]. by apply new_events_app.
Qed.

Lemma shutdown_step_events classes bot_name bot w :
  ∃ w' evs,
    ControlSurface.shutdown_step classes (bot_name, bot) w = (Ret tt, w') ∧
    trace w' = trace w ++ evs ∧
    stops evs = [bot] ∧ submissions evs = [] ∧
    bots w' = bots w ∧ orch_running w' = orch_running w ∧ db w' = db w.
Proof.
  unfold ControlSurface.shutdown_step, try_except.
  unfold mbind at 1, SE_bind. unfold BotOrchestrator.logger at 1, emit, modify.
  rewrite call_stop_eq. simpl_world.
  destruct (stop _ bot (env w)) as [[[]|e] σ'].
  - eexists _, [Log "info" ("Stopping bot: " +:+ bot_name); CallStop bot].
    split; [reflexivity|]. simpl_world. rewrite <- !app_assoc. by repeat split.
  - unfold BotOrchestrator.logger, emit, modify.
    eexists _, [Log "info" ("Stopping bot: " +:+ bot_name); CallStop bot;
                Log "error" ("Error stopping " +:+ bot_name +:+ ": " +:+ str e)].
    split; [reflexivity|]. simpl_world. rewrite <- !app_assoc. by repeat split.
Qed.

Lemma shutdown_steps_events classes items w :
  ∃ w' evs,
    for_each items (ControlSurface.shutdown_step classes) w = (Ret tt, w') ∧
    trace w' = trace w ++ evs ∧
    stops evs = snd <$> items ∧ submissions evs = [] ∧
    bots w' = bots w ∧ orch_running w' = orch_running w ∧ db w' = db w.
Proof.
  revert w. induction items as [|[n b] items IH]; intros w.
  - exists w, []. rewrite app_nil_r. by repeat split.
  - cbn [for_each]. unfold mbind, SE_bind.
    destruct (shutdown_step_events classes n b w) as (w1 & evs1 & E1 & T1 & S1 & U1 & B1 & R1 & D1).
    rewrite E1. destruct (IH w1) as (w2 & evs2 & E2 & T2 & S2 & U2 & B2 & R2 & D2).
    exists w2, (evs1 ++ evs2). split; [exact E2|].
    split; [rewrite T2, T1; by rewrite app_assoc|].
    unfold stops, submissions in *. rewrite !omap_app, S1, S2, U1, U2.
    repeat split; congruence.
Qed.

(** X7: Shutting down is best effort: [shutdown] calls [stop()] on every
    registered worker, once each and in registry order, whether or not some
    of these calls raise, and gets through its loop without raising.  It
    submits nothing, leaves registry and event store as they are, and clears
    the running flag, so that the supervisor loop polls no more. *)
Theorem shutdown_stops_every_bot (classes : string → BotClass) (w : World) :
  ∃ w', ControlSurface.shutdown_bots classes w = (Ret tt, w') ∧
    stops (new_events w w') = snd <$> bots w ∧
    submissions (new_events w w') = [] ∧
    orch_running w' = false ∧
    bots w' = bots w ∧
    db w' = db w ∧
    ∀ fuel, BotOrchestrator._health_check_loop classes fuel w' = (Ret tt, w').
Proof.
  unfold ControlSurface.shutdown_bots.
  unfold mbind at 1 2 3, SE_bind. unfold BotOrchestrator.logger at 1, emit, modify, gets.
  simpl_world. unfold set_orch_running. simpl_world.
  match goal with
  | |- context [for_each ?items _ ?w0] =>
      destruct (shutdown_steps_events classes items w0)
        as (w' & evs & E & T & S & U & B & R & D)
  end.
  exists w'. split; [exact E|]. cbn [trace env bots db orch_running config] in T, S, B, R, D.
  rewrite (new_events_app w w' (Log "info" "Shutting down Bot Orchestrator..." :: evs))
    by (rewrite T; by rewrite <- app_assoc).
  split; [exact S|]. split; [exact U|]. split; [exact R|]. split; [exact B|].
  split; [exact D|].
  intros [|fuel]; unfold BotOrchestrator._health_check_loop, mbind, SE_bind, gets;
    cbn [BotOrchestrator.health_check_polls]; [reflexivity|].
  unfold mbind, SE_bind, gets. rewrite R. reflexivity.
Qed.

(** ** The supervisor loop *)

Lemma attempt_restart_frame classes bot_name bot w :
  ∃ w' evs,
    BotOrchestrator._attempt_bot_restart classes bot_name bot w = (Ret tt, w') ∧
    trace w' = trace w ++ evs ∧ health_calls evs = [] ∧
    bots w' = bots w ∧ orch_running w' = orch_running w ∧ db w' = db w ∧
    config w' = config w.
Proof.
  unfold BotOrchestrator._attempt_bot_restart.
  unfold mbind at 1, SE_bind. unfold BotOrchestrator.logger at 1, emit, modify.
  unfold try_except. unfold mbind at 1 2 3, SE_bind.
  rewrite call_stop_eq. simpl_world.
  destruct (stop _ bot (env w)) as [[[]|e] σ'].
  - unfold BotOrchestrator.time_sleep, BotOrchestrator.executor_submit,
      BotOrchestrator.logger, emit, modify. simpl.
    eexists _, [Log "info" ("Attempting to restart " +:+ bot_name +:+ "...");
        CallStop bot; Sleep (VInt 2); Submit bot_name bot;
        Log "info" ("Successfully restarted " +:+ bot_name)].
    split; [reflexivity|]. simpl_world. rewrite <- !app_assoc. by repeat split.
  - unfold BotOrchestrator.logger, emit, modify.
    eexists _, [Log "info" ("Attempting to restart " +:+ bot_name +:+ "...");
        CallStop bot; Log "error" ("Failed to restart " +:+ bot_name +:+ ": " +:+ str e)].
    split; [reflexivity|]. simpl_world. rewrite <- !app_assoc. by repeat split.
Qed.

Lemma health_check_step_frame classes bot_name bot w :
  ∃ w' evs,
    BotOrchestrator.health_check_step classes (bot_name, bot) w = (Ret tt, w') ∧
    trace w' = trace w ++ evs ∧ health_calls evs = [bot] ∧
    bots w' = bots w ∧ orch_running w' = orch_running w ∧ db w' = db w ∧
    config w' = config w.
Proof.
  unfold BotOrchestrator.health_check_step, try_except.
  unfold mbind at 1, SE_bind.
  unfold BotOrchestrator.call_is_healthy.
  unfold mbind at 1 2, SE_bind. unfold lift, BotBase.is_healthy, getattr, gets, emit, modify.
  unfold mret at 1, SE_ret.
  destruct (healthy (objs (env w) !!! bot)) eqn:Hh; cbn [negb].
  - eexists _, [CallIsHealthy bot true]. split; [reflexivity|]. by repeat split.
  - unfold mbind at 1, SE_bind. unfold BotOrchestrator.logger at 1, emit, modify.
    match goal with
    | |- context [BotOrchestrator._attempt_bot_restart classes bot_name bot ?w0] =>
        destruct (attempt_restart_frame classes bot_name bot w0)
          as (w' & evs & E & T & H & B & R & D & C)
    end.
    rewrite E. exists w', ([CallIsHealthy bot false;
                            Log "warning" ("Bot " +:+ bot_name +:+ " is unhealthy!")] ++ evs).
    split; [reflexivity|]. cbn [trace env bots db orch_running config add_event set_env] in *.
    split; [rewrite T; by rewrite <- !app_assoc|].
    split; [unfold health_calls in *; rewrite omap_app, H; reflexivity|].
    by repeat split.
Qed.

Lemma health_check_steps_frame classes items w :
  ∃ w' evs,
    for_each items (BotOrchestrator.health_check_step classes) w = (Ret tt, w') ∧
    trace w' = trace w ++ evs ∧ health_calls evs = snd <$> items ∧
    bots w' = bots w ∧ orch_running w' = orch_running w ∧ db w' = db w ∧
    config w' = config w.
Proof.
  revert w. induction items as [|[n b] items IH]; intros w.
  - exists w, []. rewrite app_nil_r. by repeat split.
  - cbn [for_each]. unfold mbind, SE_bind.
    destruct (health_check_step_frame classes n b w)
      as (w1 & evs1 & E1 & T1 & H1 & B1 & R1 & D1 & C1).
    rewrite E1. destruct (IH w1) as (w2 & evs2 & E2 & T2 & H2 & B2 & R2 & D2 & C2).
    exists w2, (evs1 ++ evs2). split; [exact E2|].
    split; [rewrite T2, T1; by rewrite app_assoc|].
    split; [unfold health_calls in *; by rewrite omap_app, H1, H2|].
    repeat split; congruence.
Qed.

Lemma health_check_poll_frame classes w :
  ∃ w' evs,
    BotOrchestrator.health_check_poll classes w = (Ret tt, w') ∧
    trace w' = trace w ++ evs ∧ health_calls evs = snd <$> bots w ∧
    bots w' = bots w ∧ orch_running w' = orch_running w ∧ db w' = db w ∧
    config w' = config w.
Proof.
  unfold BotOrchestrator.health_check_poll. unfold mbind, SE_bind, gets.
  apply health_check_steps_frame.
Qed.

(** A wait of up to an hour goes through. *)
Lemma sleep_error_short σ n : (0 ≤ n ≤ 3600)%Z → sleep_error σ (n * 1000000) = None.
Proof.
  intros Hn. unfold sleep_error.
  replace (n * 1000000 * 1000 <? -9223372036854775808)%Z with false
    by (symmetry; apply Z.ltb_ge; lia).
  replace (9223372036854775807 <? n * 1000000 * 1000)%Z with false
    by (symmetry; apply Z.ltb_ge; lia).
  replace (n * 1000000 <? 0)%Z with false by (symmetry; apply Z.ltb_ge; lia).
  replace (n * 1000000 <=? 3600000000)%Z with true by (symmetry; apply Z.leb_le; lia).
  reflexivity.
Qed.

Lemma time_sleep_short n w :
  (0 ≤ n ≤ 3600)%Z →
  BotOrchestrator.time_sleep (VInt n) w = (Ret tt, add_event (Sleep (VInt n)) w).
Proof.
  intros Hn. unfold BotOrchestrator.time_sleep. cbn [BotOrchestrator.microseconds].
  unfold mbind, SE_bind, gets. rewrite (sleep_error_short _ _ Hn). reflexivity.
Qed.

Lemma health_check_polls_rounds classes fuel n w :
  orch_running w = true → (0 ≤ n ≤ 3600)%Z →
  ∃ w' evs, BotOrchestrator.health_check_polls classes fuel (VInt n) w = (Ret tt, w') ∧
    trace w' = trace w ++ evs ∧
    health_calls evs = mjoin (replicate fuel (snd <$> bots w)) ∧
    orch_running w' = true ∧ bots w' = bots w ∧ db w' = db w.
Proof.
  intros Hr Hn. revert w Hr. induction fuel as [|fuel IH]; intros w Hr.
  - exists w, []. rewrite app_nil_r. by repeat split.
  - cbn [BotOrchestrator.health_check_polls]. unfold mbind at 1, SE_bind, gets. rewrite Hr.
    unfold mbind at 1 2, SE_bind.
    destruct (health_check_poll_frame classes w) as (w1 & evs & E & T & H & B & R & D & C).
    rewrite E. rewrite (time_sleep_short _ _ Hn).
    destruct (IH (add_event (Sleep (VInt n)) w1)) as (w2 & evs2 & E2 & T2 & H2 & R2 & B2 & D2);
      [simpl_world; congruence|].
    exists w2, (evs ++ [Sleep (VInt n)] ++ evs2). split; [exact E2|].
    cbn [trace env bots db orch_running config add_event] in *.
    split; [rewrite T2, T; by rewrite <- !app_assoc|].
    split; [|repeat split; congruence].
    unfold health_calls in *. rewrite !omap_app, H, H2, B. cbn [replicate mjoin list_join].
    reflexivity.
Qed.

(** X10: The supervisor keeps going: with the running flag set and a wait that
    is a whole number of seconds from 0 to 3600 in the configuration, every
    round of [_health_check_loop] asks each registered worker once, in
    registry order, then sleeps; however many workers it has to restart, the
    loop does not raise, does not clear the flag, and changes neither the
    registry nor the event store. *)
Theorem health_check_loop_rounds (classes : string → BotClass) (w : World)
    (fuel : nat) (n : Z) :
  orch_running w = true →
  BotOrchestrator.health_check_interval w = VInt n →
  (0 ≤ n ≤ 3600)%Z →
  ∃ w', BotOrchestrator._health_check_loop classes fuel w = (Ret tt, w') ∧
    health_calls (new_events w w') = mjoin (replicate fuel (snd <$> bots w)) ∧
    orch_running w' = true ∧ bots w' = bots w ∧ db w' = db w.
Proof.
  intros Hr Hi Hn. unfold BotOrchestrator._health_check_loop, mbind, SE_bind, gets.
  rewrite Hi.
  destruct (health_check_polls_rounds classes fuel n w Hr Hn)
    as (w' & evs & E & T & H & R & B & D).
  exists w'. split; [exact E|]. rewrite (new_events_app _ _ _ T). by repeat split.
Qed.

(** X11: A wait that is not a number stops the supervisor for good: when
    [health_check_interval] is configured as text, the first round polls the
    workers and then [time.sleep] raises [TypeError] out of the loop, which
    has no handler around it. *)
Theorem health_check_loop_bad_interval (classes : string → BotClass) (w : World)
    (fuel : nat) (s : string) :
  orch_running w = true →
  BotOrchestrator.health_check_interval w = VStr s →
  ∃ w1 e,
    BotOrchestrator.health_check_poll classes w = (Ret tt, w1) ∧
    BotOrchestrator._health_check_loop classes (S fuel) w = (Raise e, w1) ∧
    exn_class e = "TypeError".
Proof.
  intros Hr Hi.
  destruct (health_check_poll_frame classes w) as (w1 & evs & E & _).
  exists w1. eexists. split; [exact E|].
  unfold BotOrchestrator._health_check_loop. unfold mbind at 1, SE_bind, gets. rewrite Hi.
  cbn [BotOrchestrator.health_check_polls]. unfold mbind at 1, SE_bind, gets. rewrite Hr.
  unfold mbind at 1 2, SE_bind. rewrite E. split; reflexivity.
Qed.

Lemma health_check_loop_rounds_witness :
  ∃ w', BotOrchestrator._health_check_loop mock_classes 3 world1 = (Ret tt, w') ∧
        health_calls (new_events world1 w') = [bot1; bot1; bot1].
Proof.
  destruct (health_check_loop_rounds mock_classes world1 3 60)
    as (w' & E & H & _); [reflexivity|reflexivity|lia|].
  exists w'. split; [exact E|exact H].
Defined.

Lemma health_check_loop_bad_interval_witness :
  ∃ w1 e,
    BotOrchestrator._health_check_loop mock_classes 5 world_text_interval = (Raise e, w1) ∧
    exn_class e = "TypeError".
Proof.
  destruct (health_check_loop_bad_interval mock_classes world_text_interval 4 "60")
    as (w1 & e & _ & E & He); [reflexivity|reflexivity|].
  exists w1, e. split; [exact E|exact He].
Defined.

(** ** The status report *)

Lemma fresh_not_allocated {A} (m : gmap loc A) : m !! fresh (dom m) = None.
Proof. apply not_elem_of_dom. apply is_fresh. Qed.

Lemma status_entry_step (status bots_dict : loc) (S : pydict) bot_name bot w :
  dicts (env w) !! status = Some S →
  S !! "bots" = Some (VRef bots_dict) →
  let σ := env w in
  let c := fresh (dom (dicts σ)) in
  let D1 := <[c := dicts σ !!! stats (objs σ !!! bot)]> (dicts σ) in
  let e := fresh (dom D1) in
  let D2 := <[e := status_entry_dict σ bot_name bot c]> D1 in
  ControlSurface.status_entry status (bot_name, bot) w =
    (Ret tt,
     MkWorld (MkEnv (<[bots_dict := <[bot_name := VRef e]> (D2 !!! bots_dict)]> D2)
                (objs σ) (clock σ) (ticks σ) (logs σ) (lists σ) (sleep_max σ))
       (bots w) (orch_running w) (config w) (db w)
       (trace w ++ [CallIsHealthy bot (healthy (objs σ !!! bot))])).
Proof.
  intros Hs Hb σ c D1 e D2.
  assert (Hc : c ≠ status).
  { intros E. assert (H := fresh_not_allocated (dicts σ)). fold c in H. rewrite E in H.
    unfold σ in H. congruence. }
  assert (He : e ≠ status).
  { intros E. assert (H := fresh_not_allocated D1). fold e in H. rewrite E in H.
    unfold D1 in H. rewrite lookup_insert_ne in H by exact Hc. unfold σ in H. congruence. }
  assert (Hget : (D2 !!! status : pydict) !! "bots" = Some (VRef bots_dict)).
  { unfold D2, D1. rewrite !lookup_total_insert_ne by done.
    rewrite (lookup_total_correct _ _ _ Hs). exact Hb. }
  unfold ControlSurface.status_entry, BotOrchestrator.call_is_healthy, BotBase.is_running,
    BotBase.is_healthy, BotBase.get_last_activity, BotBase.get_stats, dict_copy, deref,
    dict_new, dict_getitem, dict_setitem, lift, emit, getattr, gets, modify,
    mbind, SE_bind, mret, SE_ret.
  cbn [trace env bots db orch_running config add_event set_env dicts objs clock ticks logs
       set_dicts].
  fold σ. fold c. fold D1. fold e. fold (status_entry_dict σ bot_name bot c). fold D2.
  rewrite Hget. reflexivity.
Qed.

Lemma status_entry_dict_objs σ σ' n b c :
  objs σ' = objs σ → status_entry_dict σ' n b c = status_entry_dict σ n b c.
Proof. unfold status_entry_dict. by intros ->. Qed.

Lemma status_entries_spec (status bots_dict : loc) (S : pydict) items w :
  dicts (env w) !! status = Some S →
  S !! "bots" = Some (VRef bots_dict) →
  bots_dict ≠ status →
  is_Some (dicts (env w) !! bots_dict) →
  ∃ w', for_each items (ControlSurface.status_entry status) w = (Ret tt, w') ∧
    objs (env w') = objs (env w) ∧
    bots w' = bots w ∧ orch_running w' = orch_running w ∧
    config w' = config w ∧ db w' = db w ∧
    trace w' = trace w ++
      ((λ item, CallIsHealthy item.2 (healthy (objs (env w) !!! item.2))) <$> items) ∧
    (∀ l, is_Some (dicts (env w) !! l) → l ≠ bots_dict →
          dicts (env w') !! l = dicts (env w) !! l) ∧
    is_Some (dicts (env w') !! bots_dict) ∧
    (∀ k, k ∉ items.*1 →
          (dicts (env w') !!! bots_dict : pydict) !! k
          = (dicts (env w) !!! bots_dict : pydict) !! k) ∧
    (NoDup items.*1 → ∀ n b, (n, b) ∈ items →
       is_Some (dicts (env w) !! stats (objs (env w) !!! b)) →
       stats (objs (env w) !!! b) ≠ bots_dict →
       ∃ e c,
         (dicts (env w') !!! bots_dict : pydict) !! n = Some (VRef e) ∧
         dicts (env w') !! e = Some (status_entry_dict (env w) n b c) ∧
         dicts (env w') !! c = Some (dicts (env w) !!! stats (objs (env w) !!! b)) ∧
         dicts (env w) !! e = None ∧ dicts (env w) !! c = None).
Proof.
  revert w. induction items as [|[n0 b0] items IH]; intros w Hs Hb Hne Hl2.
  - exists w. split; [reflexivity|]. cbn [fmap list_fmap]. rewrite app_nil_r.
    repeat split; try done. intros _ n b Hin. by apply elem_of_nil in Hin.
  - cbn [for_each]. unfold mbind, SE_bind.
    rewrite (status_entry_step status bots_dict S n0 b0 w Hs Hb).
    set (σ := env w) in *.
    set (c := fresh (dom (dicts σ))).
    set (D1 := <[c := dicts σ !!! stats (objs σ !!! b0)]> (dicts σ)).
    set (e := fresh (dom D1)).
    set (D2 := <[e := status_entry_dict σ n0 b0 c]> D1).
    set (D3 := <[bots_dict := <[n0 := VRef e]> (D2 !!! bots_dict)]> D2).
    set (w1 := MkWorld _ _ _ _ _ _).
    assert (Hc : dicts σ !! c = None) by apply fresh_not_allocated.
    assert (He1 : D1 !! e = None) by apply fresh_not_allocated.
    assert (Hec : e ≠ c).
    { intros E. rewrite E in He1. unfold D1 in He1. by rewrite lookup_insert_eq in He1. }
    assert (He : dicts σ !! e = None).
    { unfold D1 in He1. by rewrite lookup_insert_ne in He1. }
    assert (Hold : ∀ l, is_Some (dicts σ !! l) → l ≠ c ∧ l ≠ e).
    { intros l [x Hx]. split; intros ->; congruence. }
    assert (Hfr : ∀ l, is_Some (dicts σ !! l) → l ≠ bots_dict → D3 !! l = dicts σ !! l).
    { intros l Hl Hlb. destruct (Hold l Hl) as [H1 H2]. unfold D3, D2, D1.
      by rewrite !lookup_insert_ne. }
    destruct (Hold _ Hl2) as [Hl2c Hl2e].
    destruct (Hold status (ex_intro _ S Hs)) as [Hsc Hse].
    assert (Hs1 : dicts (env w1) !! status = Some S).
    { cbn [env w1 dicts]. rewrite Hfr; [exact Hs|by eexists|done]. }
    assert (Hl21 : is_Some (dicts (env w1) !! bots_dict)).
    { cbn [env w1 dicts]. unfold D3. rewrite lookup_insert_eq. by eexists. }
    destruct (IH w1 Hs1 Hb Hne Hl21)
      as (w' & E & O & B & R & C & D & T & F & L & K & N).
    exists w'. split; [exact E|]. cbn [env w1 objs bots orch_running config db trace dicts] in *.
    split; [exact O|]. split; [exact B|]. split; [exact R|]. split; [exact C|].
    split; [exact D|].
    split. { rewrite T. cbn [fmap list_fmap snd]. by rewrite <- app_assoc. }
    split.
    { intros l Hl Hlb. rewrite F; [by apply Hfr|rewrite Hfr by done; exact Hl|exact Hlb]. }
    split; [exact L|].
    split.
    { intros k Hk. cbn [fmap list_fmap fst] in Hk. apply not_elem_of_cons in Hk as [Hk0 Hk].
      rewrite (K k Hk). unfold D3. rewrite lookup_total_insert_eq.
      rewrite lookup_insert_ne by done. unfold D2, D1.
      by rewrite !lookup_total_insert_ne. }
    intros Hnd n b Hin Hst Hstb. cbn [fmap list_fmap fst] in Hnd.
    apply NoDup_cons in Hnd as [Hn0 Hnd].
    apply elem_of_cons in Hin as [[= -> ->]|Hin].
    + exists e, c. rewrite (K n0 Hn0). unfold D3 at 1. rewrite lookup_total_insert_eq.
      rewrite lookup_insert_eq. split; [reflexivity|].
      assert (HD3e : D3 !! e = Some (status_entry_dict σ n0 b0 c)).
      { unfold D3. rewrite lookup_insert_ne by done. unfold D2. by rewrite lookup_insert_eq. }
      assert (HD3c : D3 !! c = Some (dicts σ !!! stats (objs σ !!! b0))).
      { unfold D3. rewrite lookup_insert_ne by done. unfold D2.
        rewrite lookup_insert_ne by done. unfold D1. by rewrite lookup_insert_eq. }
      split; [rewrite F; [exact HD3e|by rewrite HD3e|done]|].
      split; [rewrite F; [exact HD3c|by rewrite HD3c|done]|]. by split.
    + destruct (Hold _ Hst) as [Hstc Hste].
      assert (Hst3 : D3 !! stats (objs σ !!! b) = dicts σ !! stats (objs σ !!! b))
        by (by apply Hfr).
      destruct (N Hnd n b Hin) as (e' & c' & P1 & P2 & P3 & P4 & P5).
      { destruct Hst as [x Hx]. exists x. etrans; [exact Hst3|exact Hx]. }
      { exact Hstb. }
      exists e', c'. split; [exact P1|].
      split; [exact P2|].
      split.
      { rewrite P3. f_equal.
        change (D3 !!! stats (objs σ !!! b) = dicts σ !!! stats (objs σ !!! b)).
        rewrite !lookup_total_alt. f_equal. exact Hst3. }
      assert (Hsub : ∀ l, D3 !! l = None → dicts σ !! l = None).
      { intros l Hl. destruct (dicts σ !! l) as [x|] eqn:Ex; [|done].
        destruct (decide (l = bots_dict)) as [->|Hlb].
        - unfold D3 in Hl. by rewrite lookup_insert_eq in Hl.
        - rewrite Hfr in Hl; [congruence|by eexists|done]. }
      split; by apply Hsub.
Qed.

(** X12: [get_status] only reads.  It returns a new dictionary; the registry,
    the flags, the configuration, the event store, every worker and every
    dictionary that existed are as before, and what it did to the workers is
    one [is_healthy()] call each.  The report counts the registry, has an
    entry for no other name, and (names being pairwise different) shows for
    each registered worker its name, its flags, its last activity and a new
    copy of its statistics. *)
Theorem get_status_snapshot (w : World) :
  ∃ status w', ControlSurface.get_status w = (Ret status, w') ∧
    objs (env w') = objs (env w) ∧
    bots w' = bots w ∧ orch_running w' = orch_running w ∧
    config w' = config w ∧ db w' = db w ∧
    (∀ l, is_Some (dicts (env w) !! l) → dicts (env w') !! l = dicts (env w) !! l) ∧
    new_events w w' =
      ((λ item, CallIsHealthy item.2 (healthy (objs (env w) !!! item.2))) <$> bots w) ∧
    dicts (env w) !! status = None ∧
    ∃ orch bots_dict,
      dicts (env w') !! status =
        Some (<["orchestrator" := VRef orch]> (<["bots" := VRef bots_dict]> ∅)) ∧
      dicts (env w') !! orch =
        Some (<["running" := VBool (orch_running w)]>
              (<["bots_count" := VInt (Z.of_nat (length (bots w)))]>
              (<["uptime" := VFloat (fst (clock (env w) (ticks (env w))))]> ∅))) ∧
      (∀ k, k ∉ reg_keys (bots w) → (dicts (env w') !!! bots_dict : pydict) !! k = None) ∧
      (NoDup (reg_keys (bots w)) → ∀ n b, (n, b) ∈ bots w →
         is_Some (dicts (env w) !! stats (objs (env w) !!! b)) →
         ∃ e c,
           (dicts (env w') !!! bots_dict : pydict) !! n = Some (VRef e) ∧
           dicts (env w') !! e = Some (status_entry_dict (env w) n b c) ∧
           dicts (env w') !! c = Some (dicts (env w) !!! stats (objs (env w) !!! b)) ∧
           dicts (env w) !! c = None).
Proof.
  set (σ := env w).
  set (l1 := fresh (dom (dicts σ))).
  set (O := (<["running" := VBool (orch_running w)]>
              (<["bots_count" := VInt (Z.of_nat (length (bots w)))]>
              (<["uptime" := VFloat (fst (clock σ (ticks σ)))]> ∅)) : pydict)).
  set (D1 := <[l1 := O]> (dicts σ)).
  set (l2 := fresh (dom D1)).
  set (D2 := <[l2 := (∅ : pydict)]> D1).
  set (l3 := fresh (dom D2)).
  set (S := (<["orchestrator" := VRef l1]> (<["bots" := VRef l2]> ∅) : pydict)).
  set (D3 := <[l3 := S]> D2).
  set (w0 := MkWorld (MkEnv D3 (objs σ) (clock σ) (Datatypes.S (ticks σ)) (logs σ) (lists σ) (sleep_max σ))
               (bots w) (orch_running w) (config w) (db w) (trace w)).
  assert (H1 : dicts σ !! l1 = None) by apply fresh_not_allocated.
  assert (H2 : D1 !! l2 = None) by apply fresh_not_allocated.
  assert (H3 : D2 !! l3 = None) by apply fresh_not_allocated.
  assert (H21 : l2 ≠ l1).
  { intros E. rewrite E in H2. unfold D1 in H2. by rewrite lookup_insert_eq in H2. }
  assert (H32 : l3 ≠ l2).
  { intros E. rewrite E in H3. unfold D2 in H3. by rewrite lookup_insert_eq in H3. }
  assert (H31 : l3 ≠ l1).
  { intros E. rewrite E in H3. unfold D2, D1 in H3.
    rewrite lookup_insert_ne, lookup_insert_eq in H3 by done. done. }
  assert (Hold : ∀ l, is_Some (dicts σ !! l) → l ≠ l1 ∧ l ≠ l2 ∧ l ≠ l3).
  { intros l [x Hx]. repeat split; intros ->.
    - congruence.
    - unfold D1 in H2. rewrite lookup_insert_ne in H2 by done. congruence.
    - unfold D2, D1 in H3. rewrite !lookup_insert_ne in H3 by done. congruence. }
  assert (Hfr : ∀ l, is_Some (dicts σ !! l) → D3 !! l = dicts σ !! l).
  { intros l Hl. destruct (Hold l Hl) as (A1 & A2 & A3). unfold D3, D2, D1.
    by rewrite !lookup_insert_ne. }
  assert (Hs0 : dicts (env w0) !! l3 = Some S) by apply lookup_insert_eq.
  assert (Hb0 : S !! "bots" = Some (VRef l2)) by reflexivity.
  assert (Hl20 : is_Some (dicts (env w0) !! l2)).
  { cbn [env w0 dicts]. unfold D3, D2. rewrite lookup_insert_ne, lookup_insert_eq by done.
    by eexists. }
  destruct (status_entries_spec l3 l2 S (bots w) w0 Hs0 Hb0 (not_eq_sym H32) Hl20)
    as (w' & E & HO & HB & HR & HC & HD & HT & HF & _ & HK & HN).
  exists l3, w'. split.
  { unfold ControlSurface.get_status.
    unfold mbind, SE_bind, gets, lift, time_time, dict_new, mret, SE_ret.
    cbn [trace env bots db orch_running config add_event set_env dicts objs clock ticks logs
         set_dicts tick fst snd].
    fold σ. fold l1. fold O. fold D1. fold l2. fold D2. fold l3. fold S. fold D3.
    match goal with |- context [for_each _ _ ?x] => change x with w0 end.
    rewrite E. reflexivity. }
  unfold w0 in HO, HB, HR, HC, HD, HT, HF, HK, HN, Hs0.
  cbn [env objs bots orch_running config db trace dicts] in HO, HB, HR, HC, HD, HT, HF, HK, HN, Hs0.
  split; [exact HO|]. split; [exact HB|]. split; [exact HR|]. split; [exact HC|].
  split; [exact HD|].
  split.
  { intros l Hl. destruct (Hold l Hl) as (A1 & A2 & A3).
    rewrite HF; [by apply Hfr|rewrite Hfr by done; exact Hl|exact A2]. }
  split; [by apply new_events_app|].
  split.
  { unfold D2, D1 in H3. destruct (dicts σ !! l3) eqn:E3; [|done].
    destruct (Hold l3) as (_ & _ & A3); [by eexists|done]. }
  exists l1, l2.
  split. { rewrite HF; [exact Hs0|by rewrite Hs0|done]. }
  split.
  { rewrite HF; [|unfold D3, D2, D1; rewrite !lookup_insert_ne, lookup_insert_eq by done;
                  by eexists|done].
    unfold D3, D2, D1. by rewrite !lookup_insert_ne, lookup_insert_eq by done. }
  split.
  { intros k Hk. rewrite (HK k Hk). unfold D3, D2.
    rewrite lookup_total_insert_ne, lookup_total_insert_eq by done. apply lookup_empty. }
  intros Hnd n b Hin Hst.
  destruct (Hold _ Hst) as (A1 & A2 & A3).
  destruct (HN Hnd n b Hin) as (e & c & P1 & P2 & P3 & P4 & P5).
  { destruct Hst as [x Hx]. exists x. etrans; [apply Hfr; by eexists|exact Hx]. }
  { exact A2. }
  exists e, c. split; [exact P1|]. split; [exact P2|].
  split.
  { rewrite P3. f_equal.
    change (D3 !!! stats (objs σ !!! b) = dicts σ !!! stats (objs σ !!! b)).
    rewrite !lookup_total_alt. f_equal. by apply Hfr. }
  destruct (dicts σ !! c) as [x|] eqn:Ec; [|done].
  exfalso. assert (Hc3 : D3 !! c = Some x) by (rewrite Hfr; [exact Ec|by eexists]).
  change (D3 !! c = None) in P5. congruence.
Qed.

(** ** Retrying a call *)

Lemma retry_attempt_eq self func max_retries delay attempt σ :
  BotHelpers.retry_attempt self func max_retries delay attempt σ =
    match func σ with
    | (Ret v, σ1) => (Ret (Some v), σ1)
    | (Raise e, σ1) =>
        let σ2 := add_log (retry_warning (name (objs σ1 !!! self)) e attempt) σ1 in
        if (attempt <? max_retries - 1)%Z then
          match sleep_error σ2 (delay * 1000000) with
          | Some e' => (Raise e', σ2)
          | None => (Ret None, σ2)
          end
        else (Raise e, σ2)
    end.
Proof.
  unfold BotHelpers.retry_attempt, try_except. unfold mbind at 1, SE_bind.
  destruct (func σ) as [[v|e] σ1]; [reflexivity|].
  unfold logger, getattr, BotHelpers.time_sleep, sleep, retry_warning. unfold_monad.
  destruct (attempt <? max_retries - 1)%Z; [|reflexivity].
  destruct (sleep_error _ _); reflexivity.
Qed.

(** A negative wait that fits 64 bits of nanoseconds is refused as such. *)
Lemma sleep_error_negative σ n :
  (-9223372036 ≤ n < 0)%Z →
  sleep_error σ (n * 1000000) =
    Some (PyExn "ValueError" "sleep length must be non-negative").
Proof.
  intros Hn. unfold sleep_error.
  replace (n * 1000000 * 1000 <? -9223372036854775808)%Z with false
    by (symmetry; apply Z.ltb_ge; lia).
  replace (9223372036854775807 <? n * 1000000 * 1000)%Z with false
    by (symmetry; apply Z.ltb_ge; lia).
  replace (n * 1000000 <? 0)%Z with true by (symmetry; apply Z.ltb_lt; lia).
  reflexivity.
Qed.

Lemma range_nil n : (n ≤ 0)%Z → BotHelpers.range n = [].
Proof. intros H. unfold BotHelpers.range. by replace (Z.to_nat n) with 0%nat by lia. Qed.

(** X13: With nothing to try, [retry_on_failure] returns [None]: the call is not
    made and nothing is logged or changed. *)
Theorem retry_on_failure_no_attempts (self : loc) (func : BotM pyval)
    (max_retries delay : Z) (σ : Env) :
  (max_retries ≤ 0)%Z →
  BotHelpers.retry_on_failure self func max_retries delay σ = (Ret VNone, σ).
Proof.
  intros H. unfold BotHelpers.retry_on_failure. by rewrite range_nil.
Qed.

Lemma retry_on_failure_no_attempts_witness :
  BotHelpers.retry_on_failure bot1 always_fails 0 5 env1 = (Ret VNone, env1).
Proof. apply (retry_on_failure_no_attempts bot1 always_fails 0 5 env1). lia. Defined.

Lemma retry_rounds_outcome self func max_retries delay k : ∀ a σ,
  (0 ≤ delay ≤ 3600)%Z → (1 ≤ k)%nat → (Z.of_nat a + Z.of_nat k = max_retries)%Z →
  match BotHelpers.retry_rounds self func max_retries delay (Z.of_nat <$> seq a k) σ with
  | (Ret v, σ') => ∃ σ1, func σ1 = (Ret v, σ')
  | (Raise e, σ') => ∃ σ1 σ2, func σ1 = (Raise e, σ2)
  end.
Proof.
  induction k as [|k IH]; intros a σ Hd Hk Hm; [lia|].
  cbn [seq fmap list_fmap BotHelpers.retry_rounds].
  unfold mbind at 1, SE_bind. rewrite retry_attempt_eq.
  destruct (func σ) as [[v|e] σ1] eqn:Ef.
  - by exists σ.
  - cbv zeta. destruct (Z.of_nat a <? max_retries - 1)%Z eqn:Ea.
    + rewrite (sleep_error_short _ _ Hd).
      apply Z.ltb_lt in Ea. apply (IH (S a)); [done|lia|lia].
    + by exists σ, σ1.
Qed.

(** X14: With at least one round and a delay from 0 to 3600 seconds,
    [retry_on_failure] ends as a call of [func] ended: what it returns, that
    call returned, in the state that call left; what it raises, a call
    raised.  In particular it does not fall through to [None]. *)
Theorem retry_on_failure_outcome (self : loc) (func : BotM pyval)
    (max_retries delay : Z) (σ : Env) :
  (1 ≤ max_retries)%Z → (0 ≤ delay ≤ 3600)%Z →
  match BotHelpers.retry_on_failure self func max_retries delay σ with
  | (Ret v, σ') => ∃ σ1, func σ1 = (Ret v, σ')
  | (Raise e, σ') => ∃ σ1 σ2, func σ1 = (Raise e, σ2)
  end.
Proof.
  intros Hm Hd. unfold BotHelpers.retry_on_failure, BotHelpers.range.
  apply retry_rounds_outcome; [done|lia|lia].
Qed.

Lemma retry_on_failure_outcome_witness :
  match BotHelpers.retry_on_failure bot1 (mret (VInt 7)) 3 5 env1 with
  | (Ret v, σ') => ∃ σ1, (mret (VInt 7) : BotM pyval) σ1 = (Ret v, σ')
  | (Raise e, σ') => ∃ σ1 σ2, (mret (VInt 7) : BotM pyval) σ1 = (Raise e, σ2)
  end.
Proof. apply (retry_on_failure_outcome bot1 (mret (VInt 7)) 3 5 env1); lia. Defined.

Lemma retry_rounds_exhausted self func max_retries delay e k : ∀ a σ,
  (∀ σ, ∃ σ', func σ = (Raise e, σ') ∧ logs σ' = logs σ ∧
              name (objs σ' !!! self) = name (objs σ !!! self)) →
  (0 ≤ delay ≤ 3600)%Z → (1 ≤ k)%nat → (Z.of_nat a + Z.of_nat k = max_retries)%Z →
  ∃ σ', BotHelpers.retry_rounds self func max_retries delay (Z.of_nat <$> seq a k) σ
          = (Raise e, σ') ∧
        logs σ' = logs σ ++
          (retry_warning (name (objs σ !!! self)) e <$> (Z.of_nat <$> seq a k)) ∧
        name (objs σ' !!! self) = name (objs σ !!! self).
Proof.
  induction k as [|k IH]; intros a σ Hf Hd Hk Hm; [lia|].
  cbn [seq fmap list_fmap BotHelpers.retry_rounds].
  unfold mbind at 1, SE_bind. rewrite retry_attempt_eq.
  destruct (Hf σ) as (σ1 & E1 & L1 & N1). rewrite E1. cbv zeta.
  destruct (Z.of_nat a <? max_retries - 1)%Z eqn:Ea.
  - rewrite (sleep_error_short _ _ Hd).
    apply Z.ltb_lt in Ea.
    destruct (IH (S a) (add_log (retry_warning (name (objs σ1 !!! self)) e (Z.of_nat a)) σ1))
      as (σ' & E & L & N); [done|done|lia|lia|].
    exists σ'. split; [exact E|]. cbn [add_log logs objs] in L, N.
    split; [|congruence].
    rewrite L, L1, N1. by rewrite <- app_assoc.
  - apply Z.ltb_ge in Ea. assert (k = 0%nat) as -> by lia.
    eexists. split; [reflexivity|]. cbn [add_log logs objs seq fmap list_fmap].
    split; [|exact N1]. by rewrite L1, N1.
Qed.

(** X15: A call that fails each time, with the same exception and without
    logging, is made [max_retries] times when the delay is from 0 to 3600
    seconds: [retry_on_failure] then raises that exception, and what it
    added to the log is one warning per round, numbered from 1. *)
Theorem retry_on_failure_exhausted (self : loc) (func : BotM pyval) (e : exn)
    (max_retries delay : Z) (σ : Env) :
  (∀ σ, ∃ σ', func σ = (Raise e, σ') ∧ logs σ' = logs σ ∧
              name (objs σ' !!! self) = name (objs σ !!! self)) →
  (1 ≤ max_retries)%Z → (0 ≤ delay ≤ 3600)%Z →
  ∃ σ', BotHelpers.retry_on_failure self func max_retries delay σ = (Raise e, σ') ∧
        logs σ' = logs σ ++
          (retry_warning (name (objs σ !!! self)) e <$> BotHelpers.range max_retries) ∧
        length (BotHelpers.range max_retries) = Z.to_nat max_retries.
Proof.
  intros Hf Hm Hd. unfold BotHelpers.retry_on_failure, BotHelpers.range.
  destruct (retry_rounds_exhausted self func max_retries delay e (Z.to_nat max_retries)
              0%nat σ Hf Hd) as (σ' & E & L & _); [lia|lia|].
  exists σ'. split; [exact E|]. split; [exact L|].
  by rewrite length_fmap, length_seq.
Qed.

Lemma retry_on_failure_exhausted_witness :
  ∃ σ', BotHelpers.retry_on_failure bot1 always_fails 3 5 env1 = (Raise boom, σ') ∧
        logs σ' = logs env1 ++
          (retry_warning (name (objs env1 !!! bot1)) boom <$> BotHelpers.range 3) ∧
        length (BotHelpers.range 3) = Z.to_nat 3.
Proof.
  apply (retry_on_failure_exhausted bot1 always_fails boom 3 5 env1).
  - intros σ. exists σ. split; [reflexivity|]. split; reflexivity.
  - lia.
  - lia.
Defined.

(** X16: A negative delay hides the failure: when the first call fails and more
    rounds are left, [time.sleep] refuses a delay below 0 (down to
    -9223372036 seconds, beyond which it raises [OverflowError]), so that
    [retry_on_failure] raises a [ValueError] in place of the exception of the
    call and does not call again. *)
Theorem retry_on_failure_negative_delay (self : loc) (func : BotM pyval) (e : exn)
    (max_retries delay : Z) (σ σ1 : Env) :
  (2 ≤ max_retries)%Z → (-9223372036 ≤ delay < 0)%Z →
  func σ = (Raise e, σ1) →
  BotHelpers.retry_on_failure self func max_retries delay σ =
    (Raise (PyExn "ValueError" "sleep length must be non-negative"),
     add_log (retry_warning (name (objs σ1 !!! self)) e 0) σ1).
Proof.
  intros Hm Hd Hf. unfold BotHelpers.retry_on_failure, BotHelpers.range.
  destruct (Z.to_nat max_retries) as [|k] eqn:Ek; [lia|].
  cbn [seq fmap list_fmap BotHelpers.retry_rounds].
  unfold mbind at 1, SE_bind. rewrite retry_attempt_eq, Hf. cbv zeta.
  replace (Z.of_nat 0 <? max_retries - 1)%Z with true by (symmetry; apply Z.ltb_lt; lia).
  rewrite (sleep_error_negative _ _ Hd). reflexivity.
Qed.

Lemma retry_on_failure_negative_delay_witness :
  BotHelpers.retry_on_failure bot1 always_fails 3 (-1) env1 =
    (Raise (PyExn "ValueError" "sleep length must be non-negative"),
     add_log (retry_warning (name (objs env1 !!! bot1)) boom 0) env1).
Proof.
  apply (retry_on_failure_negative_delay bot1 always_fails boom 3 (-1) env1 env1).
  - lia.
  - lia.
  - reflexivity.
Defined.

(** ** The connection pool *)

Lemma enter_bounded s :
  pool_bounded s → pool_bounded (ConnectionPool.get_connection_enter s).2.
Proof.
  unfold pool_bounded. intros H. rewrite get_connection_enter_eq.
  destruct (last (ConnectionPool._connection_pool s)) as [c|] eqn:El.
  - cbn [snd ConnectionPool._connection_pool ConnectionPool.pool_size].
    apply last_Some_snoc in El. rewrite El in H. rewrite length_app in H. cbn in H. lia.
  - destruct (ConnectionPool.connect_error s (ConnectionPool.connects s)); exact H.
Qed.

Lemma exit_bounded conn s :
  pool_bounded s → pool_bounded (ConnectionPool.get_connection_exit conn s).2.
Proof.
  unfold pool_bounded. intros H. rewrite get_connection_exit_eq. cbn [snd].
  destruct (_ <? _)%Z eqn:E; [|exact H].
  apply Z.ltb_lt in E.
  cbn [ConnectionPool.set_pool ConnectionPool._connection_pool ConnectionPool.pool_size].
  rewrite length_app. cbn [length]. lia.
Qed.

(** X17: The pool never grows beyond [pool_size]: a [with] block over
    [get_connection] keeps the bound, whether its body returns or raises,
    if the body (which may use the pool itself) keeps it. *)
Theorem get_connection_pool_bounded {A} (body : nat → ConnectionPool.PoolM A)
    (s : ConnectionPool.Pool) :
  pool_bounded s →
  (∀ conn s', pool_bounded s' → pool_bounded (body conn s').2) →
  pool_bounded (ConnectionPool.with_connection body s).2.
Proof.
  intros Hs Hbody. rewrite with_connection_eq.
  pose proof (enter_bounded s Hs) as H1.
  destruct (ConnectionPool.get_connection_enter s) as [[conn|e] s1]; cbn [snd] in *; [|exact H1].
  apply exit_bounded, Hbody, H1.
Qed.

Lemma get_connection_pool_bounded_witness :
  pool_bounded pool0 ∧
  pool_bounded (ConnectionPool.with_connection (λ _, use_connection) pool0).2.
Proof.
  assert (H : pool_bounded pool0) by (unfold pool_bounded; cbn; lia).
  split; [exact H|].
  apply (get_connection_pool_bounded (λ _, use_connection) pool0 H).
  intros conn s' Hs'.
  apply (get_connection_pool_bounded (λ _, mret tt) s' Hs'). intros _ s'' Hs''. exact Hs''.
Defined.

Lemma connections_made_NoDup s : NoDup (connections_made s).
Proof. unfold connections_made. apply NoDup_filter, NoDup_seq. Qed.

Lemma enter_accounted held s :
  accounted held s →
  match ConnectionPool.get_connection_enter s with
  | (Ret conn, s1) => accounted (conn :: held) s1
  | (Raise _, s1) => accounted held s1
  end.
Proof.
  unfold accounted, connections_made. intros H. rewrite get_connection_enter_eq.
  destruct (last (ConnectionPool._connection_pool s)) as [c|] eqn:El.
  - cbn [ConnectionPool._connection_pool ConnectionPool.closed ConnectionPool.connects
         ConnectionPool.connect_error].
    rewrite <- H. rewrite (last_Some_snoc _ _ El) at 2.
    rewrite <- !app_assoc. apply Permutation_app_head. cbn [app].
    rewrite (Permutation_middle (ConnectionPool.closed s) held c). reflexivity.
  - apply last_None in El.
    destruct (ConnectionPool.connect_error s (ConnectionPool.connects s)) as [e|] eqn:Ec;
      cbn [ConnectionPool._connection_pool ConnectionPool.closed ConnectionPool.connects
           ConnectionPool.connect_error];
      rewrite seq_S, filter_app; cbn [Nat.add].
    + rewrite filter_cons_False by (by rewrite Ec). rewrite filter_nil, app_nil_r. exact H.
    + rewrite filter_cons_True by exact Ec. rewrite filter_nil, <- H.
      rewrite El. cbn [app]. rewrite <- app_assoc.
      apply Permutation_app_head. apply Permutation_cons_append.
Qed.

Lemma exit_accounted conn held s :
  accounted (conn :: held) s →
  accounted held (ConnectionPool.get_connection_exit conn s).2.
Proof.
  unfold accounted, connections_made. intros H. rewrite get_connection_exit_eq. cbn [snd].
  destruct (_ <? _)%Z;
    cbn [ConnectionPool.set_pool ConnectionPool._connection_pool ConnectionPool.closed
         ConnectionPool.connects ConnectionPool.connect_error];
    rewrite <- H.
  - rewrite <- app_assoc. apply Permutation_app_head. cbn [app].
    apply Permutation_middle.
  - apply Permutation_app_head. rewrite <- app_assoc. cbn [app]. reflexivity.
Qed.

(** X18: No connection is lost, closed twice or given to two blocks.  If every
    connection made so far is in the pool, closed, or held by an enclosing
    block, exactly once, then the connection a [with] block receives is
    none of the pooled, closed or held ones, and after the block (however
    its body ends) the bookkeeping holds again with the connection given
    back or closed. *)
Theorem get_connection_accounting {A} (body : nat → ConnectionPool.PoolM A)
    (held : list nat) (s : ConnectionPool.Pool) :
  accounted held s →
  (∀ conn s', accounted (conn :: held) s' → accounted (conn :: held) (body conn s').2) →
  accounted held (ConnectionPool.with_connection body s).2 ∧
  ∀ conn s1, ConnectionPool.get_connection_enter s = (Ret conn, s1) →
    (conn ∉ ConnectionPool._connection_pool s1) ∧ (conn ∉ ConnectionPool.closed s1) ∧
    (conn ∉ held).
Proof.
  intros Hs Hbody. pose proof (enter_accounted held s Hs) as H1. split.
  - rewrite with_connection_eq.
    destruct (ConnectionPool.get_connection_enter s) as [[conn|e] s1]; cbn [snd]; [|exact H1].
    apply exit_accounted, Hbody, H1.
  - intros conn s1 E. rewrite E in H1. unfold accounted in H1.
    pose proof (connections_made_NoDup s1) as Hnd. rewrite <- H1 in Hnd.
    apply NoDup_app in Hnd as (_ & Hp & Hnd).
    apply NoDup_app in Hnd as (_ & Hc & Hnd).
    apply NoDup_cons in Hnd as [Hh _].
    split; [|split; [|exact Hh]].
    + intros Hin. apply (Hp conn Hin). apply elem_of_app. right. apply list_elem_of_here.
    + intros Hin. apply (Hc conn Hin). apply list_elem_of_here.
Qed.

Lemma get_connection_accounting_witness :
  accounted [] pool0 ∧
  accounted [] (ConnectionPool.with_connection (λ _, mret tt) pool0).2.
Proof.
  assert (H : accounted [] pool0) by (unfold accounted; reflexivity).
  split; [exact H|].
  apply (get_connection_accounting (λ _, mret tt) [] pool0 H).
  intros conn s' Hs'. exact Hs'.
Defined.

Lemma use_connection_pooled p c size oracle n cl y :
  (Z.of_nat (length (p ++ [c])) ≤ size)%Z →
  use_connection (ConnectionPool.MkPool (p ++ [c]) size oracle n cl y) =
    (Ret tt, ConnectionPool.MkPool (p ++ [c]) size oracle n cl (y ++ [c])).
Proof.
  intros Hb. unfold use_connection. rewrite with_connection_eq, get_connection_enter_eq.
  cbn [ConnectionPool._connection_pool ConnectionPool.pool_size ConnectionPool.connect_error
       ConnectionPool.connects ConnectionPool.closed ConnectionPool.yielded].
  rewrite last_snoc, removelast_last. unfold mret, SE_ret. cbn [fst snd].
  rewrite get_connection_exit_eq.
  cbn [ConnectionPool._connection_pool ConnectionPool.pool_size ConnectionPool.set_pool
       ConnectionPool.connect_error ConnectionPool.connects ConnectionPool.closed
       ConnectionPool.yielded snd].
  rewrite length_app in Hb. cbn [length] in Hb.
  replace (Z.of_nat (length p) <? size)%Z with true by (symmetry; apply Z.ltb_lt; lia).
  reflexivity.
Qed.

Lemma use_connections_pooled k : ∀ p c size oracle n cl y,
  (Z.of_nat (length (p ++ [c])) ≤ size)%Z →
  use_connections k (ConnectionPool.MkPool (p ++ [c]) size oracle n cl y) =
    (Ret tt, ConnectionPool.MkPool (p ++ [c]) size oracle n cl (y ++ replicate k c)).
Proof.
  unfold use_connections. induction k as [|k IH]; intros p c size oracle n cl y Hb.
  - cbn [replicate for_each]. by rewrite app_nil_r.
  - cbn [replicate for_each]. unfold mbind, SE_bind.
    rewrite use_connection_pooled by exact Hb. rewrite IH by exact Hb.
    by rewrite <- app_assoc.
Qed.

Lemma use_connection_fresh s :
  ConnectionPool._connection_pool s = [] →
  ConnectionPool.connect_error s (ConnectionPool.connects s) = None →
  use_connection s =
    (Ret tt,
     if (0 <? ConnectionPool.pool_size s)%Z then
       ConnectionPool.MkPool [ConnectionPool.connects s] (ConnectionPool.pool_size s)
         (ConnectionPool.connect_error s) (S (ConnectionPool.connects s))
         (ConnectionPool.closed s)
         (ConnectionPool.yielded s ++ [ConnectionPool.connects s])
     else
       ConnectionPool.MkPool [] (ConnectionPool.pool_size s)
         (ConnectionPool.connect_error s) (S (ConnectionPool.connects s))
         (ConnectionPool.closed s ++ [ConnectionPool.connects s])
         (ConnectionPool.yielded s ++ [ConnectionPool.connects s])).
Proof.
  intros Hp Hok. unfold use_connection. rewrite with_connection_eq, get_connection_enter_eq.
  rewrite Hp, Hok. cbn [last]. unfold mret, SE_ret. cbn [fst snd].
  rewrite get_connection_exit_eq.
  cbn [ConnectionPool._connection_pool ConnectionPool.pool_size ConnectionPool.set_pool
       ConnectionPool.connect_error ConnectionPool.connects ConnectionPool.closed
       ConnectionPool.yielded snd].
  cbn [length app]. change (Z.of_nat 0) with 0%Z.
  by destruct (0 <? ConnectionPool.pool_size s)%Z.
Qed.

(** X19: Blocks that follow one another share one connection.  From an empty
    pool with room for at least one connection, on a database that can be
    opened, any number of [with] blocks in a row makes one connection:
    each block receives it, none closes it, and it is in the pool at the
    end. *)
Theorem sequential_uses_share_one_connection (s : ConnectionPool.Pool) (n : nat) :
  ConnectionPool._connection_pool s = [] →
  (1 ≤ ConnectionPool.pool_size s)%Z →
  ConnectionPool.connect_error s (ConnectionPool.connects s) = None →
  (1 ≤ n)%nat →
  use_connections n s =
    (Ret tt,
     ConnectionPool.MkPool [ConnectionPool.connects s] (ConnectionPool.pool_size s)
       (ConnectionPool.connect_error s) (S (ConnectionPool.connects s))
       (ConnectionPool.closed s)
       (ConnectionPool.yielded s ++ replicate n (ConnectionPool.connects s))).
Proof.
  intros Hp Hsize Hok Hn. destruct n as [|n]; [lia|].
  unfold use_connections. cbn [replicate for_each]. unfold mbind, SE_bind.
  rewrite (use_connection_fresh s Hp Hok).
  replace (0 <? ConnectionPool.pool_size s)%Z with true by (symmetry; apply Z.ltb_lt; lia).
  pose proof (use_connections_pooled n [] (ConnectionPool.connects s)
                (ConnectionPool.pool_size s) (ConnectionPool.connect_error s)
                (S (ConnectionPool.connects s)) (ConnectionPool.closed s)
                (ConnectionPool.yielded s ++ [ConnectionPool.connects s])) as H.
  unfold use_connections in H. cbn [app] in H. rewrite H by (cbn [length]; lia).
  by rewrite <- app_assoc.
Qed.

Lemma sequential_uses_share_one_connection_witness :
  use_connections 3 pool0 = (Ret tt, ConnectionPool.MkPool [0%nat] 5 (λ _, None) 1 [] [0; 0; 0]%nat).
Proof.
  apply (sequential_uses_share_one_connection pool0 3).
  - reflexivity.
  - cbn. lia.
  - reflexivity.
  - lia.
Defined.

(** X20: A pool without room closes what it opens.  With [pool_size] zero or
    less and an empty pool, each of [n] blocks in a row makes a connection of
    its own, which is closed when the block ends; the pool stays empty. *)
Theorem pool_without_room_closes_each_connection (n : nat) : ∀ s : ConnectionPool.Pool,
  ConnectionPool._connection_pool s = [] →
  (ConnectionPool.pool_size s ≤ 0)%Z →
  (∀ k, (k < n)%nat → ConnectionPool.connect_error s (ConnectionPool.connects s + k) = None) →
  use_connections n s =
    (Ret tt,
     ConnectionPool.MkPool [] (ConnectionPool.pool_size s) (ConnectionPool.connect_error s)
       (ConnectionPool.connects s + n)
       (ConnectionPool.closed s ++ seq (ConnectionPool.connects s) n)
       (ConnectionPool.yielded s ++ seq (ConnectionPool.connects s) n)).
Proof.
  unfold use_connections. induction n as [|n IH]; intros s Hp Hsize Hok.
  - cbn [replicate for_each seq]. rewrite !app_nil_r, Nat.add_0_r, <- Hp. by destruct s.
  - cbn [replicate for_each]. unfold mbind, SE_bind.
    pose proof (Hok 0%nat ltac:(lia)) as H0. rewrite Nat.add_0_r in H0.
    rewrite (use_connection_fresh s Hp H0).
    replace (0 <? ConnectionPool.pool_size s)%Z with false
      by (symmetry; apply Z.ltb_ge; lia).
    rewrite IH; cbn [ConnectionPool._connection_pool ConnectionPool.pool_size
         ConnectionPool.connect_error ConnectionPool.connects ConnectionPool.closed
         ConnectionPool.yielded].
    + cbn [seq]. rewrite <- !app_assoc. cbn [app].
      by replace (S (ConnectionPool.connects s) + n)%nat
        with (ConnectionPool.connects s + S n)%nat by lia.
    + reflexivity.
    + exact Hsize.
    + intros k Hk. replace (S (ConnectionPool.connects s) + k)%nat
        with (ConnectionPool.connects s + S k)%nat by lia. apply Hok. lia.
Qed.

Lemma pool_without_room_closes_each_connection_witness :
  use_connections 2 (ConnectionPool.MkPool [] 0 (λ _, None) 0 [] []) =
    (Ret tt, ConnectionPool.MkPool [] 0 (λ _, None) 2 [0; 1]%nat [0; 1]%nat).
Proof.
  apply (pool_without_room_closes_each_connection 2 (ConnectionPool.MkPool [] 0 (λ _, None) 0 [] [])).
  - reflexivity.
  - cbn. lia.
  - intros k Hk. reflexivity.
Defined.

(** ** Service checks *)

Lemma subscript_ref d k v σ :
  service_field σ d k = Some v → MonitoringChecks.subscript (VRef d) k σ = (Ret v, σ).
Proof. unfold service_field, MonitoringChecks.subscript, dict_getitem. by intros ->. Qed.

Lemma subscript_set_ref d k x σ :
  MonitoringChecks.subscript_set (VRef d) k x σ = (Ret tt, set_field d k x σ).
Proof. reflexivity. Qed.

Lemma subscript_incr_int d k n σ :
  service_field σ d k = Some (VInt n) →
  MonitoringChecks.subscript_incr (VRef d) k σ = (Ret tt, set_field d k (VInt (n + 1)) σ).
Proof.
  intros H. unfold MonitoringChecks.subscript_incr. unfold mbind, SE_bind.
  rewrite (subscript_ref _ _ _ _ H). reflexivity.
Qed.

Lemma service_field_set σ d k x k' :
  service_field (set_field d k x σ) d k' =
    if decide (k = k') then Some x else service_field σ d k'.
Proof.
  unfold service_field, set_field, set_dicts. cbn [dicts]. rewrite lookup_total_insert_eq.
  destruct (decide (k = k')) as [->|Hne]; [by rewrite lookup_insert_eq|by rewrite lookup_insert_ne].
Qed.

Lemma service_field_tick σ d k : service_field (tick σ) d k = service_field σ d k.
Proof. reflexivity. Qed.

Lemma service_field_add_log r σ d k : service_field (add_log r σ) d k = service_field σ d k.
Proof. reflexivity. Qed.

Ltac field_simpl :=
  repeat first
    [ rewrite service_field_tick
    | rewrite service_field_add_log
    | rewrite service_field_set;
      first [rewrite decide_True by reflexivity | rewrite decide_False by discriminate] ].

Lemma time_time_eq σ : time_time σ = (Ret (clock σ (ticks σ)).1, tick σ).
Proof. reflexivity. Qed.

Lemma now_isoformat_eq σ : now_isoformat σ = (Ret (clock σ (ticks σ)).2, tick σ).
Proof. reflexivity. Qed.

Lemma logger_eq self level msg σ :
  logger self level msg σ = (Ret tt, add_log (MkLog (name (objs σ !!! self)) level msg) σ).
Proof. reflexivity. Qed.

Ltac mstep L := unfold mbind at 1, SE_bind; rewrite L; cbv beta iota.

Ltac check_service_prefix sv m url timeout σ Hm Hgp Hu Ht Hr :=
  unfold MonitoringChecks.check_service_try;
  mstep time_time_eq;
  mstep (subscript_ref sv "method" (VStr m) (tick σ) Hm);
  unfold mbind at 1, SE_bind;
  destruct Hgp as [->| ->];
  [rewrite bool_decide_eq_true_2 by reflexivity
  |rewrite bool_decide_eq_false_2 by discriminate;
   rewrite bool_decide_eq_true_2 by reflexivity];
  (mstep (subscript_ref sv "url" url (tick σ) Hu);
   mstep (subscript_ref sv "timeout" timeout (tick σ) Ht);
   mstep Hr).

(** With a method the code knows, the request is made right after the clock
    is read, and what it raises leaves the [try]. *)
Lemma check_service_request threshold requests alert format unbound self service_name
    sv m url timeout σ e σ2 :
  service_field σ sv "method" = Some (VStr m) →
  m = "GET" ∨ m = "POST" →
  service_field σ sv "url" = Some url →
  service_field σ sv "timeout" = Some timeout →
  requests m url timeout (tick σ) = (Raise e, σ2) →
  MonitoringChecks.check_service_try threshold requests alert format unbound
    self service_name (VRef sv) σ = (Raise e, σ2).
Proof.
  intros Hm Hgp Hu Ht Hr.
  check_service_prefix sv m url timeout σ Hm Hgp Hu Ht Hr; reflexivity.
Qed.

(** The state a check leaves when the service answers 200. *)
Lemma check_service_try_healthy threshold requests alert format unbound self service_name
    sv m url timeout σ σ2 :
  service_field σ sv "method" = Some (VStr m) →
  m = "GET" ∨ m = "POST" →
  service_field σ sv "url" = Some url →
  service_field σ sv "timeout" = Some timeout →
  requests m url timeout (tick σ) = (Ret 200%Z, σ2) →
  (0 < threshold)%Z →
  MonitoringChecks.check_service_try threshold requests alert format unbound
    self service_name (VRef sv) σ =
  (Ret true,
   set_field sv "response_time"
     (VFloat (((clock σ2 (ticks σ2)).1 - (clock σ (ticks σ)).1) * 1000))
     (set_field sv "last_check" (VStr (clock σ2 (S (ticks σ2))).2)
        (tick (set_field sv "status" (VStr "healthy")
                 (set_field sv "failures" (VInt 0) (tick σ2)))))).
Proof.
  intros Hm Hgp Hu Ht Hr Hthr.
  check_service_prefix sv m url timeout σ Hm Hgp Hu Ht Hr.
  all: unfold mret at 1, SE_ret; cbv beta iota.
  all: mstep time_time_eq.
  all: change (200 =? 200)%Z with true; cbv beta iota.
  all: unfold mbind at 1, SE_bind; unfold mbind at 1, SE_bind.
  all: rewrite !subscript_set_ref; cbv beta iota.
  all: mstep now_isoformat_eq.
  all: mstep subscript_set_ref.
  all: mstep subscript_set_ref.
  all: unfold mbind at 1, SE_bind; erewrite subscript_ref
         by (field_simpl; reflexivity); cbv beta iota.
  all: unfold mbind at 1, SE_bind; unfold MonitoringChecks.py_ge at 1; unfold mret at 1, SE_ret.
  all: replace (threshold <=? 0)%Z with false by (symmetry; apply Z.leb_gt; lia).
  all: reflexivity.
Qed.

Lemma dict_getitem_eq d k v σ :
  service_field σ d k = Some v → dict_getitem d k σ = (Ret v, σ).
Proof. unfold service_field, dict_getitem. by intros ->. Qed.

(** X25: A check that gets the answer 200 reports the service healthy and starts
    counting again: it returns [True], sets the failure count to 0 and the
    status to healthy, logs nothing and, the threshold being positive, sends
    no alert. *)
Theorem check_service_healthy_resets (services : loc) (threshold : Z)
    (requests : string → pyval → pyval → BotM Z) (format : pyval → string) (unbound : exn)
    (self : loc) (service_name : string) (sv : loc) (m : string) (url timeout : pyval)
    (σ σ2 : Env) :
  service_field σ services service_name = Some (VRef sv) →
  service_field σ sv "method" = Some (VStr m) →
  m = "GET" ∨ m = "POST" →
  service_field σ sv "url" = Some url →
  service_field σ sv "timeout" = Some timeout →
  requests m url timeout (tick σ) = (Ret 200%Z, σ2) →
  (0 < threshold)%Z →
  ∃ σ3,
    (∀ alert, MonitoringChecks._check_service services threshold requests alert format
                unbound self service_name σ = (Ret true, σ3)) ∧
    service_field σ3 sv "failures" = Some (VInt 0) ∧
    service_field σ3 sv "status" = Some (VStr "healthy") ∧
    logs σ3 = logs σ2.
Proof.
  intros Hs Hm Hgp Hu Ht Hr Hthr. eexists. split.
  - intros alert. unfold MonitoringChecks._check_service.
    mstep (dict_getitem_eq services service_name (VRef sv) σ Hs).
    unfold try_except.
    rewrite (check_service_try_healthy threshold requests alert format unbound self
               service_name sv m url timeout σ σ2 Hm Hgp Hu Ht Hr Hthr).
    reflexivity.
  - split; [by field_simpl|]. split; [by field_simpl|reflexivity].
Qed.

Lemma check_service_healthy_resets_witness :
  ∃ σ3,
    (∀ alert, MonitoringChecks._check_service services1 5 (requests_status 200) alert
                (λ _, "") unbound1 bot1 "rpc" env_services = (Ret true, σ3)) ∧
    service_field σ3 rpc1 "failures" = Some (VInt 0) ∧
    service_field σ3 rpc1 "status" = Some (VStr "healthy") ∧
    logs σ3 = logs (tick env_services).
Proof.
  apply (check_service_healthy_resets services1 5 (requests_status 200) (λ _, "") unbound1
           bot1 "rpc" rpc1 "POST" (VStr "https://api.devnet.solana.com") (VInt 10)
           env_services (tick env_services)).
  - vm_compute. reflexivity.
  - vm_compute. reflexivity.
  - right. reflexivity.
  - vm_compute. reflexivity.
  - vm_compute. reflexivity.
  - reflexivity.
  - lia.
Defined.

(** X26: A service that cannot be reached is never reported.  When the request
    raises anything but a timeout, the check counts one more failure, sets
    the status to error, logs the error and returns [False]; whatever the
    count has reached, [_send_alert] has no part in it. *)
Theorem check_service_error_never_alerts (services : loc) (threshold : Z)
    (requests : string → pyval → pyval → BotM Z) (format : pyval → string) (unbound : exn)
    (self : loc) (service_name : string) (sv : loc) (m : string) (url timeout : pyval)
    (e : exn) (k : Z) (σ σ2 : Env) :
  service_field σ services service_name = Some (VRef sv) →
  service_field σ sv "method" = Some (VStr m) →
  m = "GET" ∨ m = "POST" →
  service_field σ sv "url" = Some url →
  service_field σ sv "timeout" = Some timeout →
  requests m url timeout (tick σ) = (Raise e, σ2) →
  MonitoringChecks.is_timeout e = false →
  service_field σ2 sv "failures" = Some (VInt k) →
  ∃ σ3,
    (∀ alert, MonitoringChecks._check_service services threshold requests alert format
                unbound self service_name σ = (Ret false, σ3)) ∧
    service_field σ3 sv "failures" = Some (VInt (k + 1)) ∧
    service_field σ3 sv "status" = Some (VStr "error") ∧
    logs σ3 = logs σ2 ++
      [MkLog (name (objs σ2 !!! self)) "error"
         ("Error checking " +:+ service_name +:+ ": " +:+ str e)].
Proof.
  intros Hs Hm Hgp Hu Ht Hr Hto Hk. eexists. split.
  - intros alert. unfold MonitoringChecks._check_service.
    mstep (dict_getitem_eq services service_name (VRef sv) σ Hs).
    unfold try_except.
    rewrite (check_service_request threshold requests alert format unbound self
               service_name sv m url timeout σ e σ2 Hm Hgp Hu Ht Hr).
    unfold MonitoringChecks.check_service_except. rewrite Hto.
    mstep (subscript_incr_int sv "failures" k σ2 Hk).
    mstep subscript_set_ref.
    mstep now_isoformat_eq.
    mstep subscript_set_ref.
    mstep logger_eq.
    reflexivity.
  - split; [by field_simpl|]. split; [by field_simpl|reflexivity].
Qed.

Lemma check_service_error_never_alerts_witness :
  ∃ σ3,
    (∀ alert, MonitoringChecks._check_service services1 1 requests_refused alert
                (λ _, "") unbound1 bot1 "rpc" env_services = (Ret false, σ3)) ∧
    service_field σ3 rpc1 "failures" = Some (VInt (0 + 1)) ∧
    service_field σ3 rpc1 "status" = Some (VStr "error") ∧
    logs σ3 = logs (tick env_services) ++
      [MkLog (name (objs (tick env_services) !!! bot1)) "error"
         ("Error checking " +:+ "rpc" +:+ ": " +:+ str refused)].
Proof.
  apply (check_service_error_never_alerts services1 1 requests_refused (λ _, "") unbound1
           bot1 "rpc" rpc1 "POST" (VStr "https://api.devnet.solana.com") (VInt 10)
           refused 0 env_services (tick env_services)).
  - vm_compute. reflexivity.
  - vm_compute. reflexivity.
  - right. reflexivity.
  - vm_compute. reflexivity.
  - vm_compute. reflexivity.
  - reflexivity.
  - vm_compute. reflexivity.
  - vm_compute. reflexivity.
Defined.

(** X27: An answer other than 200 counts as a failure, and from the threshold on
    each one is reported.  The check adds one to the failure count, sets the
    status to unhealthy and returns [False]; it calls [_send_alert], as
    critical and with the new count in the message, exactly when that count
    has reached [alert_threshold].  (An exception of [_send_alert] would be
    handled by the [except] clauses of the check.) *)
Theorem check_service_failure_alerts_from_threshold (services : loc) (threshold : Z)
    (requests : string → pyval → pyval → BotM Z) (format : pyval → string) (unbound : exn)
    (self : loc) (service_name : string) (sv : loc) (m : string) (url timeout : pyval)
    (code k : Z) (σ σ2 : Env) :
  service_field σ services service_name = Some (VRef sv) →
  service_field σ sv "method" = Some (VStr m) →
  m = "GET" ∨ m = "POST" →
  service_field σ sv "url" = Some url →
  service_field σ sv "timeout" = Some timeout →
  requests m url timeout (tick σ) = (Ret code, σ2) →
  code ≠ 200%Z →
  service_field σ2 sv "failures" = Some (VInt k) →
  ∃ σ3,
    service_field σ3 sv "failures" = Some (VInt (k + 1)) ∧
    service_field σ3 sv "status" = Some (VStr "unhealthy") ∧
    ∀ alert,
      MonitoringChecks._check_service services threshold requests alert format
        unbound self service_name σ =
      if (threshold <=? k + 1)%Z then
        match alert self "critical" (service_name +:+ " is DOWN")
                (service_name +:+ " has failed " +:+ format (VInt (k + 1)) +:+
                 " consecutive health checks") σ3 with
        | (Ret _, σ4) => (Ret false, σ4)
        | (Raise e, σ4) =>
            MonitoringChecks.check_service_except threshold alert format self service_name
              (VRef sv) e σ4
        end
      else (Ret false, σ3).
Proof.
  intros Hs Hm Hgp Hu Ht Hr Hcode Hk.
  exists (set_field sv "response_time"
            (VFloat (((clock σ2 (ticks σ2)).1 - (clock σ (ticks σ)).1) * 1000))
            (set_field sv "last_check" (VStr (clock σ2 (S (ticks σ2))).2)
               (tick (add_log (MkLog (name (objs σ2 !!! self)) "warning"
                                 (service_name +:+ " returned status " +:+ pretty code))
                        (set_field sv "status" (VStr "unhealthy")
                           (set_field sv "failures" (VInt (k + 1)) (tick σ2))))))).
  split; [by field_simpl|]. split; [by field_simpl|].
  intros alert. unfold MonitoringChecks._check_service.
  mstep (dict_getitem_eq services service_name (VRef sv) σ Hs).
  unfold try_except.
  check_service_prefix sv m url timeout σ Hm Hgp Hu Ht Hr.
  all: unfold mret at 1, SE_ret; cbv beta iota.
  all: mstep time_time_eq.
  all: replace (code =? 200)%Z with false by (symmetry; by apply Z.eqb_neq).
  all: cbv beta iota.
  all: unfold mbind at 1, SE_bind; unfold mbind at 1, SE_bind.
  all: rewrite (subscript_incr_int sv "failures" k (tick σ2) Hk); cbv beta iota.
  all: mstep subscript_set_ref.
  all: rewrite logger_eq; cbv beta iota.
  all: mstep now_isoformat_eq.
  all: mstep subscript_set_ref.
  all: mstep subscript_set_ref.
  all: unfold mbind at 1, SE_bind; erewrite subscript_ref
         by (field_simpl; reflexivity); cbv beta iota.
  all: unfold mbind at 1, SE_bind; unfold MonitoringChecks.py_ge at 1; unfold mret at 1, SE_ret.
  all: destruct (threshold <=? k + 1)%Z; cbv beta iota; [|reflexivity].
  all: unfold mbind at 1, SE_bind; unfold mbind at 1, SE_bind.
  all: erewrite subscript_ref by (field_simpl; reflexivity); cbv beta iota.
  all: cbn [add_log set_field set_dicts tick objs clock ticks].
  all: match goal with |- _ = (let (_, _) := ?x in _) => destruct x as [[[]|e'] σ4] end.
  all: reflexivity.
Qed.

Lemma check_service_failure_alerts_from_threshold_witness :
  ∃ σ3,
    service_field σ3 rpc1 "failures" = Some (VInt (0 + 1)) ∧
    service_field σ3 rpc1 "status" = Some (VStr "unhealthy") ∧
    ∀ alert,
      MonitoringChecks._check_service services1 5 (requests_status 503) alert (λ _, "")
        unbound1 bot1 "rpc" env_services =
      if (5 <=? 0 + 1)%Z then
        match alert bot1 "critical" ("rpc" +:+ " is DOWN")
                ("rpc" +:+ " has failed " +:+ "" +:+ " consecutive health checks") σ3 with
        | (Ret _, σ4) => (Ret false, σ4)
        | (Raise e, σ4) =>
            MonitoringChecks.check_service_except 5 alert (λ _, "") bot1 "rpc"
              (VRef rpc1) e σ4
        end
      else (Ret false, σ3).
Proof.
  apply (check_service_failure_alerts_from_threshold services1 5 (requests_status 503)
           (λ _, "") unbound1 bot1 "rpc" rpc1 "POST" (VStr "https://api.devnet.solana.com")
           (VInt 10) 503 0 env_services (tick env_services)).
  - vm_compute. reflexivity.
  - vm_compute. reflexivity.
  - right. reflexivity.
  - vm_compute. reflexivity.
  - vm_compute. reflexivity.
  - reflexivity.
  - lia.
  - vm_compute. reflexivity.
Defined.

(** X28: A timeout counts as a failure too, with a report of its own from the
    threshold on: the check adds one to the failure count, sets the status to
    timeout, logs the timeout and returns [False], and it calls
    [_send_alert] exactly when the new count has reached [alert_threshold].
    Here nothing handles an exception of [_send_alert]: it leaves the
    check. *)
Theorem check_service_timeout_alerts_from_threshold (services : loc) (threshold : Z)
    (requests : string → pyval → pyval → BotM Z) (format : pyval → string) (unbound : exn)
    (self : loc) (service_name : string) (sv : loc) (m : string) (url timeout : pyval)
    (e : exn) (k : Z) (σ σ2 : Env) :
  service_field σ services service_name = Some (VRef sv) →
  service_field σ sv "method" = Some (VStr m) →
  m = "GET" ∨ m = "POST" →
  service_field σ sv "url" = Some url →
  service_field σ sv "timeout" = Some timeout →
  requests m url timeout (tick σ) = (Raise e, σ2) →
  MonitoringChecks.is_timeout e = true →
  service_field σ2 sv "failures" = Some (VInt k) →
  ∃ σ3,
    service_field σ3 sv "failures" = Some (VInt (k + 1)) ∧
    service_field σ3 sv "status" = Some (VStr "timeout") ∧
    logs σ3 = logs σ2 ++
      [MkLog (name (objs σ2 !!! self)) "error" (service_name +:+ " health check timed out")] ∧
    ∀ alert,
      MonitoringChecks._check_service services threshold requests alert format
        unbound self service_name σ =
      if (threshold <=? k + 1)%Z then
        match alert self "critical" (service_name +:+ " is UNRESPONSIVE")
                (service_name +:+ " has timed out " +:+ format (VInt (k + 1)) +:+
                 " times") σ3 with
        | (Ret _, σ4) => (Ret false, σ4)
        | (Raise e', σ4) => (Raise e', σ4)
        end
      else (Ret false, σ3).
Proof.
  intros Hs Hm Hgp Hu Ht Hr Hto Hk.
  exists (add_log (MkLog (name (objs σ2 !!! self)) "error"
                     (service_name +:+ " health check timed out"))
            (set_field sv "last_check" (VStr (clock σ2 (ticks σ2)).2)
               (tick (set_field sv "status" (VStr "timeout")
                        (set_field sv "failures" (VInt (k + 1)) σ2))))).
  split; [by field_simpl|]. split; [by field_simpl|]. split; [reflexivity|].
  intros alert. unfold MonitoringChecks._check_service.
  mstep (dict_getitem_eq services service_name (VRef sv) σ Hs).
  unfold try_except.
  rewrite (check_service_request threshold requests alert format unbound self
             service_name sv m url timeout σ e σ2 Hm Hgp Hu Ht Hr).
  unfold MonitoringChecks.check_service_except. rewrite Hto.
  mstep (subscript_incr_int sv "failures" k σ2 Hk).
  mstep subscript_set_ref.
  mstep now_isoformat_eq.
  mstep subscript_set_ref.
  mstep logger_eq.
  unfold mbind at 1, SE_bind; erewrite subscript_ref by (field_simpl; reflexivity).
  cbv beta iota.
  unfold mbind at 1, SE_bind; unfold MonitoringChecks.py_ge at 1; unfold mret at 1, SE_ret.
  destruct (threshold <=? k + 1)%Z; cbv beta iota; [|reflexivity].
  unfold mbind at 1, SE_bind; unfold mbind at 1, SE_bind.
  erewrite subscript_ref by (field_simpl; reflexivity). cbv beta iota.
  cbn [add_log set_field set_dicts tick objs clock ticks].
  match goal with |- _ = (let (_, _) := ?x in _) => destruct x as [[[]|e'] σ4] end;
    reflexivity.
Qed.

Lemma check_service_timeout_alerts_from_threshold_witness :
  ∃ σ3,
    service_field σ3 rpc1 "failures" = Some (VInt (0 + 1)) ∧
    service_field σ3 rpc1 "status" = Some (VStr "timeout") ∧
    logs σ3 = logs (tick env_services) ++
      [MkLog (name (objs (tick env_services) !!! bot1)) "error"
         ("rpc" +:+ " health check timed out")] ∧
    ∀ alert,
      MonitoringChecks._check_service services1 1 requests_timeout alert (λ _, "")
        unbound1 bot1 "rpc" env_services =
      if (1 <=? 0 + 1)%Z then
        match alert bot1 "critical" ("rpc" +:+ " is UNRESPONSIVE")
                ("rpc" +:+ " has timed out " +:+ "" +:+ " times") σ3 with
        | (Ret _, σ4) => (Ret false, σ4)
        | (Raise e', σ4) => (Raise e', σ4)
        end
      else (Ret false, σ3).
Proof.
  apply (check_service_timeout_alerts_from_threshold services1 1 requests_timeout
           (λ _, "") unbound1 bot1 "rpc" rpc1 "POST" (VStr "https://api.devnet.solana.com")
           (VInt 10) timed_out 0 env_services (tick env_services)).
  - vm_compute. reflexivity.
  - vm_compute. reflexivity.
  - right. reflexivity.
  - vm_compute. reflexivity.
  - vm_compute. reflexivity.
  - reflexivity.
  - vm_compute. reflexivity.
  - vm_compute. reflexivity.
Defined.

(** X29: A service with a method other than GET and POST is never contacted and
    always in error.  No request is made; the check fails on the response
    that was never assigned, so that it counts a failure, sets the status to
    error, logs the error and returns [False], and sends no alert either. *)
Theorem check_service_unknown_method (services : loc) (threshold : Z)
    (format : pyval → string) (unbound : exn)
    (self : loc) (service_name : string) (sv : loc) (method : pyval) (k : Z) (σ : Env) :
  service_field σ services service_name = Some (VRef sv) →
  service_field σ sv "method" = Some method →
  method ≠ VStr "GET" → method ≠ VStr "POST" →
  MonitoringChecks.is_timeout unbound = false →
  service_field σ sv "failures" = Some (VInt k) →
  ∃ σ3,
    (∀ requests alert,
       MonitoringChecks._check_service services threshold requests alert format
         unbound self service_name σ = (Ret false, σ3)) ∧
    service_field σ3 sv "failures" = Some (VInt (k + 1)) ∧
    service_field σ3 sv "status" = Some (VStr "error") ∧
    logs σ3 = logs σ ++
      [MkLog (name (objs σ !!! self)) "error"
         ("Error checking " +:+ service_name +:+ ": " +:+ str unbound)].
Proof.
  intros Hs Hm Hg Hp Hto Hk. eexists. split.
  - intros requests alert. unfold MonitoringChecks._check_service.
    mstep (dict_getitem_eq services service_name (VRef sv) σ Hs).
    unfold try_except. unfold MonitoringChecks.check_service_try.
    mstep time_time_eq.
    mstep (subscript_ref sv "method" method (tick σ) Hm).
    unfold mbind at 1, SE_bind.
    rewrite !bool_decide_eq_false_2 by done.
    unfold mret at 1, SE_ret. cbv beta iota.
    mstep time_time_eq. unfold raise at 1.
    unfold MonitoringChecks.check_service_except. rewrite Hto.
    mstep (subscript_incr_int sv "failures" k (tick (tick σ)) Hk).
    mstep subscript_set_ref.
    mstep now_isoformat_eq.
    mstep subscript_set_ref.
    mstep logger_eq.
    reflexivity.
  - split; [by field_simpl|]. split; [by field_simpl|reflexivity].
Qed.

Lemma check_service_unknown_method_witness :
  ∃ σ3,
    (∀ requests alert,
       MonitoringChecks._check_service services1 5 requests alert (λ _, "")
         unbound1 bot1 "rpc" env_head = (Ret false, σ3)) ∧
    service_field σ3 rpc1 "failures" = Some (VInt (0 + 1)) ∧
    service_field σ3 rpc1 "status" = Some (VStr "error") ∧
    logs σ3 = logs env_head ++
      [MkLog (name (objs env_head !!! bot1)) "error"
         ("Error checking " +:+ "rpc" +:+ ": " +:+ str unbound1)].
Proof.
  apply (check_service_unknown_method services1 5 (λ _, "") unbound1 bot1 "rpc" rpc1
           (VStr "HEAD") 0 env_head).
  - vm_compute. reflexivity.
  - vm_compute. reflexivity.
  - discriminate.
  - discriminate.
  - vm_compute. reflexivity.
  - vm_compute. reflexivity.
Defined.
